(** * MCP Plugin Marketplace: the registry manager and its search command

    A shallow embedding of [mcp_plugin_marketplace/marketplace.py] and of the
    [search], [uninstall] and [test] commands of
    [mcp_plugin_marketplace/cli.py], with the properties of the
    specification stated and proved over it.

    Scope of the model.
    - The file system is a tree of directories and regular files (POSIX,
      case-sensitive names, no symbolic links, no permissions).  A path is
      the list of its components below the root.  There is no working
      directory: a relative path is read from the root, so that the model
      reads a path as the code does when the path is absolute.  The
      components [""] and ["."] are dropped when a path is parsed, as
      [pathlib] does; [".."] is not interpreted.  The theorems that
      depend on it say so in a hypothesis: [plain_source] for a source
      (absolute, no [".."]), [plain_name] and [entry_name] for a plugin
      name.
    - The bytes of a file are represented by what the three decoders used by
      the program make of them: [json.load], [zipfile.ZipFile] and the
      import of the file as a Python module.
    - Plugin code can change [sys.path]; its other effects are not
      modelled.  It returns, raises an exception derived from
      [Exception], or leaves with one that is not ([SystemExit]).
    - Characters are 8-bit; [str.lower] lowers the letters A-Z, as
      Python does on ASCII text.  The theorem on [search] is about ASCII
      text ([is_ascii]).
    - The library calls ([pathlib], [shutil], [zipfile], [json],
      [importlib]) behave as in CPython 3.11. *)

From Stdlib Require Import Ascii String.
From stdpp Require Import gmap strings list fin_maps.

Local Set Warnings "-register-all".

(** ** Strings *)

Module Str.

(** [c.lower()] on one character of ASCII text; other characters are
    left as they are. *)
Definition lower_ascii (c : ascii) : ascii :=
  let n := nat_of_ascii c in
  if (65 <=? n)%nat && (n <=? 90)%nat then ascii_of_nat (n + 32) else c.

(** [s.lower()] *)
Fixpoint lower (s : string) : string :=
  match s with
  | EmptyString => EmptyString
  | String c s' => String (lower_ascii c) (lower s')
  end.

(** [hay.startswith(needle)] *)
Fixpoint startswith (needle hay : string) : bool :=
  match needle, hay with
  | EmptyString, _ => true
  | String _ _, EmptyString => false
  | String a n', String b h' => Ascii.eqb a b && startswith n' h'
  end.

(** [needle in hay] for two strings: [needle] occurs in [hay]. *)
Fixpoint contains (needle hay : string) : bool :=
  startswith needle hay ||
  match hay with
  | EmptyString => false
  | String _ h' => contains needle h'
  end.

(** [s.split(sep)] for a one-character separator. *)
Fixpoint split (sep : ascii) (s : string) : list string :=
  match s with
  | EmptyString => [EmptyString]
  | String c s' =>
      if Ascii.eqb c sep then EmptyString :: split sep s'
      else match split sep s' with
           | [] => [String c EmptyString]
           | h :: t => String c h :: t
           end
  end.

(** [s.rfind(c)], [None] standing for -1. *)
Fixpoint rfind (c : ascii) (s : string) : option nat :=
  match s with
  | EmptyString => None
  | String a s' =>
      match rfind c s' with
      | Some i => Some (S i)
      | None => if Ascii.eqb a c then Some 0%nat else None
      end
  end.

(** [s.endswith(c)] for one character. *)
Fixpoint endswith (c : ascii) (s : string) : bool :=
  match s with
  | EmptyString => false
  | String a EmptyString => Ascii.eqb a c
  | String _ s' => endswith c s'
  end.

(** [sep.join(l)] *)
Fixpoint join (sep : string) (l : list string) : string :=
  match l with
  | [] => EmptyString
  | [x] => x
  | x :: l' => x +:+ sep +:+ join sep l'
  end.

End Str.

(** ** Paths ([pathlib.PurePosixPath]) *)

Abbreviation PurePath := (list string).

Module Pathlib.

(** A component kept by the parser: not empty and not ["."]. *)
Definition kept (c : string) : Prop := c ≠ "" ∧ c ≠ ".".

(** [Path(s)]: the components of [s], read from the root whether [s] is
    absolute or not. *)
Definition Path (s : string) : PurePath := filter kept (Str.split "/" s).

Definition is_absolute (s : string) : bool := Str.startswith "/" s.

(** [p / s]: an absolute segment replaces [p], a relative one extends it. *)
Definition joinpath (p : PurePath) (s : string) : PurePath :=
  if is_absolute s then Path s else p ++ Path s.

(** [p.name]: the last component, empty for the root. *)
Definition name (p : PurePath) : string := default "" (last p).

(** The position of the dot that starts the suffix of a name. *)
Definition suffix_dot (n : string) : option nat :=
  match Str.rfind "." n with
  | Some i => if (0 <? i)%nat && (i <? String.length n - 1)%nat then Some i else None
  | None => None
  end.

(** [p.suffix] *)
Definition suffix (p : PurePath) : string :=
  let n := name p in
  match suffix_dot n with
  | Some i => substring i (String.length n - i) n
  | None => ""
  end.

(** [p.stem] *)
Definition stem (p : PurePath) : string :=
  let n := name p in
  match suffix_dot n with
  | Some i => substring 0 i n
  | None => n
  end.

(** [str(p)] *)
Definition str (p : PurePath) : string := "/" +:+ Str.join "/" p.

End Pathlib.

(** ** Values: what [json.load] returns and what plugin code returns *)

Inductive value :=
| JNull
| JBool (b : bool)
| JNum (z : Z)
| JStr (s : string)
| JArr (items : list value)
| JObj (fields : list (string * value)).

(** [d.get(key)] on the items of a dict. *)
Fixpoint dict_lookup (key : string) (fields : list (string * value)) : option value :=
  match fields with
  | [] => None
  | (k, v) :: rest => if String.eqb k key then Some v else dict_lookup key rest
  end.

(** [bool(v)] *)
Definition truthy (v : value) : bool :=
  match v with
  | JNull => false
  | JBool b => b
  | JNum z => negb (z =? 0)%Z
  | JStr s => negb (String.eqb s "")
  | JArr items => match items with [] => false | _ => true end
  | JObj fields => match fields with [] => false | _ => true end
  end.

(** ** Exceptions *)

Inductive exn :=
(* raised by the program itself *)
| SourceNotFound      (* FileNotFoundError("Plugin source not found: ...") *)
| InvalidSource       (* ValueError("Plugin source must be a directory or zip file") *)
| InvalidPlugin       (* ValueError("Invalid plugin: missing manifest.json") *)
| NotInstalled        (* ValueError("Plugin '...' not installed") *)
| MissingEntryPoint   (* ValueError("Plugin '...' has no plugin.py") *)
| LoadError           (* ImportError("Could not load plugin module") *)
| ContractViolation   (* AttributeError("Plugin does not define run_test()") *)
(* raised by the libraries *)
| FileNotFoundError
| FileExistsError
| IsADirectoryError
| NotADirectoryError
| OSError
| ShutilError
| RecursionError
| BadZipFile
| JSONDecodeError
| UnicodeDecodeError
| AttributeError
| TypeError
(* raised by the code of a plugin *)
| PluginError         (* an exception derived from Exception *)
| SystemExit.         (* SystemExit, KeyboardInterrupt: BaseException only *)

Inductive outcome (A : Type) :=
| Ret (a : A)
| Raise (e : exn).
Arguments Ret {A} a.
Arguments Raise {A} e.

(** ** Files, directories and the process state *)

(** What [json.load] makes of the text of a file. *)
Inductive decoded :=
| JsonOk (v : value)
| JsonBad        (* text that is not JSON: json.JSONDecodeError *)
| NotUtf8.       (* bytes that are not UTF-8 text: UnicodeDecodeError *)

(** What importing a file as a module does.  Plugin code runs with the
    current [sys.path] and may leave another one behind.  It returns,
    raises an exception derived from [Exception], or leaves with an
    exception that is none, as [sys.exit()] does. *)
Inductive call_result :=
| Returned (v : value)
| Raised
| Exits.

Inductive attribute :=
| NotCallable
| Function (body : list string → list string * call_result).

Inductive import_result :=
| ImportFails
| Loaded (run_test : option attribute)
| ImportExits.

(** A regular file, seen through the three decoders; the members of an
    archive are pairs of a member name and the data of the member, a name
    ending in a slash standing for a directory. *)
Inductive node :=
| File (d : fdata)
| Dir (entries : gmap string node)
with fdata :=
| Bytes (as_json : decoded)
        (as_zip : option (list (string * fdata)))
        (as_module : list string → list string * import_result).

Definition json_of (d : fdata) : decoded := let 'Bytes j _ _ := d in j.
Definition zip_of (d : fdata) : option (list (string * fdata)) := let 'Bytes _ z _ := d in z.
Definition module_of (d : fdata) : list string → list string * import_result :=
  let 'Bytes _ _ m := d in m.

Record world := World {
  fs : node;                 (* the directory tree, from the root *)
  sys_path : list string;    (* sys.path *)
  home : PurePath;           (* Path.home() *)
  package_dir : PurePath     (* Path(__file__).resolve().parent *)
}.

Definition set_fs (t : node) (w : world) : world :=
  World t (sys_path w) (home w) (package_dir w).
Definition set_sys_path (l : list string) (w : world) : world :=
  World (fs w) l (home w) (package_dir w).

Module Fs.

(** The node at path [p] below [t]. *)
Fixpoint lookup (p : PurePath) (t : node) : option node :=
  match p with
  | [] => Some t
  | c :: p' =>
      match t with
      | Dir es => es !! c ≫= lookup p'
      | File _ => None
      end
  end.

Definition exists_ (p : PurePath) (t : node) : bool :=
  match lookup p t with Some _ => true | None => false end.

Definition is_dir (p : PurePath) (t : node) : bool :=
  match lookup p t with Some (Dir _) => true | _ => false end.

(** Place [x] at [p], creating the missing directories above it; [None]
    when a regular file is in the way. *)
Fixpoint graft (p : PurePath) (x : node) (t : node) : option node :=
  match p with
  | [] => Some x
  | c :: p' =>
      match t with
      | Dir es =>
          sub ← graft p' x (default (Dir ∅) (es !! c));
          Some (Dir (<[c := sub]> es))
      | File _ => None
      end
  end.

(** Remove the entry at [p] with all below it; nothing changes when
    there is no such entry. *)
Fixpoint remove (p : PurePath) (t : node) : node :=
  match p with
  | [] => t
  | c :: p' =>
      match t with
      | Dir es =>
          match p' with
          | [] => Dir (delete c es)
          | _ =>
              match es !! c with
              | Some sub => Dir (<[c := remove p' sub]> es)
              | None => t
              end
          end
      | File _ => t
      end
  end.

(** The names in a directory, in the order the file system lists them. *)
Definition names (es : gmap string node) : list string := (map_to_list es).*1.

Definition parent (p : PurePath) : PurePath := removelast p.

End Fs.

(** ** The state-and-exception monad of the program *)

Definition M (A : Type) : Type := world → outcome A * world.

Definition ret {A} (a : A) : M A := λ w, (Ret a, w).
Definition raise {A} (e : exn) : M A := λ w, (Raise e, w).
Definition bind {A B} (m : M A) (k : A → M B) : M B :=
  λ w, match m w with
       | (Ret a, w') => k a w'
       | (Raise e, w') => (Raise e, w')
       end.
Definition gets {A} (f : world → A) : M A := λ w, (Ret (f w), w).
Definition modify (f : world → world) : M unit := λ w, (Ret tt, f w).

(** [try: body except <the exceptions h accepts>: handler] *)
Definition try_except {A} (body : M A) (h : exn → option (M A)) : M A :=
  λ w, match body w with
       | (Ret a, w') => (Ret a, w')
       | (Raise e, w') =>
           match h e with
           | Some handler => handler w'
           | None => (Raise e, w')
           end
       end.

(** [try: body finally: cleanup] *)
Definition try_finally {A} (body : M A) (cleanup : M unit) : M A :=
  λ w, match body w with
       | (r, w') =>
           match cleanup w' with
           | (Ret _, w'') => (r, w'')
           | (Raise e, w'') => (Raise e, w'')
           end
       end.

Declare Scope py_scope.
Delimit Scope py_scope with py.
Notation "x <- m ;; k" := (bind m (λ x, k))
  (at level 100, m at next level, right associativity) : py_scope.
Notation "m ;;; k" := (bind m (λ _, k))
  (at level 100, right associativity) : py_scope.
Local Open Scope py_scope.

(** ** The library calls the program makes *)

(** Methods of [pathlib.Path] that touch the file system. *)
Module PathIO.

Definition exists_ (p : PurePath) : M bool := gets (λ w, Fs.exists_ p (fs w)).

Definition is_dir (p : PurePath) : M bool := gets (λ w, Fs.is_dir p (fs w)).

(** [p.iterdir()] *)
Definition iterdir (p : PurePath) : M (list PurePath) :=
  λ w, match Fs.lookup p (fs w) with
       | Some (Dir es) => (Ret ((λ c, p ++ [c]) <$> Fs.names es), w)
       | Some (File _) => (Raise NotADirectoryError, w)
       | None => (Raise FileNotFoundError, w)
       end.

(** [p.mkdir(parents=True, exist_ok=True)] *)
Definition mkdir_parents (p : PurePath) : M unit :=
  λ w, match Fs.lookup p (fs w) with
       | Some (Dir _) => (Ret tt, w)
       | Some (File _) => (Raise FileExistsError, w)
       | None =>
           match Fs.graft p (Dir ∅) (fs w) with
           | Some t => (Ret tt, set_fs t w)
           | None => (Raise NotADirectoryError, w)
           end
       end.

(** [open(p, "r", encoding="utf-8")]: the data of the file. *)
Definition open_r (p : PurePath) : M fdata :=
  λ w, match Fs.lookup p (fs w) with
       | Some (File d) => (Ret d, w)
       | Some (Dir _) => (Raise IsADirectoryError, w)
       | None => (Raise FileNotFoundError, w)
       end.

End PathIO.

Module Os.

(** [os.makedirs(p)] *)
Definition makedirs (p : PurePath) : M unit :=
  λ w, if Fs.exists_ p (fs w) then (Raise FileExistsError, w)
       else match Fs.graft p (Dir ∅) (fs w) with
            | Some t => (Ret tt, set_fs t w)
            | None => (Raise NotADirectoryError, w)
            end.

(** [os.mkdir(p)] *)
Definition mkdir (p : PurePath) : M unit :=
  λ w, if Fs.exists_ p (fs w) then (Raise FileExistsError, w)
       else match Fs.lookup (Fs.parent p) (fs w) with
            | Some (Dir _) =>
                match Fs.graft p (Dir ∅) (fs w) with
                | Some t => (Ret tt, set_fs t w)
                | None => (Raise NotADirectoryError, w)
                end
            | Some (File _) => (Raise NotADirectoryError, w)
            | None => (Raise FileNotFoundError, w)
            end.

(** [open(p, "wb")] followed by writing [d]. *)
Definition write (p : PurePath) (d : fdata) : M unit :=
  λ w, match Fs.lookup p (fs w) with
       | Some (Dir _) => (Raise IsADirectoryError, w)
       | _ =>
           match Fs.lookup (Fs.parent p) (fs w) with
           | Some (Dir _) =>
               match Fs.graft p (File d) (fs w) with
               | Some t => (Ret tt, set_fs t w)
               | None => (Raise NotADirectoryError, w)
               end
           | Some (File _) => (Raise NotADirectoryError, w)
           | None => (Raise FileNotFoundError, w)
           end
       end.

(** [os.rename(src, dst)] on the tree; [None] for an [OSError]. *)
Definition rename (src dst : PurePath) (t : node) : option node :=
  match Fs.lookup src t with
  | None => None
  | Some n =>
      if bool_decide (src = dst) then Some t
      else if bool_decide (src `prefix_of` dst) then None
      else if negb (Fs.is_dir (Fs.parent dst) t) then None
      else match Fs.lookup dst t, n with
           | None, _ => Fs.graft dst n (Fs.remove src t)
           | Some (File _), File _ => Fs.graft dst n (Fs.remove src t)
           | Some (Dir es), Dir _ =>
               if bool_decide (es = ∅) then Fs.graft dst n (Fs.remove src t) else None
           | _, _ => None
           end
  end.

End Os.

Module Shutil.

(** [shutil.rmtree(p)] *)
Definition rmtree (p : PurePath) : M unit :=
  λ w, match Fs.lookup p (fs w) with
       | Some (Dir _) =>
           match p with
           | [] => (Raise OSError, set_fs (Dir ∅) w)
           | _ => (Ret tt, set_fs (Fs.remove p (fs w)) w)
           end
       | Some (File _) => (Raise NotADirectoryError, w)
       | None => (Raise FileNotFoundError, w)
       end.

(** [shutil.rmtree(p, ignore_errors=True)] *)
Definition rmtree_ignore_errors (p : PurePath) : M unit :=
  λ w, match rmtree p w with
       | (_, w') => (Ret tt, w')
       end.

(** [shutil.copytree(src, dst)].  Copying a directory into itself ends in
    an exception after filling the destination; the model raises at once. *)
Definition copytree (src dst : PurePath) : M unit :=
  λ w, match Fs.lookup src (fs w) with
       | Some (Dir es) =>
           if Fs.exists_ dst (fs w) then (Raise FileExistsError, w)
           else if bool_decide (src `prefix_of` dst) then (Raise RecursionError, w)
           else match Fs.graft dst (Dir es) (fs w) with
                | Some t => (Ret tt, set_fs t w)
                | None => (Raise NotADirectoryError, w)
                end
       | Some (File _) => (Raise NotADirectoryError, w)
       | None => (Raise FileNotFoundError, w)
       end.

(** [shutil.copy2(src, dst)] of a regular file. *)
Definition copy2 (src dst : PurePath) : M unit :=
  λ w, match Fs.lookup src (fs w) with
       | Some (File d) =>
           if Fs.is_dir dst (fs w) then Os.write (dst ++ [Pathlib.name src]) d w
           else Os.write dst d w
       | Some (Dir _) => (Raise IsADirectoryError, w)
       | None => (Raise FileNotFoundError, w)
       end.

(** [shutil.move(src, dst)] *)
Definition move (src dst : PurePath) : M unit :=
  λ w,
    let into := Fs.is_dir dst (fs w) in
    let real_dst := if into then dst ++ [Pathlib.name src] else dst in
    if into && bool_decide (src = dst) then (Ret tt, w)
    else if into && Fs.exists_ real_dst (fs w) then (Raise ShutilError, w)
    else
      match Os.rename src real_dst (fs w) with
      | Some t => (Ret tt, set_fs t w)
      | None =>
          match Fs.lookup src (fs w) with
          | Some (Dir _) =>
              if bool_decide (src `prefix_of` dst) then (Raise ShutilError, w)
              else (copytree src real_dst ;;; rmtree src) w
          | _ =>
              (copy2 src real_dst ;;;
               modify (λ w', set_fs (Fs.remove src (fs w')) w')) w
          end
      end.

End Shutil.

Module Zipfile.

(** [zipfile.ZipFile(p, "r")]: the members of the archive. *)
Definition ZipFile (p : PurePath) : M (list (string * fdata)) :=
  d <- PathIO.open_r p ;;
  match zip_of d with
  | Some members => ret members
  | None => raise BadZipFile
  end.

(** The components of a member name that extraction keeps. *)
Definition arcname (filename : string) : PurePath :=
  filter (λ c, c ≠ "" ∧ c ≠ "." ∧ c ≠ "..") (Str.split "/" filename).

(** [ZipFile._extract_member] *)
Definition extract_member (targetpath : PurePath) (member : string * fdata) : M unit :=
  let '(filename, d) := member in
  let targetpath := targetpath ++ arcname filename in
  let upperdirs := Fs.parent targetpath in
  e <- PathIO.exists_ upperdirs ;;
  (if negb e then Os.makedirs upperdirs else ret tt) ;;;
  if Str.endswith "/" filename then
    isd <- PathIO.is_dir targetpath ;;
    if negb isd then Os.mkdir targetpath else ret tt
  else Os.write targetpath d.

(** [ZipFile.extractall(target)] *)
Fixpoint extractall (members : list (string * fdata)) (target : PurePath) : M unit :=
  match members with
  | [] => ret tt
  | m :: rest => extract_member target m ;;; extractall rest target
  end.

End Zipfile.

Module Json.

(** [json.load(fh)] *)
Definition load (fh : fdata) : M value :=
  match json_of fh with
  | JsonOk v => ret v
  | JsonBad => raise JSONDecodeError
  | NotUtf8 => raise UnicodeDecodeError
  end.

(** [meta.get(key, dflt)]: only a dict has [get]. *)
Definition get (meta : value) (key : string) (dflt : value) : M value :=
  match meta with
  | JObj fields => ret (default dflt (dict_lookup key fields))
  | _ => raise AttributeError
  end.

End Json.

Module Importlib.

(** [importlib.util.spec_from_file_location(name, location)]: a spec with
    a loader when the file name has the suffix of Python source. *)
Definition spec_from_file_location (location : PurePath) : option PurePath :=
  if String.eqb (Pathlib.suffix location) ".py" then Some location else None.

(** [module_from_spec(spec)] and [spec.loader.exec_module(module)] *)
Definition exec_module (location : PurePath) : M (option attribute) :=
  d <- PathIO.open_r location ;;
  λ w, match module_of d (sys_path w) with
       | (sp, Loaded run_test) => (Ret run_test, set_sys_path sp w)
       | (sp, ImportFails) => (Raise PluginError, set_sys_path sp w)
       | (sp, ImportExits) => (Raise SystemExit, set_sys_path sp w)
       end.

(** [f()] for the attribute [f] of a module. *)
Definition call (f : attribute) : M value :=
  match f with
  | NotCallable => raise TypeError
  | Function body =>
      λ w, match body (sys_path w) with
           | (sp, Returned v) => (Ret v, set_sys_path sp w)
           | (sp, Raised) => (Raise PluginError, set_sys_path sp w)
           | (sp, Exits) => (Raise SystemExit, set_sys_path sp w)
           end
  end.

End Importlib.

(** ** marketplace.py *)

Record PluginMetadata := {
  name : value;
  version : value;
  description : value;
  path : PurePath    (* installed path *)
}.

Record Marketplace := {
  install_dir : PurePath;
  catalogue_path : PurePath;
  catalogue : value
}.

Definition set_catalogue (c : value) (self : Marketplace) : Marketplace :=
  {| install_dir := install_dir self;
     catalogue_path := catalogue_path self;
     catalogue := c |}.

(** [Marketplace._load_catalogue]: the object with its catalogue loaded. *)
Definition _load_catalogue (self : Marketplace) : M Marketplace :=
  e <- PathIO.exists_ (catalogue_path self) ;;
  if negb e then ret (set_catalogue (JArr []) self)
  else
    fh <- PathIO.open_r (catalogue_path self) ;;
    try_except
      (c <- Json.load fh ;; ret (set_catalogue c self))
      (λ e, match e with
            | JSONDecodeError => Some (ret (set_catalogue (JArr []) self))
            | _ => None
            end).

(** [Marketplace.__init__] *)
Definition Marketplace_init (catalogue_path install_dir : option string) : M Marketplace :=
  home <- gets home ;;
  let install_dir :=
    match install_dir with
    | None => Pathlib.joinpath (Pathlib.joinpath home ".mcp") "plugins_installed"
    | Some s => Pathlib.Path s
    end in
  PathIO.mkdir_parents install_dir ;;;
  package_dir <- gets package_dir ;;
  let catalogue_path :=
    match catalogue_path with
    | None => Pathlib.joinpath package_dir "available_plugins.json"
    | Some s => Pathlib.Path s
    end in
  _load_catalogue
    {| install_dir := install_dir; catalogue_path := catalogue_path; catalogue := JArr [] |}.

(** [Marketplace.list_available] *)
Definition list_available (self : Marketplace) : value := catalogue self.

(** The body of the loop of [Marketplace.list_installed], over the entries
    still to visit, with the list built so far. *)
Fixpoint list_installed_loop (subs : list PurePath) (plugins : list PluginMetadata)
  : M (list PluginMetadata) :=
  match subs with
  | [] => ret plugins
  | sub :: rest =>
      plugins' <-
        (isd <- PathIO.is_dir sub ;;
         if isd then
           let manifest := Pathlib.joinpath sub "manifest.json" in
           e <- PathIO.exists_ manifest ;;
           if e then
             try_except
               (fh <- PathIO.open_r manifest ;;
                meta <- Json.load fh ;;
                n <- Json.get meta "name" (JStr (Pathlib.name sub)) ;;
                v <- Json.get meta "version" (JStr "0.0.0") ;;
                d <- Json.get meta "description" (JStr "") ;;
                ret (plugins ++ [{| name := n; version := v; description := d; path := sub |}]))
               (λ _, Some (ret plugins))
           else ret plugins
         else ret plugins) ;;
      list_installed_loop rest plugins'
  end.

(** [Marketplace.list_installed] *)
Definition list_installed (self : Marketplace) : M (list PluginMetadata) :=
  e <- PathIO.exists_ (install_dir self) ;;
  if negb e then ret []
  else
    subs <- PathIO.iterdir (install_dir self) ;;
    list_installed_loop subs [].

(** [Marketplace.install], first half: check the source and place the
    plugin in the install directory; the result is [installed_path]. *)
Definition install_place (self : Marketplace) (plugin_source : string) : M PurePath :=
  let src := Pathlib.Path plugin_source in
  e <- PathIO.exists_ src ;;
  if negb e then raise SourceNotFound
  else if String.eqb (Str.lower (Pathlib.suffix src)) ".zip" then
    z <- Zipfile.ZipFile src ;;
    let tmpdir := Pathlib.joinpath (install_dir self) (Pathlib.stem src +:+ "_tmp") in
    PathIO.mkdir_parents tmpdir ;;;
    Zipfile.extractall z tmpdir ;;;
    entries <- PathIO.iterdir tmpdir ;;
    candidates <- gets (λ w, filter (λ p, Fs.is_dir p (fs w) = true) entries) ;;
    let extracted_root :=
      match candidates with
      | [c] => c
      | _ => tmpdir
      end in
    let dest := Pathlib.joinpath (install_dir self) (Pathlib.name extracted_root) in
    e <- PathIO.exists_ dest ;;
    (if e then Shutil.rmtree dest else ret tt) ;;;
    Shutil.move extracted_root dest ;;;
    Shutil.rmtree_ignore_errors tmpdir ;;;
    ret dest
  else
    isd <- PathIO.is_dir src ;;
    if isd then
      let dest := Pathlib.joinpath (install_dir self) (Pathlib.name src) in
      e <- PathIO.exists_ dest ;;
      (if e then Shutil.rmtree dest else ret tt) ;;;
      Shutil.copytree src dest ;;;
      ret dest
    else raise InvalidSource.

(** [Marketplace.install], second half: read the manifest of the plugin
    placed at [installed_path]. *)
Definition install_manifest (installed_path : PurePath) : M PluginMetadata :=
  let manifest_file := Pathlib.joinpath installed_path "manifest.json" in
  e <- PathIO.exists_ manifest_file ;;
  if negb e then raise InvalidPlugin
  else
    fh <- PathIO.open_r manifest_file ;;
    meta <- Json.load fh ;;
    n <- Json.get meta "name" (JStr (Pathlib.name installed_path)) ;;
    v <- Json.get meta "version" (JStr "0.0.0") ;;
    d <- Json.get meta "description" (JStr "") ;;
    ret {| name := n; version := v; description := d; path := installed_path |}.

(** [Marketplace.install] *)
Definition install (self : Marketplace) (plugin_source : string) : M PluginMetadata :=
  installed_path <- install_place self plugin_source ;;
  install_manifest installed_path.

(** [Marketplace.uninstall] *)
Definition uninstall (self : Marketplace) (plugin_name : string) : M bool :=
  let dest := Pathlib.joinpath (install_dir self) plugin_name in
  e <- PathIO.exists_ dest ;;
  isd <- PathIO.is_dir dest ;;
  if e && isd then
    Shutil.rmtree dest ;;;
    ret true
  else ret false.

(** [Marketplace.test] *)
Definition test (self : Marketplace) (plugin_name : string) : M bool :=
  let plugin_dir := Pathlib.joinpath (install_dir self) plugin_name in
  e <- PathIO.exists_ plugin_dir ;;
  if negb e then raise NotInstalled
  else
    let plugin_module_file := Pathlib.joinpath plugin_dir "plugin.py" in
    e <- PathIO.exists_ plugin_module_file ;;
    if negb e then raise MissingEntryPoint
    else
      modify (λ w, set_sys_path (Pathlib.str plugin_dir :: sys_path w) w) ;;;
      try_finally
        (let spec := Importlib.spec_from_file_location plugin_module_file in
         run_test <-
           match spec with
           | Some loader => Importlib.exec_module loader
           | None => raise LoadError
           end ;;
         match run_test with
         | None => raise ContractViolation
         | Some f =>
             result <- Importlib.call f ;;
             ret (truthy result)
         end)
        (modify (λ w, set_sys_path
                        (filter (λ p, p ≠ Pathlib.str plugin_dir) (sys_path w)) w)).

(** ** cli.py *)

(** Iterating over a value, as a [for] clause does. *)
Definition py_iter (v : value) : M (list value) :=
  match v with
  | JArr items => ret items
  | JObj fields => ret (JStr <$> fields.*1)
  | JStr s => ret ((λ c, JStr (String c EmptyString)) <$> list_ascii_of_string s)
  | _ => raise TypeError
  end.

(** [v.lower()]: only a string has [lower]. *)
Definition py_lower (v : value) : M string :=
  match v with
  | JStr s => ret (Str.lower s)
  | _ => raise AttributeError
  end.

(** The list comprehension of [search]: the entries that match. *)
Fixpoint search_matches (keyword_lower : string) (ps : list value) : M (list value) :=
  match ps with
  | [] => ret []
  | p :: rest =>
      n <- Json.get p "name" (JStr "") ;;
      nl <- py_lower n ;;
      keep <-
        (if Str.contains keyword_lower nl then ret true
         else
           d <- Json.get p "description" (JStr "") ;;
           dl <- py_lower d ;;
           ret (Str.contains keyword_lower dl)) ;;
      matches <- search_matches keyword_lower rest ;;
      ret (if keep : bool then p :: matches else matches)
  end.

(** The [search] command: [matches]; the lines it echoes are not modelled. *)
Definition search (obj : Marketplace) (keyword : string) : M (list value) :=
  let keyword_lower := Str.lower keyword in
  ps <- py_iter (list_available obj) ;;
  search_matches keyword_lower ps.

(** The commands below return the lines they pass to [click.echo]. *)
Module Cli.

(** The group callback [cli]: the marketplace every command works on. *)
Definition cli (catalogue_path install_dir : option string) : M Marketplace :=
  Marketplace_init catalogue_path install_dir.

(** The [uninstall] command. *)
Definition uninstall (obj : Marketplace) (plugin_name : string) : M (list string) :=
  success <- uninstall obj plugin_name ;;
  if success then ret ["Uninstalled " +:+ plugin_name]
  else ret ["Plugin '" +:+ plugin_name +:+ "' not found"].

(** The [test] command.  The model keeps no text for an exception:
    [str(e)] is the parameter [str_of].  The handler is [except
    Exception]: it lets pass what is no [Exception]. *)
Definition test (str_of : exn → string) (obj : Marketplace) (plugin_name : string)
  : M (list string) :=
  try_except
    (success <- test obj plugin_name ;;
     if success then ret ["Plugin '" +:+ plugin_name +:+ "' test passed"]
     else ret ["Plugin '" +:+ plugin_name +:+ "' test returned False"])
    (λ e, match e with
          | SystemExit => None
          | _ => Some (ret ["Error testing plugin '" +:+ plugin_name +:+ "': "
                            +:+ str_of e])
          end).

End Cli.

(** ** Sample worlds *)

Module Sample.

Definition no_module : list string → list string * import_result :=
  λ sp, (sp, ImportFails).

(** A JSON text file. *)
Definition json_file (v : value) : node := File (Bytes (JsonOk v) None no_module).

(** A text file that is neither JSON nor Python. *)
Definition text_file : node := File (Bytes JsonBad None no_module).

(** A file whose bytes are not UTF-8 text. *)
Definition binary_file : node := File (Bytes NotUtf8 None no_module).

(** Python source defining [run_test] as a function that returns [v]. *)
Definition plugin_py (v : value) : fdata :=
  Bytes JsonBad None (λ sp, (sp, Loaded (Some (Function (λ sp', (sp', Returned v)))))).

(** Python source without [run_test]. *)
Definition empty_py : fdata := Bytes JsonBad None (λ sp, (sp, Loaded None)).

Definition manifest_data (v : value) : fdata := Bytes (JsonOk v) None no_module.

Definition zip_file (members : list (string * fdata)) : node :=
  File (Bytes NotUtf8 (Some members) no_module).

Definition dir (l : list (string * node)) : node := Dir (list_to_map l).

Definition foo_manifest : value :=
  JObj [("name", JStr "foo"); ("version", JStr "2.0"); ("description", JStr "d")].

Definition foo_dir : node :=
  dir [("manifest.json", json_file foo_manifest); ("plugin.py", File (plugin_py (JBool true)))].

(** An archive with a wrapping folder, and one without. *)
Definition bundle_zip : node :=
  zip_file [("myplugin/", empty_py);
            ("myplugin/manifest.json", manifest_data foo_manifest);
            ("myplugin/plugin.py", plugin_py (JBool true))].

Definition flat_zip : node :=
  zip_file [("manifest.json", manifest_data foo_manifest);
            ("plugin.py", plugin_py (JBool true))].

Definition root : node :=
  dir [("home", dir [("u", dir [])]);
       ("src", dir [("foo", foo_dir); ("bare", dir [("plugin.py", File empty_py)])]);
       ("dl", dir [("bundle.zip", bundle_zip); ("flat.zip", flat_zip);
                   ("cat.json", json_file (JArr [foo_manifest]));
                   ("bad.json", text_file); ("latin1.json", binary_file)])].

Definition w0 : world :=
  {| fs := root; sys_path := ["/usr/lib/python3"]; home := ["home"; "u"];
     package_dir := ["usr"; "lib"; "mcp"] |}.

(** A world with three entries in the install directory: the plugin
    [foo], a directory [bare] without manifest, and a regular file. *)
Definition installed_root : node :=
  dir [("home", dir [("u", dir [(".mcp", dir [("plugins_installed",
          dir [("foo", foo_dir);
               ("bare", dir [("plugin.py", File empty_py)]);
               ("notes", text_file)])])])]);
       ("src", dir [("foo", foo_dir)])].

Definition w_inst : world :=
  {| fs := installed_root; sys_path := ["/usr/lib/python3"]; home := ["home"; "u"];
     package_dir := ["usr"; "lib"; "mcp"] |}.

(** The marketplace and the world that [Marketplace()] builds in [w0]. *)
Definition mp0 : Marketplace :=
  {| install_dir := ["home"; "u"; ".mcp"; "plugins_installed"];
     catalogue_path := ["usr"; "lib"; "mcp"; "available_plugins.json"];
     catalogue := JArr [] |}.

Definition w_init : world := (Marketplace_init None None w0).2.

(** Marketplaces whose catalogue path names a file that is not UTF-8
    text, and a directory. *)
Definition mp_latin1 : Marketplace :=
  {| install_dir := ["home"; "u"; ".mcp"; "plugins_installed"];
     catalogue_path := ["dl"; "latin1.json"];
     catalogue := JArr [] |}.

Definition mp_dir : Marketplace :=
  {| install_dir := ["home"; "u"; ".mcp"; "plugins_installed"];
     catalogue_path := ["dl"];
     catalogue := JArr [] |}.



(** The scratch directory of [bundle.zip], and the worlds after it was
    made and after the archive was extracted into it. *)
Definition bundle_tmp : PurePath := install_dir mp0 ++ ["bundle_tmp"].

Definition bundle_members : list (string * fdata) :=
  [("myplugin/", empty_py);
   ("myplugin/manifest.json", manifest_data foo_manifest);
   ("myplugin/plugin.py", plugin_py (JBool true))].

Definition w_tmp : world := (PathIO.mkdir_parents bundle_tmp w_init).2.

Definition w_extracted : world := (Zipfile.extractall bundle_members bundle_tmp w_tmp).2.

(** The same for [flat.zip]. *)
Definition flat_tmp : PurePath := install_dir mp0 ++ ["flat_tmp"].

Definition flat_members : list (string * fdata) :=
  [("manifest.json", manifest_data foo_manifest);
   ("plugin.py", plugin_py (JBool true))].

Definition w_flat_tmp : world := (PathIO.mkdir_parents flat_tmp w_init).2.

Definition w_flat_extracted : world :=
  (Zipfile.extractall flat_members flat_tmp w_flat_tmp).2.

(** A world in which [bundle.zip] wraps its files in another folder. *)
Definition w_other : world :=
  set_fs (dir [("home", dir [("u", dir [(".mcp", dir [("plugins_installed", dir [])])])]);
               ("dl", dir [("bundle.zip",
                            zip_file [("other/", empty_py);
                                      ("other/manifest.json", manifest_data foo_manifest)])])])
         w0.

Definition mp : Marketplace :=
  {| install_dir := ["home"; "u"; ".mcp"; "plugins_installed"];
     catalogue_path := ["dl"; "cat.json"];
     catalogue := JArr [foo_manifest] |}.

End Sample.

(** Further worlds. *)
Module More.

(** A catalogue file that holds a JSON object instead of an array. *)
Definition object_catalogue : value :=
  JObj [("name", JStr "echo"); ("version", JStr "1.0")].

Definition w_object : world :=
  set_fs (Sample.dir [("dl", Sample.dir [("cat.json", Sample.json_file object_catalogue)])])
         Sample.w0.

(** A plugin whose manifest is a JSON array, in the source directory and
    as it is once placed. *)
Definition w_array_manifest : world :=
  set_fs (Sample.dir
            [("home", Sample.dir [("u", Sample.dir [(".mcp", Sample.dir
                [("plugins_installed", Sample.dir [])])])]);
             ("src", Sample.dir [("odd", Sample.dir
                [("manifest.json", Sample.json_file (JArr []));
                 ("plugin.py", File Sample.empty_py)])])])
         Sample.w0.

(** A source directory named [bar] whose manifest gives the name [foo]. *)
Definition w_renamed : world :=
  set_fs (Sample.dir
            [("home", Sample.dir [("u", Sample.dir [(".mcp", Sample.dir
                [("plugins_installed", Sample.dir [])])])]);
             ("src", Sample.dir [("bar", Sample.foo_dir)])])
         Sample.w0.

(** Sources that [install] refuses: a text file, a directory whose name
    ends in [.zip], and a file of that name that is no archive. *)
Definition w_odd_sources : world :=
  set_fs (Sample.dir
            [("home", Sample.dir [("u", Sample.dir [(".mcp", Sample.dir
                [("plugins_installed", Sample.dir [])])])]);
             ("dl", Sample.dir
                [("readme.txt", Sample.text_file);
                 ("pack.zip", Sample.dir [("plugin.py", File Sample.empty_py)]);
                 ("broken.zip", Sample.text_file)])])
         Sample.w0.

(** An archive without a wrapping folder that holds one folder beside
    its files, in an install directory that is empty. *)
Definition assets_members : list (string * fdata) :=
  [("manifest.json", Sample.manifest_data Sample.foo_manifest);
   ("plugin.py", Sample.plugin_py (JBool true));
   ("assets/", Sample.empty_py);
   ("assets/logo.txt", Sample.empty_py)].

Definition w_assets : world :=
  set_fs (Sample.dir
            [("home", Sample.dir [("u", Sample.dir [(".mcp", Sample.dir
                [("plugins_installed", Sample.dir [])])])]);
             ("dl", Sample.dir [("tool.zip", Sample.zip_file assets_members)])])
         Sample.w0.

(** [str(e)], as far as a sample needs it. *)
Definition str_of (e : exn) : string :=
  match e with
  | NotInstalled => "Plugin not installed"
  | MissingEntryPoint => "Plugin has no plugin.py"
  | ContractViolation => "Plugin does not define run_test()"
  | _ => "error"
  end.

End More.

(** ** Vocabulary of the statements *)

(** Plugin code that leaves [sys.path] as it finds it, when it is imported
    and when its [run_test] is called. *)
Definition leaves_sys_path (d : fdata) : Prop :=
  ∀ sp, (module_of d sp).1 = sp
        ∧ match (module_of d sp).2 with
          | Loaded (Some (Function body)) => ∀ sp', (body sp').1 = sp'
          | _ => True
          end.

(** Two paths diverge when neither is above the other. *)
Definition diverge (p q : PurePath) : Prop := ¬ p `prefix_of` q ∧ ¬ q `prefix_of` p.

(** Nothing outside the directory [inst] differs between [w] and [w']:
    every path that is neither in [inst] nor above it leads to the same
    entry, and [sys.path] is the same. *)
Definition outside_untouched (inst : PurePath) (w w' : world) : Prop :=
  sys_path w' = sys_path w
  ∧ ∀ q, diverge inst q → Fs.lookup q (fs w') = Fs.lookup q (fs w).

(** A computation that, whatever its outcome, touches nothing outside
    [inst]. *)
Definition confined (inst : PurePath) {A} (m : M A) : Prop :=
  ∀ w r w', m w = (r, w') → outside_untouched inst w w'.

(** A plugin name the model covers: no component is [".."]. *)
Definition plain_name (s : string) : Prop := ".." ∉ Pathlib.Path s.

(** A source path that the model reads as the code does: an absolute
    path, which does not depend on the working directory, without a
    component [".."]. *)
Definition plain_source (s : string) : Prop :=
  Pathlib.is_absolute s = true ∧ ".." ∉ Pathlib.Path s.

(** A file name: not empty, not ["."], and without a slash. *)
Fixpoint has_slash (s : string) : bool :=
  match s with
  | EmptyString => false
  | String c s' => Ascii.eqb c "/" || has_slash s'
  end.

Definition valid_name (n : string) : Prop :=
  n ≠ "" ∧ n ≠ "." ∧ has_slash n = false.

(** The name of an entry of a directory: a file name other than [".."],
    which the file system reads as the directory above. *)
Definition entry_name (n : string) : Prop := valid_name n ∧ n ≠ "..".

(** A tree of a real file system: every entry has a file name. *)
Definition well_named (t : node) : Prop :=
  ∀ p x, Fs.lookup p t = Some x → Forall valid_name p.

(** The directories directly below [p], as [iterdir] lists them. *)
Definition subdirectories (p : PurePath) (t : node) : list PurePath :=
  match Fs.lookup p t with
  | Some (Dir es) => filter (λ q, Fs.is_dir q t = true) ((λ c, p ++ [c]) <$> Fs.names es)
  | _ => []
  end.

(** A member of an archive that lies in the folder [k] at the top of the
    archive: the entry of the folder itself or of a directory in it, or a
    file in it. *)
Definition under_folder (k : string) (member : string * fdata) : bool :=
  match Zipfile.arcname member.1 with
  | c :: rest =>
      String.eqb c k
      && (negb (bool_decide (rest = [])) || Str.endswith "/" member.1)
  | [] => false
  end.

(** A member of an archive that is a file at the top of the archive. *)
Definition top_file (member : string * fdata) : bool :=
  match Zipfile.arcname member.1 with
  | [_] => negb (Str.endswith "/" member.1)
  | _ => false
  end.

(** The source of [install] is taken for an archive: its suffix is
    [.zip], in any case of letters. *)
Definition is_archive (plugin_source : string) : Prop :=
  String.eqb (Str.lower (Pathlib.suffix (Pathlib.Path plugin_source))) ".zip" = true.

(** The source of [install] is not taken for an archive. *)
Definition not_archive (plugin_source : string) : Prop :=
  String.eqb (Str.lower (Pathlib.suffix (Pathlib.Path plugin_source))) ".zip" = false.






(** The text of a field of a catalogue entry, empty when the entry has no
    such field. *)
Definition field_text (key : string) (p : value) : string :=
  match p with
  | JObj fields =>
      match dict_lookup key fields with
      | Some (JStr s) => s
      | _ => ""
      end
  | _ => ""
  end.


(** What the comprehension of [search] keeps. *)
Definition search_keeps (keyword : string) (p : value) : bool :=
  Str.contains (Str.lower keyword) (Str.lower (field_text "name" p))
  || Str.contains (Str.lower keyword) (Str.lower (field_text "description" p)).

(** A field that is a string when it is there. *)
Definition text_or_absent (key : string) (fields : list (string * value)) : Prop :=
  match dict_lookup key fields with
  | Some (JStr _) | None => True
  | Some _ => False
  end.

(** A catalogue entry, [Dict[str, str]]: an object whose name and
    description are strings when it has them. *)
Definition catalogue_entry (p : value) : Prop :=
  ∃ fields, p = JObj fields
            ∧ text_or_absent "name" fields ∧ text_or_absent "description" fields.


(** The metadata that the manifest fields give for a plugin at [p], with
    the defaults for the fields that are missing. *)
Definition metadata_of (p : PurePath) (fields : list (string * value)) : PluginMetadata :=
  {| name := default (JStr (Pathlib.name p)) (dict_lookup "name" fields);
     version := default (JStr "0.0.0") (dict_lookup "version" fields);
     description := default (JStr "") (dict_lookup "description" fields);
     path := p |}.

(** The entry that [list_installed] makes of an entry [sub] of the install
    directory, if it makes one. *)
Definition entry_of (t : node) (sub : PurePath) : option PluginMetadata :=
  if Fs.is_dir sub t then
    match Fs.lookup (sub ++ ["manifest.json"]) t with
    | Some (File d) =>
        match json_of d with
        | JsonOk (JObj fields) => Some (metadata_of sub fields)
        | _ => None
        end
    | _ => None
    end
  else None.

(** * Properties *)

(** ** The monad *)

Lemma set_fs_id w : set_fs (fs w) w = w.
Proof. by destruct w. Qed.

Lemma bind_ret_inv {A B} (m : M A) (k : A → M B) w b w' :
  bind m k w = (Ret b, w') → ∃ a w1, m w = (Ret a, w1) ∧ k a w1 = (Ret b, w').
Proof.
  unfold bind. destruct (m w) as [[a|e] w1]; [eauto|done].
Qed.

Lemma bind_ret_l {A B} (a : A) (k : A → M B) w : bind (ret a) k w = k a w.
Proof. reflexivity. Qed.

Lemma bind_ret_r {A} (m : M A) w : bind m ret w = m w.
Proof. unfold bind, ret. by destruct (m w) as [[a|e] w']. Qed.

Lemma bind_assoc {A B C} (m : M A) (k : A → M B) (h : B → M C) w :
  bind (bind m k) h w = bind m (λ a, bind (k a) h) w.
Proof. unfold bind. by destruct (m w) as [[a|e] w']. Qed.

Lemma bind_run {A B} (m : M A) (k : A → M B) w a w' :
  m w = (Ret a, w') → bind m k w = k a w'.
Proof. unfold bind. by intros ->. Qed.

Lemma bind_raise {A B} (m : M A) (k : A → M B) w e w' :
  m w = (Raise e, w') → bind m k w = (Raise e, w').
Proof. unfold bind. by intros ->. Qed.

(** ** The directory tree *)

Section FsFacts.

Implicit Types (p q : PurePath) (t x : node).

Lemma diverge_sym p q : diverge p q → diverge q p.
Proof. intros [H1 H2]; split; assumption. Qed.

Lemma diverge_cons c p q : diverge (c :: p) (c :: q) → diverge p q.
Proof.
  intros [H1 H2]; split; intros [k ->]; [apply H1 | apply H2]; by eexists.
Qed.

Lemma diverge_siblings p a b : a ≠ b → diverge (p ++ [a]) (p ++ [b]).
Proof.
  intros Hab; split; intros [k Hk]; rewrite <- app_assoc in Hk;
    apply app_inv_head in Hk; simpl in Hk; congruence.
Qed.

Lemma lookup_app p q t : Fs.lookup (p ++ q) t = Fs.lookup p t ≫= Fs.lookup q.
Proof.
  revert t; induction p as [|c p IH]; intros t; simpl; [done|].
  destruct t as [d|es]; [done|].
  destruct (es !! c) as [sub|]; simpl; [apply IH | done].
Qed.

Lemma lookup_empty_dir c q : Fs.lookup (c :: q) (Dir ∅) = None.
Proof. simpl. by rewrite lookup_empty. Qed.

Lemma lookup_graft_eq p x t t' : Fs.graft p x t = Some t' → Fs.lookup p t' = Some x.
Proof.
  revert t t'; induction p as [|c p IH]; intros t t' H; simpl in *.
  - by simplify_eq.
  - destruct t as [d|es]; [done|].
    destruct (Fs.graft p x (default (Dir ∅) (es !! c))) as [sub|] eqn:E; simplify_eq/=.
    rewrite lookup_insert_eq. simpl. by eapply IH.
Qed.

Lemma lookup_graft_frame p q x t t' :
  Fs.graft p x t = Some t' → diverge p q → Fs.lookup q t' = Fs.lookup q t.
Proof.
  revert q t t'; induction p as [|c p IH]; intros q t t' H Hd; simpl in *.
  - destruct Hd as [Hd _]. exfalso; apply Hd. by exists q.
  - destruct t as [d|es]; [done|].
    destruct (Fs.graft p x (default (Dir ∅) (es !! c))) as [sub|] eqn:E; simplify_eq/=.
    destruct q as [|c' q].
    { destruct Hd as [_ Hd]. exfalso; apply Hd. by eexists. }
    simpl. destruct (decide (c = c')) as [->|Hne].
    + rewrite lookup_insert_eq. simpl.
      apply diverge_cons in Hd.
      rewrite (IH q _ _ E Hd).
      destruct (es !! c') as [s|]; simpl; [done|].
      destruct q as [|c'' q]; [|apply lookup_empty_dir].
      destruct Hd as [_ Hd]. exfalso; apply Hd. by eexists.
    + by rewrite lookup_insert_ne.
Qed.

Lemma remove_kind p t : (∃ es, Fs.remove p t = Dir es) ↔ (∃ es, t = Dir es).
Proof.
  destruct p as [|c p]; simpl; [done|].
  destruct t as [d|es]; [done|].
  destruct p; [by split; eauto|].
  destruct (es !! c); split; eauto.
Qed.

Lemma lookup_remove_under p q t : p ≠ [] → Fs.lookup (p ++ q) (Fs.remove p t) = None.
Proof.
  revert t; induction p as [|c p IH]; intros t Hp; [done|]. simpl.
  destruct t as [d|es]; [done|].
  destruct p as [|c' p].
  - simpl. by rewrite lookup_delete_eq.
  - destruct (es !! c) as [sub|] eqn:E.
    + cbn [Fs.lookup]. rewrite lookup_insert_eq. cbn [mbind option_bind].
      by apply IH.
    + cbn [Fs.lookup]. by rewrite E.
Qed.

Lemma lookup_remove_frame p q t :
  diverge p q → Fs.lookup q (Fs.remove p t) = Fs.lookup q t.
Proof.
  revert q t; induction p as [|c p IH]; intros q t Hd; [done|]. simpl.
  destruct t as [d|es]; [done|].
  destruct q as [|c' q].
  { destruct Hd as [_ Hd]. exfalso; apply Hd. by eexists. }
  destruct (decide (c = c')) as [->|Hne].
  - apply diverge_cons in Hd.
    destruct p as [|c'' p].
    { destruct Hd as [Hd _]. exfalso; apply Hd. by eexists. }
    destruct (es !! c') as [sub|] eqn:E; [|done].
    cbn [Fs.lookup]. rewrite lookup_insert_eq, E. cbn [mbind option_bind].
    by apply IH.
  - destruct p as [|c'' p].
    + cbn [Fs.lookup]. by rewrite lookup_delete_ne.
    + destruct (es !! c) as [sub|] eqn:E; [|done].
      cbn [Fs.lookup]. by rewrite lookup_insert_ne.
Qed.

Lemma is_dir_cons c q es :
  Fs.is_dir (c :: q) (Dir es) =
  match es !! c with Some sub => Fs.is_dir q sub | None => false end.
Proof. unfold Fs.is_dir. simpl. by destruct (es !! c). Qed.

(** Removing an entry leaves the directories that are not below it. *)
Lemma is_dir_remove p q t :
  ¬ p `prefix_of` q → Fs.is_dir q (Fs.remove p t) = Fs.is_dir q t.
Proof.
  revert q t; induction p as [|c p IH]; intros q t Hd; [done|].
  destruct q as [|c' q].
  { unfold Fs.is_dir. cbn [Fs.lookup].
    destruct (Fs.remove (c :: p) t) as [d|es] eqn:E.
    - destruct t as [d'|es']; [done|].
      destruct (proj2 (remove_kind (c :: p) (Dir es'))) as [es'' Hes]; [eauto|].
      congruence.
    - destruct (proj1 (remove_kind (c :: p) t)) as [es'' ->]; eauto. }
  destruct t as [d|es]; [done|].
  destruct (decide (c = c')) as [->|Hne].
  - assert (Hd' : ¬ p `prefix_of` q).
    { intros [k ->]. apply Hd. by exists k. }
    destruct p as [|c'' p].
    { exfalso; apply Hd'. by eexists. }
    cbn [Fs.remove].
    destruct (es !! c') as [sub|] eqn:E; [|done].
    rewrite !is_dir_cons, lookup_insert_eq, E.
    by apply IH.
  - destruct p as [|c'' p]; cbn [Fs.remove].
    + by rewrite !is_dir_cons, lookup_delete_ne.
    + destruct (es !! c) as [sub|] eqn:E; [|done].
      by rewrite !is_dir_cons, lookup_insert_ne.
Qed.

Lemma remove_cons2 c c' p es :
  Fs.remove (c :: c' :: p) (Dir es) =
  match es !! c with
  | Some sub => Dir (<[c := Fs.remove (c' :: p) sub]> es)
  | None => Dir es
  end.
Proof. reflexivity. Qed.

Lemma graft_cons c p x es :
  Fs.graft (c :: p) x (Dir es) =
  sub ← Fs.graft p x (default (Dir ∅) (es !! c)); Some (Dir (<[c := sub]> es)).
Proof. reflexivity. Qed.


(** A new entry can always be placed in an existing directory. *)
Lemma graft_in_dir p c x t es :
  Fs.lookup p t = Some (Dir es) → ∃ t', Fs.graft (p ++ [c]) x t = Some t'.
Proof.
  revert t; induction p as [|c' p IH]; intros t Hl; simpl in *.
  - simplify_eq. eauto.
  - destruct t as [d|es']; [done|].
    destruct (es' !! c') as [sub|] eqn:E; [|done]. simpl in *.
    destruct (IH _ Hl) as [t' ->]. simpl. eauto.
Qed.

Lemma remove_absent p t : Fs.lookup p t = None → Fs.remove p t = t.
Proof.
  revert t; induction p as [|c p IH]; intros t H; [done|].
  destruct t as [d|es]; [done|].
  destruct p as [|c' p].
  - simpl in *. destruct (es !! c) eqn:E; [done|]. by rewrite delete_id.
  - rewrite remove_cons2. cbn [Fs.lookup] in H.
    destruct (es !! c) as [sub|] eqn:E; [|done]. simpl in H.
    rewrite (IH _ H). by rewrite insert_id.
Qed.

Lemma lookup_self_removed p t : p ≠ [] → Fs.lookup p (Fs.remove p t) = None.
Proof. intros Hp. rewrite <- (app_nil_r p) at 1. by apply lookup_remove_under. Qed.

(** Placing an entry where no directory was leaves every directory a
    directory. *)
Lemma is_dir_graft p x t t' q :
  Fs.graft p x t = Some t' → Fs.is_dir p t = false →
  Fs.is_dir q t = true → Fs.is_dir q t' = true.
Proof.
  revert q t t'; induction p as [|c p IH]; intros q t t' Hg Hp Hq.
  - destruct t as [d|es]; [|done]. by destruct q.
  - destruct t as [d|es]; [done|]. rewrite graft_cons in Hg.
    destruct (Fs.graft p x (default (Dir ∅) (es !! c))) as [sub'|] eqn:E; [|done].
    simpl in Hg. injection Hg as <-.
    destruct q as [|c' q]; [done|].
    rewrite is_dir_cons in *.
    destruct (decide (c = c')) as [<-|Hne]; [|by rewrite lookup_insert_ne].
    rewrite lookup_insert_eq.
    destruct (es !! c) as [sub|]; [|done]. by eapply IH.
Qed.

Lemma parent_snoc p c : Fs.parent (p ++ [c]) = p.
Proof. unfold Fs.parent. apply removelast_last. Qed.

Lemma name_snoc p c : Pathlib.name (p ++ [c]) = c.
Proof. unfold Pathlib.name. by rewrite last_snoc. Qed.

End FsFacts.

(** ** The library calls *)

Lemma is_dir_exists p t : Fs.is_dir p t = true → Fs.exists_ p t = true.
Proof. unfold Fs.is_dir, Fs.exists_. by destruct (Fs.lookup p t). Qed.

Lemma is_dir_lookup p t : Fs.is_dir p t = true ↔ ∃ es, Fs.lookup p t = Some (Dir es).
Proof.
  unfold Fs.is_dir. destruct (Fs.lookup p t) as [[d|es]|]; split; try done; eauto.
  - by intros [es [=]].
  - by intros [es [=]].
Qed.

Lemma exists_lookup p t : Fs.exists_ p t = false ↔ Fs.lookup p t = None.
Proof. unfold Fs.exists_. by destruct (Fs.lookup p t). Qed.

Lemma rmtree_dir p w :
  p ≠ [] → Fs.is_dir p (fs w) = true →
  Shutil.rmtree p w = (Ret tt, set_fs (Fs.remove p (fs w)) w).
Proof.
  intros Hp [es Hes]%is_dir_lookup. unfold Shutil.rmtree. rewrite Hes.
  by destruct p.
Qed.

Lemma not_exists_not_dir p t : Fs.exists_ p t = false → Fs.is_dir p t = false.
Proof. unfold Fs.exists_, Fs.is_dir. by destruct (Fs.lookup p t). Qed.

(** Extraction only adds: a directory stays a directory. *)
Lemma extract_member_is_dir target member w w' q :
  Zipfile.extract_member target member w = (Ret tt, w') →
  Fs.is_dir q (fs w) = true → Fs.is_dir q (fs w') = true.
Proof.
  destruct member as [filename d]. unfold Zipfile.extract_member.
  set (tp := target ++ Zipfile.arcname filename).
  intros H Hq.
  apply bind_ret_inv in H as (e & w0 & [= <- <-] & H).
  apply bind_ret_inv in H as ([] & w1 & Hup & H).
  assert (Hq1 : Fs.is_dir q (fs w1) = true).
  { destruct (Fs.exists_ (Fs.parent tp) (fs w)) eqn:He; cbn [negb] in Hup.
    - by injection Hup as <-.
    - unfold Os.makedirs in Hup. rewrite He in Hup.
      destruct (Fs.graft _ _ _) as [t|] eqn:G; [|done]. injection Hup as <-.
      cbn [fs set_fs]. eapply is_dir_graft; [exact G| |done].
      by apply not_exists_not_dir. }
  clear Hup Hq. destruct (Str.endswith "/" filename).
  - apply bind_ret_inv in H as (isd & w0 & [= <- <-] & H).
    destruct (Fs.is_dir tp (fs w1)) eqn:Hd; cbn [negb] in H.
    + by injection H as <-.
    + unfold Os.mkdir in H. destruct (Fs.exists_ tp (fs w1)); [done|].
      destruct (Fs.lookup (Fs.parent tp) (fs w1)) as [[?|?]|]; try done.
      destruct (Fs.graft _ _ _) as [t|] eqn:G; [|done]. injection H as <-.
      cbn [fs set_fs]. by eapply is_dir_graft.
  - unfold Os.write in H.
    assert (Hd : Fs.is_dir tp (fs w1) = false).
    { unfold Fs.is_dir. by destruct (Fs.lookup tp (fs w1)) as [[?|?]|]. }
    assert (Hw : match Fs.lookup (Fs.parent tp) (fs w1) with
                 | Some (Dir _) =>
                     match Fs.graft tp (File d) (fs w1) with
                     | Some t => (Ret tt, set_fs t w1)
                     | None => (Raise NotADirectoryError, w1)
                     end
                 | Some (File _) => (Raise NotADirectoryError, w1)
                 | None => (Raise FileNotFoundError, w1)
                 end = (Ret tt, w')).
    { by destruct (Fs.lookup tp (fs w1)) as [[?|?]|]. }
    destruct (Fs.lookup (Fs.parent tp) (fs w1)) as [[?|?]|]; try done.
    destruct (Fs.graft _ _ _) as [t|] eqn:G; [|done]. injection Hw as <-.
    cbn [fs set_fs]. by eapply is_dir_graft.
Qed.

Lemma extractall_is_dir members target w w' q :
  Zipfile.extractall members target w = (Ret tt, w') →
  Fs.is_dir q (fs w) = true → Fs.is_dir q (fs w') = true.
Proof.
  revert w; induction members as [|m members IH]; intros w H Hq.
  - by injection H as <-.
  - cbn [Zipfile.extractall] in H.
    apply bind_ret_inv in H as ([] & w1 & Hm & H).
    eapply IH; [exact H|]. by eapply extract_member_is_dir.
Qed.

Lemma mkdir_parents_is_dir p w w' :
  PathIO.mkdir_parents p w = (Ret tt, w') → Fs.is_dir p (fs w') = true.
Proof.
  unfold PathIO.mkdir_parents.
  destruct (Fs.lookup p (fs w)) as [[?|es]|] eqn:E; [done| |].
  - intros [= <-]. apply is_dir_lookup. eauto.
  - destruct (Fs.graft _ _ _) as [t|] eqn:G; [|done]. intros [= <-].
    apply is_dir_lookup. exists ∅. by eapply lookup_graft_eq.
Qed.

Ltac not_in_list :=
  repeat (apply not_elem_of_cons; split; [discriminate|]); apply not_elem_of_nil.

Lemma joinpath_plugin_py p : Pathlib.joinpath p "plugin.py" = p ++ ["plugin.py"].
Proof. reflexivity. Qed.

Lemma joinpath_manifest p : Pathlib.joinpath p "manifest.json" = p ++ ["manifest.json"].
Proof. reflexivity. Qed.

Lemma joinpath_empty p : Pathlib.joinpath p "" = p.
Proof. unfold Pathlib.joinpath. simpl. apply app_nil_r. Qed.

(** ** uninstall *)

Lemma uninstall_removes (self : Marketplace) (plugin_name : string) (w : world) :
  let dest := Pathlib.joinpath (install_dir self) plugin_name in
  dest ≠ [] → Fs.is_dir dest (fs w) = true →
  uninstall self plugin_name w = (Ret true, set_fs (Fs.remove dest (fs w)) w).
Proof.
  intros dest Hroot Hd.
  unfold uninstall, bind, PathIO.exists_, PathIO.is_dir, gets. fold dest.
  rewrite Hd, (is_dir_exists _ _ Hd). cbn [andb].
  by rewrite (rmtree_dir dest w Hroot Hd).
Qed.



(** ** The constructor *)

Lemma load_catalogue_frame self w r w' :
  _load_catalogue self w = (r, w') →
  w' = w ∧ ∀ s, r = Ret s → install_dir s = install_dir self.
Proof.
  unfold _load_catalogue, bind, PathIO.exists_, PathIO.open_r, gets, ret, try_except,
    Json.load, raise.
  destruct (Fs.exists_ _ _); simpl.
  - destruct (Fs.lookup _ _) as [[fh|es]|]; [|intros [= <- <-]; by split..].
    destruct (json_of fh); simpl; intros [= <- <-]; split; try done;
      by intros s [= <-].
  - intros [= <- <-]. split; [done|]. by intros s [= <-].
Qed.

Lemma init_install_dir c d w self w1 :
  Marketplace_init c d w = (Ret self, w1) →
  Fs.is_dir (install_dir self) (fs w1) = true.
Proof.
  unfold Marketplace_init, bind, gets.
  set (p := match d with Some s => Pathlib.Path s | None => _ end).
  unfold PathIO.mkdir_parents.
  destruct (Fs.lookup p (fs w)) as [[fd|es]|] eqn:E; [done| |].
  - intros H. apply load_catalogue_frame in H as [-> H].
    rewrite (H self eq_refl). simpl. apply is_dir_lookup. eauto.
  - destruct (Fs.graft p (Dir ∅) (fs w)) as [t|] eqn:G; [|done].
    intros H. apply load_catalogue_frame in H as [-> H].
    rewrite (H self eq_refl). simpl. apply is_dir_lookup.
    exists ∅. by eapply lookup_graft_eq.
Qed.



(** ** test *)

Section Test.

Variables (self : Marketplace) (plugin_name : string) (w : world).

Let plugin_dir := Pathlib.joinpath (install_dir self) plugin_name.
Let plugin_module_file := Pathlib.joinpath plugin_dir "plugin.py".
Let entry := Pathlib.str plugin_dir.

(** The state a call leaves when it got as far as the [try] block:
    [sys.path] as the plugin left it, without the entries equal to the
    one that was prepended. *)
Let cleaned (sp : list string) : world :=
  set_sys_path (filter (λ p, p ≠ entry) sp) w.

(** [test], case by case. *)
Lemma test_cases :
  test self plugin_name w =
  match Fs.lookup plugin_dir (fs w) with
  | None => (Raise NotInstalled, w)
  | Some _ =>
      match Fs.lookup plugin_module_file (fs w) with
      | None => (Raise MissingEntryPoint, w)
      | Some (Dir _) => (Raise IsADirectoryError, cleaned (entry :: sys_path w))
      | Some (File d) =>
          match module_of d (entry :: sys_path w) with
          | (sp, ImportFails) => (Raise PluginError, cleaned sp)
          | (sp, ImportExits) => (Raise SystemExit, cleaned sp)
          | (sp, Loaded None) => (Raise ContractViolation, cleaned sp)
          | (sp, Loaded (Some NotCallable)) => (Raise TypeError, cleaned sp)
          | (sp, Loaded (Some (Function body))) =>
              match body sp with
              | (sp', Returned v) => (Ret (truthy v), cleaned sp')
              | (sp', Raised) => (Raise PluginError, cleaned sp')
              | (sp', Exits) => (Raise SystemExit, cleaned sp')
              end
          end
      end
  end.
Proof.
  unfold test, bind, PathIO.exists_, gets, Fs.exists_.
  fold plugin_dir. fold plugin_module_file.
  destruct (Fs.lookup plugin_dir (fs w)) as [n|]; [|done]. cbn [negb].
  destruct (Fs.lookup plugin_module_file (fs w)) as [n'|] eqn:E; [|done]. cbn [negb].
  assert (Hspec : Importlib.spec_from_file_location plugin_module_file
                  = Some plugin_module_file).
  { unfold Importlib.spec_from_file_location, plugin_module_file.
    rewrite joinpath_plugin_py. unfold Pathlib.suffix. by rewrite name_snoc. }
  unfold modify, try_finally. rewrite Hspec.
  unfold Importlib.exec_module, bind, PathIO.open_r. cbn [fs set_sys_path].
  rewrite E. destruct n' as [d|es]; [|done].
  cbn [sys_path set_sys_path]. fold entry.
  destruct (module_of d (entry :: sys_path w)) as [sp [|[[|body]|]|]]; try done.
  unfold Importlib.call. cbn [sys_path set_sys_path].
  by destruct (body sp) as [sp' [v| |]].
Qed.

End Test.

(** C9.  Whenever [test] gets past its two checks and prepends the plugin
    directory to [sys.path], that entry is absent from [sys.path] when the
    call is over, whatever the outcome: a result, a failing import, a
    missing or uncallable [run_test], or an exception from [run_test].
    When a check fails, nothing was prepended and [sys.path] is as
    before. *)
Theorem test_restores_sys_path (self : Marketplace) (plugin_name : string) (w : world) :
  let plugin_dir := Pathlib.joinpath (install_dir self) plugin_name in
  let plugin_module_file := Pathlib.joinpath plugin_dir "plugin.py" in
  if Fs.exists_ plugin_dir (fs w) && Fs.exists_ plugin_module_file (fs w)
  then Pathlib.str plugin_dir ∉ sys_path (test self plugin_name w).2
  else sys_path (test self plugin_name w).2 = sys_path w.
Proof.
  intros plugin_dir plugin_module_file. rewrite test_cases.
  fold plugin_dir. fold plugin_module_file. unfold Fs.exists_.
  assert (Hclean : ∀ sp : list string,
             Pathlib.str plugin_dir ∉ filter (λ p, p ≠ Pathlib.str plugin_dir) sp).
  { intros sp [H _]%list_elem_of_filter. by apply H. }
  destruct (Fs.lookup plugin_dir (fs w)) as [n|]; [|done].
  destruct (Fs.lookup plugin_module_file (fs w)) as [[d|es]|]; cbn [andb]; [|apply Hclean|done].
  destruct (module_of d _) as [sp [|[[|body]|]|]]; try apply Hclean.
  destruct (body sp) as [sp' [v| |]]; apply Hclean.
Qed.

(** C4, as the code has it.  [test] fails with NotInstalled exactly when
    nothing exists at [install_dir / name], be it a directory or a regular
    file; it fails with MissingEntryPoint when something exists there and
    no [plugin.py] below it; with ContractViolation when [plugin.py] loads
    and defines no [run_test]; and when [run_test] returns a value, the
    result is that value coerced to a boolean. *)
Theorem test_outcomes (self : Marketplace) (plugin_name : string) (w : world) :
  plain_name plugin_name →
  let plugin_dir := Pathlib.joinpath (install_dir self) plugin_name in
  let plugin_module_file := plugin_dir ++ ["plugin.py"] in
  let entry := Pathlib.str plugin_dir in
  ((test self plugin_name w).1 = Raise NotInstalled ↔ Fs.lookup plugin_dir (fs w) = None)
  ∧ (Fs.exists_ plugin_dir (fs w) = true →
     Fs.lookup plugin_module_file (fs w) = None →
     test self plugin_name w = (Raise MissingEntryPoint, w))
  ∧ (∀ d sp,
       Fs.lookup plugin_module_file (fs w) = Some (File d) →
       module_of d (entry :: sys_path w) = (sp, Loaded None) →
       (test self plugin_name w).1 = Raise ContractViolation)
  ∧ (∀ d sp body sp' v,
       Fs.lookup plugin_module_file (fs w) = Some (File d) →
       module_of d (entry :: sys_path w) = (sp, Loaded (Some (Function body))) →
       body sp = (sp', Returned v) →
       (test self plugin_name w).1 = Ret (truthy v)).
Proof.
  intros _ plugin_dir plugin_module_file entry.
  rewrite test_cases. rewrite joinpath_plugin_py.
  fold plugin_dir. fold plugin_module_file. fold entry.
  assert (Hup : ∀ n, Fs.lookup plugin_module_file (fs w) = Some n →
                     ∃ n', Fs.lookup plugin_dir (fs w) = Some n').
  { intros n. unfold plugin_module_file. rewrite lookup_app.
    destruct (Fs.lookup plugin_dir (fs w)); [eauto|done]. }
  repeat split.
  - destruct (Fs.lookup plugin_dir (fs w)) as [n|]; [|done].
    destruct (Fs.lookup plugin_module_file (fs w)) as [[d|es]|]; [|done..].
    destruct (module_of d _) as [sp [|[[|body]|]|]]; try done.
    by destruct (body sp) as [sp' [v| |]].
  - by intros ->.
  - unfold Fs.exists_. intros He Hl. rewrite Hl.
    by destruct (Fs.lookup plugin_dir (fs w)).
  - intros d sp Hl Hm. destruct (Hup _ Hl) as [n' ->]. by rewrite Hl, Hm.
  - intros d sp body sp' v Hl Hm Hb. destruct (Hup _ Hl) as [n' ->].
    by rewrite Hl, Hm, Hb.
Qed.

Lemma test_outcomes_witness :
  (test Sample.mp "foo" Sample.w_inst).1 = Ret (truthy (JBool true)).
Proof.
  destruct (test_outcomes Sample.mp "foo" Sample.w_inst) as (_ & _ & _ & H).
  - unfold plain_name. vm_compute. not_in_list.
  - eapply (H (Sample.plugin_py (JBool true))); vm_compute; reflexivity.
Defined.

(** C4, as stated, fails: a regular file sits in the install directory
    under the name that is tested.  No installed directory of that name
    exists, yet the failure is MissingEntryPoint and not NotInstalled. *)
Lemma test_regular_file_not_reported_as_not_installed :
  Fs.is_dir (Pathlib.joinpath (install_dir Sample.mp) "notes") (fs Sample.w_inst) = false
  ∧ test Sample.mp "notes" Sample.w_inst = (Raise MissingEntryPoint, Sample.w_inst)
  ∧ (test Sample.mp "notes" Sample.w_inst).1 ≠ Raise NotInstalled.
Proof. repeat split; vm_compute; [reflexivity..|discriminate]. Qed.

(** ** The catalogue *)

(** [_load_catalogue], case by case. *)
Lemma load_catalogue_cases (self : Marketplace) (w : world) :
  _load_catalogue self w =
  match Fs.lookup (catalogue_path self) (fs w) with
  | None => (Ret (set_catalogue (JArr []) self), w)
  | Some (Dir _) => (Raise IsADirectoryError, w)
  | Some (File d) =>
      match json_of d with
      | JsonOk c => (Ret (set_catalogue c self), w)
      | JsonBad => (Ret (set_catalogue (JArr []) self), w)
      | NotUtf8 => (Raise UnicodeDecodeError, w)
      end
  end.
Proof.
  unfold _load_catalogue, bind, PathIO.exists_, PathIO.open_r, gets, Fs.exists_,
    try_except, Json.load, ret, raise.
  destruct (Fs.lookup _ _) as [[d|es]|] eqn:E; simpl; rewrite ?E; try done.
  by destruct (json_of d).
Qed.

(** The cases in which loading does what the specification says: a path
    that does not exist and a text file that is not JSON give the empty
    catalogue, and JSON text gives the parsed value as it is. *)
Lemma load_catalogue_text (self : Marketplace) (w : world) :
  (Fs.lookup (catalogue_path self) (fs w) = None →
   ∃ self', _load_catalogue self w = (Ret self', w) ∧ list_available self' = JArr [])
  ∧ (∀ d, Fs.lookup (catalogue_path self) (fs w) = Some (File d) → json_of d = JsonBad →
     ∃ self', _load_catalogue self w = (Ret self', w) ∧ list_available self' = JArr [])
  ∧ (∀ d c, Fs.lookup (catalogue_path self) (fs w) = Some (File d) → json_of d = JsonOk c →
     ∃ self', _load_catalogue self w = (Ret self', w) ∧ list_available self' = c).
Proof.
  rewrite load_catalogue_cases. repeat split.
  - intros ->. eauto.
  - intros d -> ->. eauto.
  - intros d c -> ->. eauto.
Qed.

(** C6 fails on the code: a catalogue file whose bytes are not UTF-8 text
    is not parseable, and loading it raises UnicodeDecodeError out of the
    constructor instead of giving the empty catalogue; a catalogue path
    that names a directory raises IsADirectoryError. *)
Theorem load_catalogue_raises :
  Fs.lookup (catalogue_path Sample.mp_latin1) (fs Sample.w0) = Some Sample.binary_file
  ∧ _load_catalogue Sample.mp_latin1 Sample.w0 = (Raise UnicodeDecodeError, Sample.w0)
  ∧ (Marketplace_init (Some "/dl/latin1.json") None Sample.w0).1 = Raise UnicodeDecodeError
  ∧ _load_catalogue Sample.mp_dir Sample.w0 = (Raise IsADirectoryError, Sample.w0).
Proof. repeat split; vm_compute; reflexivity. Qed.

(** ** search *)










Arguments Str.contains : simpl never.

Lemma search_matches_filter keyword entries w :
  Forall catalogue_entry entries →
  search_matches (Str.lower keyword) entries w
  = (Ret (List.filter (search_keeps keyword) entries), w).
Proof.
  induction 1 as [|p entries (fields & -> & Hn & Hd) _ IH]; [done|].
  cbn [search_matches List.filter]. unfold bind at 1. unfold Json.get, ret at 1.
  unfold search_keeps at 1. unfold field_text, text_or_absent in *.
  destruct (dict_lookup "name" fields) as [[| | |n| |]|]; try done;
    destruct (dict_lookup "description" fields) as [[| | |d| |]|]; try done;
    unfold bind, ret, default, py_lower; simpl;
    repeat match goal with
           | |- context [Str.contains ?a ?b] => destruct (Str.contains a b)
           end;
    simpl; by rewrite ?IH.
Qed.






(** ** Names and paths *)

Lemma split_no_slash s : has_slash s = false → Str.split "/" s = [s].
Proof.
  induction s as [|c s IH]; simpl; [done|].
  intros [Hc Hs]%orb_false_iff. rewrite Hc, (IH Hs). done.
Qed.

Lemma split_components s : Forall (λ c, has_slash c = false) (Str.split "/" s).
Proof.
  induction s as [|c s IH]; simpl; [by repeat constructor|].
  destruct (Ascii.eqb c "/") eqn:E; [by constructor|].
  destruct (Str.split "/" s) as [|h t]; [repeat constructor; simpl; by rewrite E|].
  inversion_clear IH. constructor; [|done]. simpl. by rewrite E.
Qed.

Lemma Path_components s : Forall valid_name (Pathlib.Path s).
Proof.
  unfold Pathlib.Path. apply Forall_forall. intros c [[H1 H2] Hc]%list_elem_of_filter.
  repeat split; try done.
  by eapply (proj1 (Forall_forall _ _) (split_components s)).
Qed.

Lemma name_Path s : Pathlib.Path s = [] ∨ valid_name (Pathlib.name (Pathlib.Path s)).
Proof.
  pose proof (Path_components s) as H.
  destruct (Pathlib.Path s) as [|c l] using rev_ind; [by left|right].
  rewrite name_snoc. apply Forall_app in H as [_ H]. by inversion H.
Qed.

Lemma is_absolute_no_slash n : has_slash n = false → Pathlib.is_absolute n = false.
Proof.
  destruct n as [|c n]; [done|]. simpl. intros [Hc _]%orb_false_iff.
  unfold Pathlib.is_absolute. cbn [Str.startswith].
  destruct (Ascii.eqb_spec "/" c) as [<-|]; [done|]. done.
Qed.

Lemma joinpath_valid p n : valid_name n → Pathlib.joinpath p n = p ++ [n].
Proof.
  intros (H1 & H2 & H3). unfold Pathlib.joinpath, Pathlib.Path.
  rewrite (is_absolute_no_slash _ H3), (split_no_slash _ H3).
  by rewrite filter_cons_True.
Qed.

Lemma has_slash_app a b : has_slash (a +:+ b) = has_slash a || has_slash b.
Proof. induction a as [|c a IH]; simpl; [done|]. by rewrite IH, orb_assoc. Qed.

Lemma substring_no_slash i j s : has_slash s = false → has_slash (substring i j s) = false.
Proof.
  revert i j; induction s as [|c s IH]; intros i j; simpl.
  - by destruct i, j.
  - intros [Hc Hs]%orb_false_iff.
    destruct i as [|i]; [destruct j as [|j]; simpl; [done|] | by apply IH].
    by rewrite Hc, IH.
Qed.

Lemma stem_no_slash s : has_slash (Pathlib.stem (Pathlib.Path s)) = false.
Proof.
  assert (Hn : has_slash (Pathlib.name (Pathlib.Path s)) = false).
  { destruct (name_Path s) as [->|(_ & _ & H)]; done. }
  unfold Pathlib.stem. destruct (Pathlib.suffix_dot _); [|done].
  by apply substring_no_slash.
Qed.

(** The scratch directory of an archive is an entry of the install
    directory, named after the stem of the archive. *)
Lemma tmpdir_shape (self : Marketplace) s :
  Pathlib.joinpath (install_dir self) (Pathlib.stem (Pathlib.Path s) +:+ "_tmp")
  = install_dir self ++ [Pathlib.stem (Pathlib.Path s) +:+ "_tmp"].
Proof.
  apply joinpath_valid. set (st := Pathlib.stem _).
  assert (Hlen : ∀ x y, String.length (x +:+ y) = String.length x + String.length y).
  { intros x y. induction x; simpl; [done|]. by f_equal. }
  repeat split.
  - intros H. apply (f_equal String.length) in H. rewrite Hlen in H. simpl in H. lia.
  - intros H. apply (f_equal String.length) in H. rewrite Hlen in H. simpl in H. lia.
  - rewrite has_slash_app. unfold st. by rewrite stem_no_slash.
Qed.

(** ** install: reading the manifest *)

(** The second half of [install], case by case. *)
Lemma install_manifest_cases (p : PurePath) (w : world) :
  install_manifest p w =
  match Fs.lookup (p ++ ["manifest.json"]) (fs w) with
  | None => (Raise InvalidPlugin, w)
  | Some (Dir _) => (Raise IsADirectoryError, w)
  | Some (File d) =>
      match json_of d with
      | JsonOk (JObj fields) => (Ret (metadata_of p fields), w)
      | JsonOk _ => (Raise AttributeError, w)
      | JsonBad => (Raise JSONDecodeError, w)
      | NotUtf8 => (Raise UnicodeDecodeError, w)
      end
  end.
Proof.
  unfold install_manifest, bind, PathIO.exists_, PathIO.open_r, gets, Fs.exists_,
    Json.load, Json.get, ret, raise.
  rewrite joinpath_manifest.
  destruct (Fs.lookup _ _) as [[d|es]|] eqn:E; simpl; rewrite ?E; try done.
  by destruct (json_of d) as [[]| |].
Qed.

Lemma install_manifest_frame p w r w' : install_manifest p w = (r, w') → w' = w.
Proof.
  rewrite install_manifest_cases.
  destruct (Fs.lookup _ _) as [[d|es]|]; [|by intros [= _ <-]..].
  destruct (json_of d) as [[]| |]; by intros [= _ <-].
Qed.

(** ** install: placing a directory *)

Section PlaceDirectory.

Variables (self : Marketplace) (plugin_source : string).
Hypothesis Hdir : not_archive plugin_source.

Let src := Pathlib.Path plugin_source.
Let dest := Pathlib.joinpath (install_dir self) (Pathlib.name src).

(** What a successful placement of a directory tells. *)
Lemma install_place_dir_inv w p w1 :
  install_place self plugin_source w = (Ret p, w1) →
  ∃ es t1,
    p = dest ∧ dest ≠ [] ∧ diverge src dest
    ∧ Fs.lookup src (fs w) = Some (Dir es)
    ∧ (Fs.lookup dest (fs w) = None ∨ Fs.is_dir dest (fs w) = true)
    ∧ Fs.graft dest (Dir es) (Fs.remove dest (fs w)) = Some t1
    ∧ w1 = set_fs t1 w.
Proof.
  intros H. unfold install_place in H. fold src in H. fold dest in H.
  red in Hdir. fold src in Hdir. rewrite Hdir in H.
  unfold bind, PathIO.exists_, PathIO.is_dir, gets, raise, ret in H.
  assert (Hgen : ∀ t, Fs.lookup dest t = None →
            Shutil.copytree src dest (set_fs t w) = (Ret tt, w1) →
            ∃ es' t1, Fs.lookup src t = Some (Dir es') ∧ ¬ src `prefix_of` dest
                      ∧ Fs.graft dest (Dir es') t = Some t1 ∧ w1 = set_fs t1 w).
  { intros t Hnone. unfold Shutil.copytree, Fs.exists_. cbn [fs set_fs]. rewrite Hnone.
    destruct (Fs.lookup src t) as [[d'|es']|]; [done| |done].
    case_bool_decide as Hpre; [done|].
    destruct (Fs.graft dest (Dir es') t) as [t1|] eqn:G; [|done].
    intros [= <-]. exists es', t1. by destruct w. }
  destruct (Fs.exists_ src (fs w)) eqn:He; [|done]. cbn [negb] in H.
  destruct (Fs.is_dir src (fs w)) eqn:Hi; [|done].
  apply is_dir_lookup in Hi as [es Hsrc].
  destruct (Fs.exists_ dest (fs w)) eqn:Hed.
  - destruct (Shutil.rmtree dest w) as [[[]|e] w2] eqn:Hrm; [|done].
    destruct (Shutil.copytree src dest w2) as [[[]|e] w3] eqn:Hcopy; [|done].
    injection H as <- <-.
    unfold Shutil.rmtree in Hrm.
    destruct (Fs.lookup dest (fs w)) as [[d|es']|] eqn:Hdest; [done| |done].
    assert (Hne : dest ≠ []).
    { intros Hnil. by rewrite Hnil in Hrm. }
    assert (w2 = set_fs (Fs.remove dest (fs w)) w) as ->.
    { destruct dest; [done|]. by injection Hrm as <-. }
    assert (Hnone : Fs.lookup dest (Fs.remove dest (fs w)) = None).
    { rewrite <- (app_nil_r dest) at 1. by apply lookup_remove_under. }
    destruct (Hgen _ Hnone Hcopy) as (es'' & t1 & Hs & Hpre & Hg & ->).
    assert (Hd : diverge src dest).
    { split; [done|]. intros [q Hq]. rewrite Hq in Hs.
      by rewrite lookup_remove_under in Hs. }
    rewrite (lookup_remove_frame _ _ _ (diverge_sym _ _ Hd)), Hsrc in Hs.
    injection Hs as <-.
    exists es, t1. repeat split; try done; try apply Hd.
    right. apply is_dir_lookup. eauto.
  - destruct (Shutil.copytree src dest w) as [[[]|e] w3] eqn:Hcopy; [|done].
    injection H as <- <-. apply exists_lookup in Hed.
    rewrite <- (set_fs_id w) in Hcopy.
    destruct (Hgen _ Hed Hcopy) as (es'' & t1 & Hs & Hpre & Hg & ->).
    rewrite Hsrc in Hs. injection Hs as <-.
    assert (Hne : dest ≠ []).
    { intros Hnil. by rewrite Hnil in Hed. }
    exists es, t1. rewrite (remove_absent _ _ Hed). repeat split; try done.
    + intros [q Hq]. rewrite Hq, lookup_app, Hed in Hsrc. done.
    + by left.
Qed.


End PlaceDirectory.

(** ** install: placing an archive *)

Lemma move_fresh src dst w n t :
  Fs.lookup src (fs w) = Some n → Fs.lookup dst (fs w) = None →
  ¬ src `prefix_of` dst → Fs.is_dir (Fs.parent dst) (fs w) = true →
  Fs.graft dst n (Fs.remove src (fs w)) = Some t →
  Shutil.move src dst w = (Ret tt, set_fs t w).
Proof.
  intros Hsrc Hdst Hpre Hpar Hg.
  assert (Hnd : Fs.is_dir dst (fs w) = false) by (unfold Fs.is_dir; by rewrite Hdst).
  unfold Shutil.move. rewrite Hnd.
  cbn [andb]. unfold Os.rename. rewrite Hsrc.
  assert (src ≠ dst) by (intros ->; apply Hpre; by exists []).
  rewrite (bool_decide_eq_false_2 (src = dst)) by done.
  rewrite (bool_decide_eq_false_2 (src `prefix_of` dst)) by done.
  rewrite Hpar, Hdst. cbn [negb]. by rewrite Hg.
Qed.

Lemma move_missing src dst w :
  Fs.lookup src (fs w) = None → Fs.lookup dst (fs w) = None →
  Shutil.move src dst w = (Raise FileNotFoundError, w).
Proof.
  intros Hsrc Hdst.
  assert (Hnd : Fs.is_dir dst (fs w) = false) by (unfold Fs.is_dir; by rewrite Hdst).
  unfold Shutil.move. rewrite Hnd.
  cbn [andb]. unfold Os.rename. rewrite Hsrc.
  unfold bind, Shutil.copy2. by rewrite Hsrc.
Qed.

Lemma rmtree_if_exists p w :
  p ≠ [] → (Fs.lookup p (fs w) = None ∨ Fs.is_dir p (fs w) = true) →
  (if Fs.exists_ p (fs w) then Shutil.rmtree p else ret tt) w
  = (Ret tt, set_fs (Fs.remove p (fs w)) w).
Proof.
  intros Hne [Hp|Hp].
  - rewrite (proj2 (exists_lookup _ _) Hp), (remove_absent _ _ Hp), set_fs_id. done.
  - rewrite (is_dir_exists _ _ Hp). by apply rmtree_dir.
Qed.

Section ArchiveTail.

(** The install directory, the names of the scratch directory, of the
    wrapping folder in it and of the installed plugin, and the state
    after extraction. *)
Variables (inst : PurePath) (x k n : string) (wb : world) (es_k : gmap string node).

Let tmpdir := inst ++ [x].
Let root_k := tmpdir ++ [k].
Let dest := inst ++ [n].

Hypothesis Hk : Fs.lookup root_k (fs wb) = Some (Dir es_k).
Hypothesis Hnx : n ≠ x.
Hypothesis Hdest : Fs.lookup dest (fs wb) = None ∨ Fs.is_dir dest (fs wb) = true.

Let t_c := Fs.remove dest (fs wb).

Lemma tail_dest_ne : dest ≠ [].
Proof. unfold dest. by destruct inst. Qed.

Lemma tail_diverge_dest_tmpdir : diverge dest tmpdir.
Proof. by apply diverge_siblings. Qed.

Lemma tail_diverge_dest_root : diverge dest root_k.
Proof.
  split; intros [q Hq]; unfold dest, root_k, tmpdir in Hq;
    rewrite <- !app_assoc in Hq; apply app_inv_head in Hq; simpl in Hq.
  - injection Hq as Hq _. by apply Hnx.
  - injection Hq as _ Hq. by destruct q.
Qed.

Lemma tail_inst_is_dir t :
  (∃ m, Fs.lookup tmpdir t = Some m) → Fs.is_dir inst t = true.
Proof.
  intros [m Hm]. unfold tmpdir in Hm. rewrite lookup_app in Hm.
  unfold Fs.is_dir. destruct (Fs.lookup inst t) as [[d|es]|]; try done.
Qed.

Lemma tail_tmpdir_is_dir : Fs.is_dir tmpdir (fs wb) = true.
Proof.
  unfold root_k in Hk. rewrite lookup_app in Hk. unfold Fs.is_dir.
  destruct (Fs.lookup tmpdir (fs wb)) as [[d|es]|]; try done.
Qed.

Lemma tail_root_in_t_c : Fs.lookup root_k t_c = Some (Dir es_k).
Proof.
  unfold t_c. by rewrite (lookup_remove_frame _ _ _ tail_diverge_dest_root).
Qed.

Lemma tail_not_prefix_root p : length p ≤ length inst + 1 → ¬ root_k `prefix_of` p.
Proof.
  intros Hlen [q ->]. unfold root_k, tmpdir in Hlen.
  rewrite !length_app in Hlen. simpl in Hlen. lia.
Qed.

(** The tree once the wrapping folder has been moved to its place. *)
Lemma tail_graft : ∃ t, Fs.graft dest (Dir es_k) (Fs.remove root_k t_c) = Some t.
Proof.
  assert (Hi : Fs.is_dir inst (Fs.remove root_k t_c) = true).
  { rewrite is_dir_remove by (apply tail_not_prefix_root; lia).
    unfold t_c. rewrite is_dir_remove.
    - apply tail_inst_is_dir.
      destruct (proj1 (is_dir_lookup _ _) tail_tmpdir_is_dir) as [es ->]. eauto.
    - intros [q Hq]. unfold dest in Hq. apply (f_equal length) in Hq.
      rewrite !length_app in Hq. simpl in Hq. lia. }
  apply is_dir_lookup in Hi as [es Hes]. by eapply graft_in_dir.
Qed.

Lemma tail_move t :
  Fs.graft dest (Dir es_k) (Fs.remove root_k t_c) = Some t →
  Shutil.move root_k dest (set_fs t_c wb) = (Ret tt, set_fs t wb).
Proof.
  intros Hg.
  replace (set_fs t wb) with (set_fs t (set_fs t_c wb)) by by destruct wb.
  apply move_fresh with (n := Dir es_k); cbn [fs set_fs].
  - apply tail_root_in_t_c.
  - apply lookup_self_removed, tail_dest_ne.
  - apply tail_diverge_dest_root.
  - unfold dest. rewrite parent_snoc. unfold t_c. rewrite is_dir_remove.
    + apply tail_inst_is_dir.
      destruct (proj1 (is_dir_lookup _ _) tail_tmpdir_is_dir) as [es ->]. eauto.
    + intros [q Hq]. unfold dest in Hq. apply (f_equal length) in Hq.
      rewrite !length_app in Hq. simpl in Hq. lia.
  - done.
Qed.

Lemma tail_cleanup t :
  Fs.graft dest (Dir es_k) (Fs.remove root_k t_c) = Some t →
  Shutil.rmtree_ignore_errors tmpdir (set_fs t wb)
  = (Ret tt, set_fs (Fs.remove tmpdir t) wb)
  ∧ Fs.lookup dest (Fs.remove tmpdir t) = Some (Dir es_k)
  ∧ (∀ q, Fs.lookup (tmpdir ++ q) (Fs.remove tmpdir t) = None).
Proof.
  intros Hg.
  assert (Hne : tmpdir ≠ []) by (unfold tmpdir; by destruct inst).
  assert (Ht : Fs.is_dir tmpdir t = true).
  { unfold Fs.is_dir.
    rewrite (lookup_graft_frame _ _ _ _ _ Hg tail_diverge_dest_tmpdir).
    fold (Fs.is_dir tmpdir (Fs.remove root_k t_c)).
    rewrite is_dir_remove by (apply tail_not_prefix_root; unfold tmpdir;
                              rewrite length_app; simpl; lia).
    unfold t_c. rewrite is_dir_remove; [apply tail_tmpdir_is_dir|].
    apply tail_diverge_dest_tmpdir. }
  split; [|split].
  - unfold Shutil.rmtree_ignore_errors.
    rewrite (rmtree_dir tmpdir (set_fs t wb) Hne Ht). by destruct wb.
  - rewrite (lookup_remove_frame _ _ _ (diverge_sym _ _ tail_diverge_dest_tmpdir)).
    by eapply lookup_graft_eq.
  - intros q. by apply lookup_remove_under.
Qed.

End ArchiveTail.

Lemma ZipFile_inv p w z w' :
  Zipfile.ZipFile p w = (Ret z, w') →
  w' = w ∧ ∃ d, Fs.lookup p (fs w) = Some (File d) ∧ zip_of d = Some z.
Proof.
  unfold Zipfile.ZipFile, bind, PathIO.open_r.
  destruct (Fs.lookup p (fs w)) as [[d|es]|]; [|done..].
  destruct (zip_of d) as [z'|] eqn:E; [|done].
  intros [= <- <-]. eauto.
Qed.

Lemma iterdir_inv p w l w' :
  PathIO.iterdir p w = (Ret l, w') →
  w' = w ∧ ∃ es, Fs.lookup p (fs w) = Some (Dir es) ∧ l = (λ c, p ++ [c]) <$> Fs.names es.
Proof.
  unfold PathIO.iterdir.
  destruct (Fs.lookup p (fs w)) as [[d|es]|]; [done| |done].
  intros [= <- <-]. eauto.
Qed.

Section PlaceArchive.

Variables (self : Marketplace) (plugin_source : string).
Hypothesis Hzip : is_archive plugin_source.

Let src := Pathlib.Path plugin_source.
Let x := Pathlib.stem src +:+ "_tmp".
Let inst := install_dir self.
Let tmpdir := inst ++ [x].

(** The placement of an archive with a wrapping folder, run forward. *)
Lemma install_place_archive_run w d z wa wb k n :
  Fs.lookup src (fs w) = Some (File d) → zip_of d = Some z →
  PathIO.mkdir_parents tmpdir w = (Ret tt, wa) →
  Zipfile.extractall z tmpdir wa = (Ret tt, wb) →
  subdirectories tmpdir (fs wb) = [tmpdir ++ [k]] →
  Pathlib.joinpath inst k = inst ++ [n] → n ≠ x →
  (Fs.lookup (inst ++ [n]) (fs wb) = None ∨ Fs.is_dir (inst ++ [n]) (fs wb) = true) →
  ∃ w1 es_k,
    install_place self plugin_source w = (Ret (inst ++ [n]), w1)
    ∧ Fs.lookup (tmpdir ++ [k]) (fs wb) = Some (Dir es_k)
    ∧ Fs.lookup (inst ++ [n]) (fs w1) = Some (Dir es_k)
    ∧ (∀ q, Fs.lookup (tmpdir ++ q) (fs w1) = None)
    ∧ sys_path w1 = sys_path wb.
Proof.
  intros Hsrc Hz Hmk Hext Hsub Hjoin Hnx Hdest.
  unfold subdirectories in Hsub.
  destruct (Fs.lookup tmpdir (fs wb)) as [[?|es_tmp]|] eqn:Htmp; [done| |done].
  assert (Hkd : Fs.is_dir (tmpdir ++ [k]) (fs wb) = true).
  { assert (Hin : tmpdir ++ [k] ∈ [tmpdir ++ [k]]) by by left.
    rewrite <- Hsub in Hin. by apply list_elem_of_filter in Hin as [Hin _]. }
  apply is_dir_lookup in Hkd as [es_k Hk].
  destruct (tail_graft inst x k n wb es_k Hk) as [t Hg].
  destruct (tail_cleanup inst x k n wb es_k Hk Hnx Hdest t Hg) as (Hclean & Hl & Hgone).
  exists (set_fs (Fs.remove tmpdir t) wb), es_k.
  split; [|split; [done|split; [done|split; [done|by destruct wb]]]].
  unfold install_place. rewrite tmpdir_shape.
  fold src. fold x. fold inst. fold tmpdir.
  erewrite bind_run by reflexivity.
  assert (Fs.exists_ src (fs w) = true) as -> by (unfold Fs.exists_; by rewrite Hsrc).
  cbn [negb]. red in Hzip. fold src in Hzip. rewrite Hzip.
  erewrite bind_run; cycle 1.
  { unfold Zipfile.ZipFile, bind, PathIO.open_r. by rewrite Hsrc, Hz. }
  erewrite bind_run by exact Hmk.
  erewrite bind_run by exact Hext.
  erewrite bind_run; cycle 1.
  { unfold PathIO.iterdir. by rewrite Htmp. }
  erewrite bind_run by reflexivity.
  cbv beta. rewrite Hsub. rewrite name_snoc, Hjoin.
  erewrite bind_run by reflexivity.
  erewrite bind_run; cycle 1.
  { apply rmtree_if_exists; [|done]. by destruct inst. }
  erewrite bind_run; cycle 1.
  { exact (tail_move inst x k n wb es_k Hk Hnx Hdest t Hg). }
  erewrite bind_run by exact Hclean.
  done.
Qed.

(** What a successful placement of an archive tells, when the plugin
    lands directly below the install directory. *)
Lemma install_place_archive_inv w n w1 :
  install_place self plugin_source w = (Ret (inst ++ [n]), w1) →
  ∃ d z wa wb k,
    Fs.lookup src (fs w) = Some (File d) ∧ zip_of d = Some z
    ∧ PathIO.mkdir_parents tmpdir w = (Ret tt, wa)
    ∧ Zipfile.extractall z tmpdir wa = (Ret tt, wb)
    ∧ subdirectories tmpdir (fs wb) = [tmpdir ++ [k]]
    ∧ Pathlib.joinpath inst k = inst ++ [n] ∧ n ≠ x
    ∧ (Fs.lookup (inst ++ [n]) (fs wb) = None ∨ Fs.is_dir (inst ++ [n]) (fs wb) = true).
Proof.
  intros H. unfold install_place in H. rewrite tmpdir_shape in H.
  fold src in H. fold x in H. fold inst in H. fold tmpdir in H.
  apply bind_ret_inv in H as (e & w0 & [= <- <-] & H).
  destruct (Fs.exists_ src (fs w)); [|done]. cbn [negb] in H.
  red in Hzip. fold src in Hzip. rewrite Hzip in H.
  apply bind_ret_inv in H as (z & w0 & Hz & H).
  apply ZipFile_inv in Hz as (-> & d & Hsrc & Hz).
  apply bind_ret_inv in H as ([] & wa & Hmk & H).
  apply bind_ret_inv in H as ([] & wb & Hext & H).
  apply bind_ret_inv in H as (entries & w0 & Hit & H).
  apply iterdir_inv in Hit as (-> & es_tmp & Htmp & ->).
  apply bind_ret_inv in H as (candidates & w0 & [= <- <-] & H).
  assert (Hsub : subdirectories tmpdir (fs wb)
                 = filter (λ q, Fs.is_dir q (fs wb) = true)
                     ((λ c, tmpdir ++ [c]) <$> Fs.names es_tmp)).
  { unfold subdirectories. by rewrite Htmp. }
  rewrite <- Hsub in H.
  assert (Htd : Fs.is_dir tmpdir (fs wb) = true) by (apply is_dir_lookup; eauto).
  assert (Htne : tmpdir ≠ []) by (unfold tmpdir; by destruct inst).
  (* placing at the scratch directory itself removes what was extracted *)
  assert (Hself : ∀ root wc wd,
    (root = tmpdir ∨ ∃ c, root = tmpdir ++ [c]) →
    (if Fs.exists_ tmpdir (fs wb) then Shutil.rmtree tmpdir else ret tt) wb = (Ret tt, wc) →
    Shutil.move root tmpdir wc = (Ret tt, wd) → False).
  { intros root wc wd Hroot Hrm Hmv.
    rewrite (is_dir_exists _ _ Htd), (rmtree_dir _ _ Htne Htd) in Hrm.
    injection Hrm as <-.
    rewrite move_missing in Hmv; [done| |]; cbn [fs set_fs].
    - destruct Hroot as [->|[c ->]]; [by apply lookup_self_removed|].
      by apply lookup_remove_under.
    - by apply lookup_self_removed. }
  assert (Hd0 : Pathlib.joinpath inst (Pathlib.name tmpdir) = tmpdir).
  { unfold tmpdir. rewrite name_snoc. apply tmpdir_shape. }
  destruct (subdirectories tmpdir (fs wb)) as [|c [|c' cs]] eqn:Hc.
  - (* no directory in the scratch directory *)
    exfalso. rewrite Hd0 in H.
    apply bind_ret_inv in H as (e & w0 & [= <- <-] & H).
    apply bind_ret_inv in H as ([] & wc & Hrm & H).
    apply bind_ret_inv in H as ([] & wd & Hmv & H).
    eapply (Hself tmpdir); eauto.
  - (* exactly one *)
    assert (Hin : c ∈ [c]) by by left.
    rewrite Hsub in Hin. apply list_elem_of_filter in Hin as [Hcd Hin].
    apply list_elem_of_fmap in Hin as (k & -> & Hkin).
    rewrite name_snoc in H.
    apply bind_ret_inv in H as (e & w0 & [= <- <-] & H).
    apply bind_ret_inv in H as ([] & wc & Hrm & H).
    apply bind_ret_inv in H as ([] & wd & Hmv & H).
    apply bind_ret_inv in H as ([] & we & Hcl & H).
    injection H as Hp <-.
    fold inst in Hp, Hrm, Hmv.
    rewrite Hp in Hrm, Hmv.
    assert (Hnx : n ≠ x).
    { intros ->. fold tmpdir in Hrm, Hmv. eapply (Hself (tmpdir ++ [k])); eauto. }
    exists d, z, wa, wb, k. repeat split; try done.
    destruct (Fs.exists_ (inst ++ [n]) (fs wb)) eqn:He.
    + right. unfold Shutil.rmtree in Hrm. unfold Fs.is_dir.
      by destruct (Fs.lookup (inst ++ [n]) (fs wb)) as [[?|?]|].
    + left. by apply exists_lookup.
  - (* several *)
    exfalso. rewrite Hd0 in H.
    apply bind_ret_inv in H as (e & w0 & [= <- <-] & H).
    apply bind_ret_inv in H as ([] & wc & Hrm & H).
    apply bind_ret_inv in H as ([] & wd & Hmv & H).
    eapply (Hself tmpdir); eauto.
Qed.

End PlaceArchive.

(** ** install: archives *)

(** C1, as the code has it.  For a source with the suffix [.zip] that is a
    readable archive, [install] extracts it into the scratch directory
    [<stem>_tmp] inside the install directory; when the extraction
    succeeds and the scratch directory then holds exactly one directory,
    whose name is not the name of the scratch directory itself and under
    whose name the install directory holds nothing or a directory, that
    directory is the plugin root and is moved into the install directory
    under its own name, the name of the wrapping folder and not one made
    from the stem of the archive, in place of whatever directory had that
    name, and the scratch directory is removed.  (A folder named as the
    scratch directory is the case of
    [install_archive_folder_named_as_scratch] below.) *)
Theorem install_archive_with_folder
    (self : Marketplace) (plugin_source : string) (w : world)
    (d : fdata) (z : list (string * fdata)) (wa wb : world) (k : string) :
  let src := Pathlib.Path plugin_source in
  let inst := install_dir self in
  let tmpdir := inst ++ [Pathlib.stem src +:+ "_tmp"] in
  is_archive plugin_source →
  Fs.lookup src (fs w) = Some (File d) → zip_of d = Some z →
  PathIO.mkdir_parents tmpdir w = (Ret tt, wa) →
  Zipfile.extractall z tmpdir wa = (Ret tt, wb) →
  subdirectories tmpdir (fs wb) = [tmpdir ++ [k]] →
  valid_name k → k ≠ Pathlib.stem src +:+ "_tmp" →
  (Fs.lookup (inst ++ [k]) (fs wb) = None ∨ Fs.is_dir (inst ++ [k]) (fs wb) = true) →
  Pathlib.joinpath inst (Pathlib.stem src +:+ "_tmp") = tmpdir
  ∧ ∃ w1, install_place self plugin_source w = (Ret (inst ++ [k]), w1)
          ∧ Fs.is_dir (inst ++ [k]) (fs w1) = true
          ∧ Fs.lookup (inst ++ [k]) (fs w1) = Fs.lookup (tmpdir ++ [k]) (fs wb)
          ∧ ∀ q, Fs.lookup (tmpdir ++ q) (fs w1) = None.
Proof.
  intros src inst tmpdir Hzip Hsrc Hz Hmk Hext Hsub Hk Hkx Hdest.
  split; [apply tmpdir_shape|].
  destruct (install_place_archive_run self plugin_source Hzip w d z wa wb k k)
    as (w1 & es_k & Hrun & Hroot & Hplaced & Hgone & _); try done.
  { by apply joinpath_valid. }
  exists w1. split; [done|]. split; [apply is_dir_lookup; eauto|].
  split; [|done]. fold src inst tmpdir in Hroot. by rewrite Hroot.
Qed.

Lemma install_archive_with_folder_witness :
  Pathlib.joinpath (install_dir Sample.mp0) "bundle_tmp" = Sample.bundle_tmp
  ∧ ∃ w1, install_place Sample.mp0 "/dl/bundle.zip" Sample.w_init
          = (Ret (install_dir Sample.mp0 ++ ["myplugin"]), w1)
          ∧ Fs.is_dir (install_dir Sample.mp0 ++ ["myplugin"]) (fs w1) = true
          ∧ Fs.lookup (install_dir Sample.mp0 ++ ["myplugin"]) (fs w1)
            = Fs.lookup (Sample.bundle_tmp ++ ["myplugin"]) (fs Sample.w_extracted)
          ∧ ∀ q, Fs.lookup (Sample.bundle_tmp ++ q) (fs w1) = None.
Proof.
  apply (install_archive_with_folder Sample.mp0 "/dl/bundle.zip" Sample.w_init
           (Bytes NotUtf8 (Some Sample.bundle_members) Sample.no_module)
           Sample.bundle_members Sample.w_tmp Sample.w_extracted "myplugin").
  - vm_compute. reflexivity.
  - vm_compute. reflexivity.
  - reflexivity.
  - vm_compute. reflexivity.
  - vm_compute. reflexivity.
  - vm_compute. reflexivity.
  - split; [discriminate|split; [discriminate|reflexivity]].
  - discriminate.
  - left. vm_compute. reflexivity.
Defined.

(** C1, as stated, fails: the name under which an archive is installed is
    not made from the stem of the archive.  [bundle.zip] with the wrapping
    folder [myplugin] is installed as [myplugin], and nothing named after
    the stem [bundle] is left in the install directory; the same archive
    name with another wrapping folder gives another installed name. *)
Lemma install_archive_name_not_from_stem :
  Pathlib.stem (Pathlib.Path "/dl/bundle.zip") = "bundle"
  ∧ (install_place Sample.mp0 "/dl/bundle.zip" Sample.w_init).1
    = Ret (install_dir Sample.mp0 ++ ["myplugin"])
  ∧ Fs.names
      (match Fs.lookup (install_dir Sample.mp0)
               (fs (install_place Sample.mp0 "/dl/bundle.zip" Sample.w_init).2) with
       | Some (Dir es) => es
       | _ => ∅
       end) = ["myplugin"]
  ∧ ¬ ∃ derive : string → string,
        ∀ self plugin_source w p w1,
          is_archive plugin_source →
          install_place self plugin_source w = (Ret p, w1) →
          Pathlib.name p = derive (Pathlib.stem (Pathlib.Path plugin_source)).
Proof.
  split; [reflexivity|]. split; [vm_compute; reflexivity|].
  split; [vm_compute; reflexivity|].
  intros [derive H].
  pose proof (H Sample.mp0 "/dl/bundle.zip" Sample.w_init
                (install_dir Sample.mp0 ++ ["myplugin"])
                (install_place Sample.mp0 "/dl/bundle.zip" Sample.w_init).2
                eq_refl) as H1.
  pose proof (H Sample.mp0 "/dl/bundle.zip" Sample.w_other
                (install_dir Sample.mp0 ++ ["other"])
                (install_place Sample.mp0 "/dl/bundle.zip" Sample.w_other).2
                eq_refl) as H2.
  rewrite name_snoc in H1, H2.
  assert ("myplugin" = "other") as Heq; [|discriminate Heq].
  rewrite H1, H2; [done| |]; vm_compute; reflexivity.
Qed.

(** C2 fails on the code for an archive without a wrapping folder.  When
    the scratch directory does not hold exactly one directory after the
    extraction, the plugin root is the scratch directory itself and the
    place it is to be moved to is the scratch directory again: it is
    removed as an existing installation, with the manifest that was
    extracted into it, and the move fails.  [install] raises
    FileNotFoundError and nothing is installed. *)
Theorem install_archive_without_folder_fails
    (self : Marketplace) (plugin_source : string) (w : world)
    (d : fdata) (z : list (string * fdata)) (wa wb : world) :
  let src := Pathlib.Path plugin_source in
  let tmpdir := install_dir self ++ [Pathlib.stem src +:+ "_tmp"] in
  is_archive plugin_source →
  Fs.lookup src (fs w) = Some (File d) → zip_of d = Some z →
  PathIO.mkdir_parents tmpdir w = (Ret tt, wa) →
  Zipfile.extractall z tmpdir wa = (Ret tt, wb) →
  (∀ c, subdirectories tmpdir (fs wb) ≠ [c]) →
  install self plugin_source w
  = (Raise FileNotFoundError, set_fs (Fs.remove tmpdir (fs wb)) wb)
  ∧ ∀ q, Fs.lookup (tmpdir ++ q) (Fs.remove tmpdir (fs wb)) = None.
Proof.
  intros src tmpdir Hzip Hsrc Hz Hmk Hext Hflat.
  assert (Htd : Fs.is_dir tmpdir (fs wb) = true).
  { eapply extractall_is_dir; [exact Hext|]. by eapply mkdir_parents_is_dir. }
  assert (Htne : tmpdir ≠ []) by (unfold tmpdir; by destruct (install_dir self)).
  split; [|intros q; by apply lookup_remove_under].
  unfold install. apply bind_raise.
  unfold install_place. rewrite tmpdir_shape. fold src. fold tmpdir.
  erewrite bind_run by reflexivity.
  assert (Fs.exists_ src (fs w) = true) as -> by (unfold Fs.exists_; by rewrite Hsrc).
  cbn [negb]. red in Hzip. fold src in Hzip. rewrite Hzip.
  erewrite bind_run; cycle 1.
  { unfold Zipfile.ZipFile, bind, PathIO.open_r. by rewrite Hsrc, Hz. }
  erewrite bind_run by exact Hmk.
  erewrite bind_run by exact Hext.
  pose proof Htd as [es_tmp Htmp]%is_dir_lookup.
  erewrite bind_run; cycle 1.
  { unfold PathIO.iterdir. by rewrite Htmp. }
  erewrite bind_run by reflexivity. cbv beta.
  assert (Hroot : match filter (λ p, Fs.is_dir p (fs wb) = true)
                          ((λ c, tmpdir ++ [c]) <$> Fs.names es_tmp) with
                  | [c] => c
                  | _ => tmpdir
                  end = tmpdir).
  { pose proof Hflat as Hflat'. unfold subdirectories in Hflat'. rewrite Htmp in Hflat'.
    destruct (filter _ _) as [|c [|c' l]]; try done. by destruct (Hflat' c). }
  rewrite Hroot.
  assert (Hdest : Pathlib.joinpath (install_dir self) (Pathlib.name tmpdir) = tmpdir).
  { unfold tmpdir. rewrite name_snoc. apply tmpdir_shape. }
  rewrite Hdest.
  erewrite bind_run by reflexivity.
  erewrite bind_run; cycle 1.
  { apply rmtree_if_exists; [done|by right]. }
  apply bind_raise. apply move_missing; cbn [fs set_fs]; by apply lookup_self_removed.
Qed.

(** The same happens to an archive whose one folder has the name of the
    scratch directory, [<stem>_tmp]: the place the folder is to be moved
    to is the scratch directory, which is removed with the folder in it,
    and the move fails. *)
Lemma install_archive_folder_named_as_scratch
    (self : Marketplace) (plugin_source : string) (w : world)
    (d : fdata) (z : list (string * fdata)) (wa wb : world) :
  let src := Pathlib.Path plugin_source in
  let x := Pathlib.stem src +:+ "_tmp" in
  let tmpdir := install_dir self ++ [x] in
  is_archive plugin_source →
  Fs.lookup src (fs w) = Some (File d) → zip_of d = Some z →
  PathIO.mkdir_parents tmpdir w = (Ret tt, wa) →
  Zipfile.extractall z tmpdir wa = (Ret tt, wb) →
  subdirectories tmpdir (fs wb) = [tmpdir ++ [x]] →
  install self plugin_source w
  = (Raise FileNotFoundError, set_fs (Fs.remove tmpdir (fs wb)) wb)
  ∧ ∀ q, Fs.lookup (tmpdir ++ q) (Fs.remove tmpdir (fs wb)) = None.
Proof.
  intros src x tmpdir Hzip Hsrc Hz Hmk Hext Hsub.
  assert (Htd : Fs.is_dir tmpdir (fs wb) = true).
  { eapply extractall_is_dir; [exact Hext|]. by eapply mkdir_parents_is_dir. }
  assert (Htne : tmpdir ≠ []) by (unfold tmpdir; by destruct (install_dir self)).
  split; [|intros q; by apply lookup_remove_under].
  unfold install. apply bind_raise.
  unfold install_place. rewrite tmpdir_shape. fold src. fold x. fold tmpdir.
  erewrite bind_run by reflexivity.
  assert (Fs.exists_ src (fs w) = true) as -> by (unfold Fs.exists_; by rewrite Hsrc).
  cbn [negb]. red in Hzip. fold src in Hzip. rewrite Hzip.
  erewrite bind_run; cycle 1.
  { unfold Zipfile.ZipFile, bind, PathIO.open_r. by rewrite Hsrc, Hz. }
  erewrite bind_run by exact Hmk.
  erewrite bind_run by exact Hext.
  pose proof Htd as [es_tmp Htmp]%is_dir_lookup.
  erewrite bind_run; cycle 1.
  { unfold PathIO.iterdir. by rewrite Htmp. }
  erewrite bind_run by reflexivity. cbv beta.
  unfold subdirectories in Hsub. rewrite Htmp in Hsub. rewrite Hsub.
  assert (Hdest : Pathlib.joinpath (install_dir self) x = tmpdir) by apply tmpdir_shape.
  rewrite name_snoc, Hdest.
  erewrite bind_run by reflexivity.
  erewrite bind_run; cycle 1.
  { apply rmtree_if_exists; [done|by right]. }
  apply bind_raise. apply move_missing; cbn [fs set_fs].
  - by apply lookup_remove_under.
  - by apply lookup_self_removed.
Qed.

Lemma install_archive_without_folder_fails_witness :
  install Sample.mp0 "/dl/flat.zip" Sample.w_init
  = (Raise FileNotFoundError,
     set_fs (Fs.remove Sample.flat_tmp (fs Sample.w_flat_extracted)) Sample.w_flat_extracted)
  ∧ ∀ q, Fs.lookup (Sample.flat_tmp ++ q)
           (Fs.remove Sample.flat_tmp (fs Sample.w_flat_extracted)) = None.
Proof.
  apply (install_archive_without_folder_fails Sample.mp0 "/dl/flat.zip" Sample.w_init
           (Bytes NotUtf8 (Some Sample.flat_members) Sample.no_module)
           Sample.flat_members Sample.w_flat_tmp Sample.w_flat_extracted).
  - vm_compute. reflexivity.
  - vm_compute. reflexivity.
  - reflexivity.
  - vm_compute. reflexivity.
  - vm_compute. reflexivity.
  - intros c. vm_compute. discriminate.
Defined.

(** In that run the plugin root, the scratch directory, did hold a manifest
    that parses, and after the failed [install] nothing is listed. *)
Lemma install_flat_archive_loses_manifest :
  Fs.lookup (Sample.flat_tmp ++ ["manifest.json"]) (fs Sample.w_flat_extracted)
  = Some (File (Sample.manifest_data Sample.foo_manifest))
  ∧ (install Sample.mp0 "/dl/flat.zip" Sample.w_init).1 = Raise FileNotFoundError
  ∧ (list_installed Sample.mp0 (install Sample.mp0 "/dl/flat.zip" Sample.w_init).2).1
    = Ret [].
Proof. repeat split; vm_compute; reflexivity. Qed.

(** ** install and list_installed *)

(** One round of the loop of [list_installed] adds the entry of [sub], if
    it has one; nothing is raised and nothing changes. *)
Lemma list_installed_loop_spec subs plugins w :
  list_installed_loop subs plugins w
  = (Ret (plugins ++ omap (entry_of (fs w)) subs), w).
Proof.
  revert plugins; induction subs as [|sub subs IH]; intros plugins.
  { simpl. by rewrite app_nil_r. }
  cbn [list_installed_loop omap list_omap].
  assert (Hstep : ∀ k : list PluginMetadata → M (list PluginMetadata),
    bind (isd <- PathIO.is_dir sub ;;
          if isd then
            let manifest := Pathlib.joinpath sub "manifest.json" in
            e <- PathIO.exists_ manifest ;;
            if e then
              try_except
                (fh <- PathIO.open_r manifest ;;
                 meta <- Json.load fh ;;
                 n <- Json.get meta "name" (JStr (Pathlib.name sub)) ;;
                 v <- Json.get meta "version" (JStr "0.0.0") ;;
                 d <- Json.get meta "description" (JStr "") ;;
                 ret (plugins ++ [{| name := n; version := v; description := d;
                                     path := sub |}]))
                (λ _, Some (ret plugins))
            else ret plugins
          else ret plugins) k w
    = k (plugins ++ match entry_of (fs w) sub with Some m => [m] | None => [] end) w).
  { intros k. unfold entry_of.
    unfold bind at 1 2. unfold PathIO.is_dir, gets.
    destruct (Fs.is_dir sub (fs w)); [|by rewrite app_nil_r].
    rewrite joinpath_manifest. cbv zeta.
    unfold bind at 1. unfold PathIO.exists_, gets, Fs.exists_.
    unfold try_except, bind, PathIO.open_r, Json.load, Json.get, ret, raise.
    destruct (Fs.lookup (sub ++ ["manifest.json"]) (fs w)) as [[d|es]|] eqn:E;
      cbv beta iota; rewrite ?E; [|by rewrite app_nil_r..].
    destruct (json_of d) as [[]| |]; by rewrite ?app_nil_r. }
  rewrite Hstep, IH.
  destruct (entry_of (fs w) sub); by rewrite <- ?app_assoc, ?app_nil_r.
Qed.

Lemma list_installed_spec self w es :
  Fs.lookup (install_dir self) (fs w) = Some (Dir es) →
  list_installed self w
  = (Ret (omap (entry_of (fs w)) ((λ c, install_dir self ++ [c]) <$> Fs.names es)), w).
Proof.
  intros H. unfold list_installed.
  erewrite bind_run by reflexivity.
  assert (Fs.exists_ (install_dir self) (fs w) = true) as ->
    by (unfold Fs.exists_; by rewrite H).
  cbn [negb]. erewrite bind_run; [|unfold PathIO.iterdir; by rewrite H].
  apply list_installed_loop_spec.
Qed.

Lemma entry_of_path t sub m : entry_of t sub = Some m → path m = sub.
Proof.
  unfold entry_of. destruct (Fs.is_dir sub t); [|done].
  destruct (Fs.lookup _ _) as [[d|?]|]; try done.
  destruct (json_of d) as [[]| |]; try done. by intros [= <-].
Qed.

(** [list_installed] lists an installed directory once. *)
Lemma list_installed_paths self w l w' :
  list_installed self w = (Ret l, w') → NoDup (path <$> l).
Proof.
  destruct (Fs.lookup (install_dir self) (fs w)) as [[?|es]|] eqn:Hinst.
  - unfold list_installed, bind, PathIO.exists_, gets, Fs.exists_, PathIO.iterdir.
    rewrite Hinst. cbn [negb]. cbv beta. by rewrite Hinst.
  - rewrite (list_installed_spec _ _ _ Hinst). intros [= <- <-].
    assert (Hnd : NoDup ((λ c, install_dir self ++ [c]) <$> Fs.names es)).
    { apply NoDup_fmap_2; [|apply NoDup_fst_map_to_list].
      intros a b Hab. by apply app_inj_tail in Hab as [_ ->]. }
    eapply sublist_NoDup; [exact Hnd|].
    generalize ((λ c, install_dir self ++ [c]) <$> Fs.names es). intros subs.
    induction subs as [|sub subs IH]; [constructor|].
    cbn [omap list_omap]. destruct (entry_of (fs w) sub) as [m|] eqn:E.
    + cbn [fmap list_fmap]. rewrite (entry_of_path _ _ _ E). by apply sublist_skip.
    + by apply sublist_cons.
  - unfold list_installed, bind, PathIO.exists_, gets, Fs.exists_, ret.
    rewrite Hinst. cbn [negb]. intros [= <- <-]. constructor.
Qed.

Lemma install_manifest_inv p w m w' :
  install_manifest p w = (Ret m, w') →
  w' = w ∧ ∃ d fields,
    Fs.lookup (p ++ ["manifest.json"]) (fs w) = Some (File d)
    ∧ json_of d = JsonOk (JObj fields) ∧ m = metadata_of p fields.
Proof.
  rewrite install_manifest_cases.
  destruct (Fs.lookup _ _) as [[d|?]|]; try done.
  destruct (json_of d) as [[| | | | |fields]| |] eqn:E; try done.
  intros [= <- <-]. split; [done|]. by exists d, fields.
Qed.

(** The part of C2 that holds.  When the plugin root that [install] placed
    holds a manifest that parses as an object, [install] returns the
    metadata of the manifest,
    with the name of the installed directory for a missing name, ["0.0.0"]
    for a missing version and the empty string for a missing description,
    and [list_installed] then lists an entry with the same fields. *)
Lemma install_then_list_installed
    (self : Marketplace) (plugin_source : string) (w : world)
    (p : PurePath) (n : string) (w1 : world) (d : fdata)
    (fields : list (string * value)) :
  install_place self plugin_source w = (Ret p, w1) →
  p = install_dir self ++ [n] →
  Fs.lookup (p ++ ["manifest.json"]) (fs w1) = Some (File d) →
  json_of d = JsonOk (JObj fields) →
  let m := {| name := default (JStr n) (dict_lookup "name" fields);
              version := default (JStr "0.0.0") (dict_lookup "version" fields);
              description := default (JStr "") (dict_lookup "description" fields);
              path := p |} in
  install self plugin_source w = (Ret m, w1)
  ∧ ∃ l, list_installed self w1 = (Ret l, w1) ∧ m ∈ l.
Proof.
  intros Hplace -> Hman Hjson m.
  assert (Hm : m = metadata_of (install_dir self ++ [n]) fields).
  { unfold m, metadata_of. by rewrite name_snoc. }
  split.
  - unfold install. erewrite bind_run by exact Hplace.
    by rewrite install_manifest_cases, Hman, Hjson, Hm.
  - pose proof Hman as Hman'.
    rewrite <- app_assoc, lookup_app in Hman'.
    destruct (Fs.lookup (install_dir self) (fs w1)) as [[?|es]|] eqn:Hinst; try done.
    simpl in Hman'. destruct (es !! n) as [sub|] eqn:Hn; [|done]. simpl in Hman'.
    destruct sub as [?|es_p]; [done|].
    eexists. split; [by apply list_installed_spec|].
    apply list_elem_of_omap. exists (install_dir self ++ [n]). split.
    + apply list_elem_of_fmap. exists n. split; [done|].
      unfold Fs.names. apply list_elem_of_fmap. exists (n, Dir es_p).
      split; [done|]. by apply elem_of_map_to_list.
    + unfold entry_of, Fs.is_dir. rewrite lookup_app, Hinst. simpl. rewrite Hn. simpl.
      by rewrite Hman, Hjson, Hm.
Qed.

Example install_then_list_installed_example :
  install Sample.mp0 "/src/foo" Sample.w_init
  = (Ret {| name := JStr "foo"; version := JStr "2.0"; description := JStr "d";
            path := install_dir Sample.mp0 ++ ["foo"] |},
     (install_place Sample.mp0 "/src/foo" Sample.w_init).2)
  ∧ ∃ l, list_installed Sample.mp0 (install_place Sample.mp0 "/src/foo" Sample.w_init).2
         = (Ret l, (install_place Sample.mp0 "/src/foo" Sample.w_init).2)
         ∧ {| name := JStr "foo"; version := JStr "2.0"; description := JStr "d";
              path := install_dir Sample.mp0 ++ ["foo"] |} ∈ l.
Proof.
  apply (install_then_list_installed Sample.mp0 "/src/foo" Sample.w_init
           (install_dir Sample.mp0 ++ ["foo"]) "foo"
           (install_place Sample.mp0 "/src/foo" Sample.w_init).2
           (Bytes (JsonOk Sample.foo_manifest) None Sample.no_module)
           [("name", JStr "foo"); ("version", JStr "2.0"); ("description", JStr "d")]).
  - vm_compute. reflexivity.
  - reflexivity.
  - vm_compute. reflexivity.
  - reflexivity.
Qed.

(** The directory that a successful placement returns is there. *)
Lemma install_place_is_dir self plugin_source w n w1 :
  install_place self plugin_source w = (Ret (install_dir self ++ [n]), w1) →
  Fs.is_dir (install_dir self ++ [n]) (fs w1) = true.
Proof.
  intros H.
  destruct (String.eqb (Str.lower (Pathlib.suffix (Pathlib.Path plugin_source))) ".zip")
    eqn:Hzip.
  - destruct (install_place_archive_inv self plugin_source Hzip w n w1 H)
      as (d & z & wa & wb & k & Hsrc & Hz & Hmk & Hext & Hsub & Hjoin & Hnx & Hdest).
    destruct (install_place_archive_run self plugin_source Hzip w d z wa wb k n)
      as (w1' & es_k & Hrun & _ & Hplaced & _); try done.
    rewrite H in Hrun. injection Hrun as <-. apply is_dir_lookup. eauto.
  - destruct (install_place_dir_inv self plugin_source Hzip w _ w1 H)
      as (es & t1 & Hp & _ & _ & _ & _ & Hg & ->).
    rewrite Hp. apply is_dir_lookup. exists es. by eapply lookup_graft_eq.
Qed.

(** C8.  When [install] has placed a plugin whose root holds no
    [manifest.json], it fails with InvalidPlugin and leaves the world as
    the placement made it: the directory it placed is still in the install
    directory. *)
Theorem install_without_manifest
    (self : Marketplace) (plugin_source : string) (w : world)
    (p : PurePath) (n : string) (w1 : world) :
  install_place self plugin_source w = (Ret p, w1) →
  p = install_dir self ++ [n] →
  Fs.lookup (p ++ ["manifest.json"]) (fs w1) = None →
  install self plugin_source w = (Raise InvalidPlugin, w1)
  ∧ Fs.is_dir p (fs w1) = true.
Proof.
  intros Hplace -> Hman. split.
  - unfold install. erewrite bind_run by exact Hplace.
    by rewrite install_manifest_cases, Hman.
  - by eapply install_place_is_dir.
Qed.

Lemma install_without_manifest_witness :
  install Sample.mp0 "/src/bare" Sample.w_init
  = (Raise InvalidPlugin, (install_place Sample.mp0 "/src/bare" Sample.w_init).2)
  ∧ Fs.is_dir (install_dir Sample.mp0 ++ ["bare"])
      (fs (install_place Sample.mp0 "/src/bare" Sample.w_init).2) = true.
Proof.
  apply (install_without_manifest Sample.mp0 "/src/bare" Sample.w_init
           (install_dir Sample.mp0 ++ ["bare"]) "bare").
  - vm_compute. reflexivity.
  - reflexivity.
  - vm_compute. reflexivity.
Defined.



(** * Further properties *)

(** ** install: what it refuses *)

(** X1.  [install] checks the source before it touches anything: a source
    that does not exist raises SourceNotFound; a regular file whose suffix
    is not [.zip] raises InvalidSource; a directory whose name ends in
    [.zip] is taken for an archive and raises IsADirectoryError instead of
    being installed; a file named [.zip] that is no archive raises
    BadZipFile.  In all four cases the world is left as it was. *)
Theorem install_rejects_source (self : Marketplace) (plugin_source : string) (w : world) :
  let src := Pathlib.Path plugin_source in
  (Fs.lookup src (fs w) = None →
   install self plugin_source w = (Raise SourceNotFound, w))
  ∧ (∀ d, Fs.lookup src (fs w) = Some (File d) → not_archive plugin_source →
     install self plugin_source w = (Raise InvalidSource, w))
  ∧ (∀ es, Fs.lookup src (fs w) = Some (Dir es) → is_archive plugin_source →
     install self plugin_source w = (Raise IsADirectoryError, w))
  ∧ (∀ d, Fs.lookup src (fs w) = Some (File d) → is_archive plugin_source →
     zip_of d = None →
     install self plugin_source w = (Raise BadZipFile, w)).
Proof.
  intros src. unfold install, install_place. fold src.
  repeat split.
  - intros H. apply bind_raise. erewrite bind_run by reflexivity.
    unfold Fs.exists_. by rewrite H.
  - intros d H Hna. apply bind_raise. erewrite bind_run by reflexivity.
    unfold Fs.exists_ at 1. rewrite H. cbn [negb].
    red in Hna. fold src in Hna. rewrite Hna.
    erewrite bind_run by reflexivity. unfold Fs.is_dir. by rewrite H.
  - intros es H Ha. apply bind_raise. erewrite bind_run by reflexivity.
    unfold Fs.exists_ at 1. rewrite H. cbn [negb].
    red in Ha. fold src in Ha. rewrite Ha.
    apply bind_raise. unfold Zipfile.ZipFile. apply bind_raise.
    unfold PathIO.open_r. by rewrite H.
  - intros d H Ha Hz. apply bind_raise. erewrite bind_run by reflexivity.
    unfold Fs.exists_ at 1. rewrite H. cbn [negb].
    red in Ha. fold src in Ha. rewrite Ha.
    apply bind_raise. unfold Zipfile.ZipFile.
    erewrite bind_run; [|unfold PathIO.open_r; by rewrite H]. by rewrite Hz.
Qed.

Lemma install_rejects_source_witness :
  install Sample.mp "/dl/none" More.w_odd_sources
  = (Raise SourceNotFound, More.w_odd_sources)
  ∧ install Sample.mp "/dl/readme.txt" More.w_odd_sources
    = (Raise InvalidSource, More.w_odd_sources)
  ∧ install Sample.mp "/dl/pack.zip" More.w_odd_sources
    = (Raise IsADirectoryError, More.w_odd_sources)
  ∧ install Sample.mp "/dl/broken.zip" More.w_odd_sources
    = (Raise BadZipFile, More.w_odd_sources).
Proof.
  split; [|split; [|split]].
  - apply (install_rejects_source Sample.mp "/dl/none" More.w_odd_sources).
    vm_compute. reflexivity.
  - eapply (install_rejects_source Sample.mp "/dl/readme.txt" More.w_odd_sources).
    + vm_compute. reflexivity.
    + vm_compute. reflexivity.
  - eapply (install_rejects_source Sample.mp "/dl/pack.zip" More.w_odd_sources).
    + vm_compute. reflexivity.
    + vm_compute. reflexivity.
  - eapply (install_rejects_source Sample.mp "/dl/broken.zip" More.w_odd_sources).
    + vm_compute. reflexivity.
    + vm_compute. reflexivity.
    + reflexivity.
Defined.

(** X2.  Installing a plugin from the place where it is installed destroys
    it: the destination is the source, it is removed as the existing
    installation, and the copy then finds no source.  [install] raises
    FileNotFoundError and the plugin is gone. *)
Theorem install_from_installed_location
    (self : Marketplace) (plugin_source : string) (w : world)
    (n : string) (es : gmap string node) :
  not_archive plugin_source →
  Pathlib.Path plugin_source = install_dir self ++ [n] →
  Fs.lookup (install_dir self ++ [n]) (fs w) = Some (Dir es) →
  install self plugin_source w
  = (Raise FileNotFoundError, set_fs (Fs.remove (install_dir self ++ [n]) (fs w)) w)
  ∧ ∀ q, Fs.lookup (install_dir self ++ [n] ++ q)
           (Fs.remove (install_dir self ++ [n]) (fs w)) = None.
Proof.
  intros Hna Hsrc Hl.
  set (dest := install_dir self ++ [n]) in *.
  assert (Hne : dest ≠ []) by (unfold dest; by destruct (install_dir self)).
  assert (Hn : valid_name n).
  { pose proof (Path_components plugin_source) as Hc. rewrite Hsrc in Hc.
    apply Forall_app in Hc as [_ Hc]. by inversion Hc. }
  assert (Hdest : Pathlib.joinpath (install_dir self)
                    (Pathlib.name (Pathlib.Path plugin_source)) = dest).
  { rewrite Hsrc. unfold dest. by rewrite name_snoc, (joinpath_valid _ _ Hn). }
  split; [|intros q; rewrite app_assoc; by apply lookup_remove_under].
  unfold install. apply bind_raise. unfold install_place.
  red in Hna. rewrite Hdest. rewrite Hsrc in Hna |- *. fold dest in Hna |- *.
  erewrite bind_run by reflexivity.
  assert (Hd : Fs.is_dir dest (fs w) = true) by (apply is_dir_lookup; eauto).
  rewrite (is_dir_exists _ _ Hd). cbn [negb]. rewrite Hna.
  erewrite bind_run by reflexivity. rewrite Hd.
  erewrite bind_run by reflexivity. rewrite (is_dir_exists _ _ Hd).
  erewrite bind_run by (by apply rmtree_dir).
  apply bind_raise. unfold Shutil.copytree. cbn [fs set_fs].
  by rewrite (lookup_self_removed _ _ Hne).
Qed.

Lemma install_from_installed_location_witness :
  install Sample.mp "/home/u/.mcp/plugins_installed/foo" Sample.w_inst
  = (Raise FileNotFoundError,
     set_fs (Fs.remove (install_dir Sample.mp ++ ["foo"]) (fs Sample.w_inst)) Sample.w_inst)
  ∧ ∀ q, Fs.lookup (install_dir Sample.mp ++ ["foo"] ++ q)
           (Fs.remove (install_dir Sample.mp ++ ["foo"]) (fs Sample.w_inst)) = None.
Proof.
  apply (install_from_installed_location Sample.mp "/home/u/.mcp/plugins_installed/foo"
           Sample.w_inst "foo"
           (list_to_map [("manifest.json", Sample.json_file Sample.foo_manifest);
                         ("plugin.py", File (Sample.plugin_py (JBool true)))])).
  - reflexivity.
  - vm_compute. reflexivity.
  - vm_compute. reflexivity.
Defined.

(** ** list_installed: what it lists *)

(** The entry that [list_installed] makes of a directory comes from a
    manifest in it that parses to an object. *)
Lemma entry_of_inv t sub m :
  entry_of t sub = Some m ↔
  ∃ d fields, Fs.lookup (sub ++ ["manifest.json"]) t = Some (File d)
              ∧ json_of d = JsonOk (JObj fields) ∧ m = metadata_of sub fields.
Proof.
  unfold entry_of, Fs.is_dir. rewrite lookup_app. split.
  - destruct (Fs.lookup sub t) as [[?|es]|]; try done. cbn [mbind option_bind].
    destruct (Fs.lookup ["manifest.json"] (Dir es)) as [[d|?]|]; try done.
    destruct (json_of d) as [[| | | | |fields]| |] eqn:E; try done.
    intros [= <-]. by exists d, fields.
  - intros (d & fields & Hl & Hj & ->).
    destruct (Fs.lookup sub t) as [[?|es]|]; try done. cbn [mbind option_bind] in *.
    by rewrite Hl, Hj.
Qed.

(** The entries of the list are those of the directories in the install
    directory. *)
Lemma list_installed_elem inst t es m :
  Fs.lookup inst t = Some (Dir es) →
  m ∈ omap (entry_of t) ((λ c, inst ++ [c]) <$> Fs.names es)
  ↔ ∃ n, entry_of t (inst ++ [n]) = Some m.
Proof.
  intros Hinst. rewrite list_elem_of_omap. split.
  - intros (sub & [c [-> _]]%list_elem_of_fmap & Hm). eauto.
  - intros [n Hm]. exists (inst ++ [n]). split; [|done].
    apply list_elem_of_fmap. exists n. split; [done|].
    apply entry_of_inv in Hm as (d & fields & Hl & _).
    rewrite <- app_assoc, lookup_app, Hinst in Hl. simpl in Hl.
    destruct (es !! n) as [sub|] eqn:Hn; [|done].
    unfold Fs.names. apply list_elem_of_fmap. exists (n, sub).
    split; [done|]. by apply elem_of_map_to_list.
Qed.

(** X3.  [list_installed] raises only when the install directory is a
    regular file.  Otherwise it returns without changing anything, lists
    no installed directory twice, and lists exactly the entries of the
    install directory that hold a [manifest.json] which parses to a JSON
    object, with the defaults for the missing fields; every other entry
    (a regular file, a directory without manifest, with a manifest that
    is a directory, is not JSON, not UTF-8 or not an object) is passed
    over in silence. *)
Theorem list_installed_entries (self : Marketplace) (w : world) :
  match Fs.lookup (install_dir self) (fs w) with
  | Some (File _) => list_installed self w = (Raise NotADirectoryError, w)
  | _ =>
      ∃ l, list_installed self w = (Ret l, w)
           ∧ NoDup (path <$> l)
           ∧ ∀ m, m ∈ l ↔
                  ∃ n d fields,
                    Fs.lookup (install_dir self ++ [n; "manifest.json"]) (fs w)
                    = Some (File d)
                    ∧ json_of d = JsonOk (JObj fields)
                    ∧ m = metadata_of (install_dir self ++ [n]) fields
  end.
Proof.
  destruct (Fs.lookup (install_dir self) (fs w)) as [[d|es]|] eqn:Hinst.
  - unfold list_installed. erewrite bind_run by reflexivity.
    unfold Fs.exists_. rewrite Hinst. cbn [negb].
    apply bind_raise. unfold PathIO.iterdir. by rewrite Hinst.
  - eexists. split; [by apply list_installed_spec|].
    split; [eapply list_installed_paths; by apply list_installed_spec|].
    intros m. rewrite (list_installed_elem _ _ _ _ Hinst). split.
    + intros [n (d & fields & Hl & Hj & ->)%entry_of_inv].
      exists n, d, fields. by rewrite <- app_assoc in Hl.
    + intros (n & d & fields & Hl & Hj & ->). exists n. apply entry_of_inv.
      exists d, fields. by rewrite <- app_assoc.
  - exists []. split; [|split; [constructor|]].
    + unfold list_installed. erewrite bind_run by reflexivity.
      unfold Fs.exists_. by rewrite Hinst.
    + intros m. split; [by intros ?%elem_of_nil|].
      intros (n & d & fields & Hl & _). by rewrite lookup_app, Hinst in Hl.
Qed.

(** X4.  [install] is not atomic.  When the plugin has been placed and
    reading its manifest then fails, for whatever reason (no manifest, a
    manifest that is a directory, is not JSON, not UTF-8, or not an
    object), the world stays as the placement left it: the new directory
    is in the install directory, whatever was installed under that name
    before has been replaced, and [list_installed] lists no plugin at
    that path. *)
Theorem install_failure_leaves_unlisted_directory
    (self : Marketplace) (plugin_source : string) (w : world)
    (p : PurePath) (n : string) (w' : world) (e : exn) (w1 : world) :
  install_place self plugin_source w = (Ret p, w') →
  p = install_dir self ++ [n] →
  install self plugin_source w = (Raise e, w1) →
  w1 = w'
  ∧ Fs.is_dir p (fs w1) = true
  ∧ ∃ l, list_installed self w1 = (Ret l, w1) ∧ ∀ m, m ∈ l → path m ≠ p.
Proof.
  intros Hplace -> H. unfold install in H. erewrite bind_run in H by exact Hplace.
  pose proof (install_manifest_frame _ _ _ _ H) as ->.
  pose proof (install_place_is_dir _ _ _ _ _ Hplace) as Hd.
  split; [done|]. split; [done|].
  assert (Hnone : entry_of (fs w') (install_dir self ++ [n]) = None).
  { destruct (entry_of _ _) as [m|] eqn:E; [|done].
    apply entry_of_inv in E as (d & fields & Hl & Hj & _).
    by rewrite install_manifest_cases, Hl, Hj in H. }
  apply is_dir_lookup in Hd as [es_p Hp]. pose proof Hp as Hp'.
  rewrite lookup_app in Hp'.
  destruct (Fs.lookup (install_dir self) (fs w')) as [[?|es]|] eqn:Hinst; try done.
  eexists. split; [by apply list_installed_spec|].
  intros m [n' Hm]%(list_installed_elem _ _ _ _ Hinst) Hpath.
  rewrite (entry_of_path _ _ _ Hm) in Hpath.
  apply app_inv_head in Hpath. injection Hpath as ->. by rewrite Hnone in Hm.
Qed.

Lemma install_failure_leaves_unlisted_directory_witness :
  let w' := (install_place Sample.mp "/src/odd" More.w_array_manifest).2 in
  (install Sample.mp "/src/odd" More.w_array_manifest).2 = w'
  ∧ Fs.is_dir (install_dir Sample.mp ++ ["odd"]) (fs w') = true
  ∧ ∃ l, list_installed Sample.mp w' = (Ret l, w')
         ∧ ∀ m, m ∈ l → path m ≠ install_dir Sample.mp ++ ["odd"].
Proof.
  intros w'.
  destruct (install_failure_leaves_unlisted_directory Sample.mp "/src/odd"
              More.w_array_manifest (install_dir Sample.mp ++ ["odd"]) "odd" w'
              AttributeError (install Sample.mp "/src/odd" More.w_array_manifest).2)
    as (H1 & H2 & H3).
  - vm_compute. reflexivity.
  - reflexivity.
  - vm_compute. reflexivity.
  - rewrite <- H1 at 1. rewrite H1 in H2, H3. done.
Defined.

(** ** install and uninstall together *)

Lemma remove_cons_ne c q es :
  q ≠ [] →
  Fs.remove (c :: q) (Dir es) =
  match es !! c with
  | Some sub => Dir (<[c := Fs.remove q sub]> es)
  | None => Dir es
  end.
Proof. destruct q; [done|]. intros _. apply remove_cons2. Qed.

(** Removing what was placed in a directory where the name was free gives
    the tree back. *)
Lemma remove_graft p c x t t' :
  Fs.is_dir p t = true → Fs.lookup (p ++ [c]) t = None →
  Fs.graft (p ++ [c]) x t = Some t' → Fs.remove (p ++ [c]) t' = t.
Proof.
  revert t t'. induction p as [|a p IH]; intros t t' Hd Hl Hg.
  - destruct t as [?|es]; [done|]. cbn in Hl, Hg |- *.
    destruct (es !! c) eqn:Hc; [done|]. simplify_eq.
    by rewrite delete_insert_id.
  - destruct t as [?|es]; [done|]. rewrite is_dir_cons in Hd.
    change ((a :: p) ++ [c]) with (a :: (p ++ [c])) in *.
    rewrite graft_cons in Hg. cbn [Fs.lookup] in Hl.
    destruct (es !! a) as [sub|] eqn:Ha; [|done]. cbn in Hl, Hg.
    destruct (Fs.graft (p ++ [c]) x sub) as [sub'|] eqn:Hg'; [|done].
    cbn in Hg. simplify_eq.
    rewrite remove_cons_ne by (by destruct p). rewrite lookup_insert_eq.
    rewrite (IH _ _ Hd Hl Hg'). by rewrite insert_insert_eq, insert_id.
Qed.

(** The destination of a directory source is an entry of the install
    directory, unless the source is the root of the file system. *)
Lemma dest_of_directory (self : Marketplace) (plugin_source : string) :
  let dest := Pathlib.joinpath (install_dir self)
                (Pathlib.name (Pathlib.Path plugin_source)) in
  (Pathlib.Path plugin_source = [] ∧ dest = install_dir self)
  ∨ (valid_name (Pathlib.name (Pathlib.Path plugin_source))
     ∧ dest = install_dir self ++ [Pathlib.name (Pathlib.Path plugin_source)]).
Proof.
  intros dest. unfold dest. destruct (name_Path plugin_source) as [Hnil|Hn].
  - left. split; [done|]. rewrite Hnil. apply joinpath_empty.
  - right. split; [done|]. by apply joinpath_valid.
Qed.

(** X5.  Installing a directory where the install directory exists and
    the name is free, and uninstalling the plugin by the name of the
    directory that was installed, gives back the world as it was before
    the install. *)
Theorem install_then_uninstall
    (self : Marketplace) (plugin_source : string) (w : world)
    (m : PluginMetadata) (w1 : world) :
  not_archive plugin_source →
  Fs.is_dir (install_dir self) (fs w) = true →
  Fs.lookup (Pathlib.joinpath (install_dir self)
               (Pathlib.name (Pathlib.Path plugin_source))) (fs w) = None →
  install self plugin_source w = (Ret m, w1) →
  uninstall self (Pathlib.name (path m)) w1 = (Ret true, w).
Proof.
  intros Hna Hinst Hfree H. unfold install in H.
  apply bind_ret_inv in H as (p & w' & Hplace & Hman).
  apply install_manifest_inv in Hman as (-> & d & fields & _ & _ & ->).
  cbn [path metadata_of].
  destruct (install_place_dir_inv self plugin_source Hna w p w' Hplace)
    as (es & t1 & -> & Hne & _ & _ & _ & Hg & ->).
  rewrite (remove_absent _ _ Hfree) in Hg.
  destruct (dest_of_directory self plugin_source) as [[_ Hd]|[Hn Hd]].
  { rewrite Hd in Hfree. apply is_dir_lookup in Hinst as [? Hinst]. congruence. }
  rewrite Hd in *. rewrite name_snoc.
  set (n := Pathlib.name (Pathlib.Path plugin_source)) in *.
  pose proof (uninstall_removes self n (set_fs t1 w)) as Hun.
  cbv zeta in Hun. rewrite (joinpath_valid _ _ Hn) in Hun.
  rewrite Hun; [|by destruct (install_dir self)|].
  - cbn [fs set_fs]. rewrite (remove_graft _ _ _ _ _ Hinst Hfree Hg). by destruct w.
  - apply is_dir_lookup. exists es. cbn [fs set_fs]. by eapply lookup_graft_eq.
Qed.

Lemma install_then_uninstall_witness :
  uninstall Sample.mp0 "foo" (install Sample.mp0 "/src/foo" Sample.w_init).2
  = (Ret true, Sample.w_init).
Proof.
  apply (install_then_uninstall Sample.mp0 "/src/foo" Sample.w_init
           {| name := JStr "foo"; version := JStr "2.0"; description := JStr "d";
              path := install_dir Sample.mp0 ++ ["foo"] |}
           (install Sample.mp0 "/src/foo" Sample.w_init).2).
  - reflexivity.
  - vm_compute. reflexivity.
  - vm_compute. reflexivity.
  - vm_compute. reflexivity.
Defined.

(** ** uninstall: what it leaves behind *)

Lemma uninstall_absent (self : Marketplace) (plugin_name : string) (w : world) :
  Fs.is_dir (Pathlib.joinpath (install_dir self) plugin_name) (fs w) = false →
  uninstall self plugin_name w = (Ret false, w).
Proof.
  intros Hd. unfold uninstall, bind, PathIO.exists_, PathIO.is_dir, gets.
  by rewrite Hd, andb_false_r.
Qed.

(** What [uninstall] does with the name of an entry of the install
    directory. *)
Lemma uninstall_entry (self : Marketplace) (n : string) (w : world) :
  valid_name n →
  uninstall self n w
  = if Fs.is_dir (install_dir self ++ [n]) (fs w)
    then (Ret true, set_fs (Fs.remove (install_dir self ++ [n]) (fs w)) w)
    else (Ret false, w).
Proof.
  intros Hn. destruct (Fs.is_dir _ _) eqn:Hd.
  - pose proof (uninstall_removes self n w) as H. cbv zeta in H.
    rewrite (joinpath_valid _ _ Hn) in H. apply H; [|done].
    by destruct (install_dir self).
  - apply uninstall_absent. by rewrite (joinpath_valid _ _ Hn).
Qed.

(** Removing an entry of a directory changes no manifest of another
    entry, and leaves none below the entry itself. *)
Lemma entry_of_remove_sibling inst n n' t :
  entry_of (Fs.remove (inst ++ [n]) t) (inst ++ [n'])
  = if decide (n' = n) then None else entry_of t (inst ++ [n']).
Proof.
  assert (Hne : inst ++ [n] ≠ []) by (by destruct inst).
  destruct (decide (n' = n)) as [->|Hnn].
  - unfold entry_of, Fs.is_dir. by rewrite (lookup_self_removed _ _ Hne).
  - unfold entry_of, Fs.is_dir.
    assert (Hd : diverge (inst ++ [n]) (inst ++ [n'])) by by apply diverge_siblings.
    rewrite (lookup_remove_frame _ _ _ Hd).
    rewrite !(lookup_app (inst ++ [n'])), (lookup_remove_frame _ _ _ Hd). done.
Qed.

(** X6.  A successful [uninstall] takes one plugin from the list of
    installed plugins and no other: [list_installed] afterwards lists
    exactly the plugins it listed before that are not at the removed
    path. *)
Theorem uninstall_keeps_other_plugins
    (self : Marketplace) (n : string) (w w1 : world) :
  valid_name n →
  uninstall self n w = (Ret true, w1) →
  ∃ l l1,
    list_installed self w = (Ret l, w)
    ∧ list_installed self w1 = (Ret l1, w1)
    ∧ ∀ m, m ∈ l1 ↔ m ∈ l ∧ path m ≠ install_dir self ++ [n].
Proof.
  intros Hn H. rewrite (uninstall_entry _ _ _ Hn) in H.
  destruct (Fs.is_dir (install_dir self ++ [n]) (fs w)) eqn:Hd; [|done].
  injection H as <-.
  assert (Hi : Fs.is_dir (install_dir self) (fs w) = true).
  { apply is_dir_lookup in Hd as [es Hd]. rewrite lookup_app in Hd.
    unfold Fs.is_dir. by destruct (Fs.lookup (install_dir self) (fs w)) as [[?|?]|]. }
  assert (Hi1 : Fs.is_dir (install_dir self)
                  (Fs.remove (install_dir self ++ [n]) (fs w)) = true).
  { rewrite is_dir_remove; [done|]. intros [q Hq].
    apply (f_equal length) in Hq. rewrite !length_app in Hq. simpl in Hq. lia. }
  apply is_dir_lookup in Hi as [es Hes]. apply is_dir_lookup in Hi1 as [es1 Hes1].
  eexists _, _. split; [by apply list_installed_spec|].
  split; [by apply list_installed_spec|].
  intros m. cbn [fs set_fs].
  rewrite (list_installed_elem _ _ _ _ Hes), (list_installed_elem _ _ _ _ Hes1).
  split.
  - intros [n' Hm]. rewrite entry_of_remove_sibling in Hm.
    destruct (decide (n' = n)) as [->|Hnn]; [done|]. split; [eauto|].
    rewrite (entry_of_path _ _ _ Hm). intros Hp. apply app_inv_head in Hp. congruence.
  - intros [[n' Hm] Hp]. exists n'. rewrite entry_of_remove_sibling.
    destruct (decide (n' = n)) as [->|Hnn]; [|done].
    by rewrite (entry_of_path _ _ _ Hm) in Hp.
Qed.

Lemma uninstall_keeps_other_plugins_witness :
  ∃ l l1,
    list_installed Sample.mp Sample.w_inst = (Ret l, Sample.w_inst)
    ∧ list_installed Sample.mp (uninstall Sample.mp "bare" Sample.w_inst).2
      = (Ret l1, (uninstall Sample.mp "bare" Sample.w_inst).2)
    ∧ ∀ m, m ∈ l1 ↔ m ∈ l ∧ path m ≠ install_dir Sample.mp ++ ["bare"].
Proof.
  apply (uninstall_keeps_other_plugins Sample.mp "bare" Sample.w_inst
           (uninstall Sample.mp "bare" Sample.w_inst).2).
  - split; [discriminate|split; [discriminate|reflexivity]].
  - vm_compute. reflexivity.
Defined.

(** X7.  The [uninstall] command, given the name of an entry of the
    install directory (one path component, not [".."]), echoes one line:
    [Uninstalled] exactly when that entry was a directory, and otherwise
    the line that the plugin was not found, leaving the world unchanged.
    Run again, it answers that the plugin was not found and changes
    nothing.  The command has no handler: it returns because, in the
    file system of the model, removing the tree of a directory does not
    fail. *)
Theorem cli_uninstall_reports (obj : Marketplace) (n : string) (w : world) :
  entry_name n →
  ∃ w1,
    Cli.uninstall obj n w
    = (Ret [if Fs.is_dir (install_dir obj ++ [n]) (fs w)
            then "Uninstalled " +:+ n
            else "Plugin '" +:+ n +:+ "' not found"], w1)
    ∧ (Fs.is_dir (install_dir obj ++ [n]) (fs w) = false → w1 = w)
    ∧ Cli.uninstall obj n w1 = (Ret ["Plugin '" +:+ n +:+ "' not found"], w1).
Proof.
  intros [Hn _]. unfold Cli.uninstall.
  assert (Hne : install_dir obj ++ [n] ≠ []) by (by destruct (install_dir obj)).
  destruct (Fs.is_dir (install_dir obj ++ [n]) (fs w)) eqn:Hd.
  - exists (set_fs (Fs.remove (install_dir obj ++ [n]) (fs w)) w).
    split; [|split; [done|]].
    + erewrite bind_run; [|by rewrite (uninstall_entry _ _ _ Hn), Hd]. done.
    + erewrite bind_run; cycle 1.
      { rewrite (uninstall_entry _ _ _ Hn). cbn [fs set_fs]. unfold Fs.is_dir.
        by rewrite (lookup_self_removed _ _ Hne). }
      done.
  - exists w. split; [|split; [done|]].
    + erewrite bind_run; [|by rewrite (uninstall_entry _ _ _ Hn), Hd]. done.
    + erewrite bind_run; [|by rewrite (uninstall_entry _ _ _ Hn), Hd]. done.
Qed.

Lemma cli_uninstall_reports_witness :
  ∃ w1,
    Cli.uninstall Sample.mp "foo" Sample.w_inst
    = (Ret [if Fs.is_dir (install_dir Sample.mp ++ ["foo"]) (fs Sample.w_inst)
            then "Uninstalled foo"
            else "Plugin 'foo' not found"], w1)
    ∧ (Fs.is_dir (install_dir Sample.mp ++ ["foo"]) (fs Sample.w_inst) = false
       → w1 = Sample.w_inst)
    ∧ Cli.uninstall Sample.mp "foo" w1 = (Ret ["Plugin 'foo' not found"], w1).
Proof.
  apply (cli_uninstall_reports Sample.mp "foo" Sample.w_inst).
  split; [split; [discriminate|split; [discriminate|reflexivity]]|discriminate].
Defined.



(** ** install: where it writes *)

Lemma bind_inv {A B} (m : M A) (k : A → M B) w r w' :
  bind m k w = (r, w') →
  (∃ e, m w = (Raise e, w') ∧ r = Raise e)
  ∨ (∃ a w0, m w = (Ret a, w0) ∧ k a w0 = (r, w')).
Proof.
  unfold bind. destruct (m w) as [[a|e] w0]; [eauto|].
  intros [= <- <-]. eauto.
Qed.

Section Confinement.

Variable inst : PurePath.

Lemma diverge_below p q : inst `prefix_of` p → diverge inst q → diverge p q.
Proof.
  intros Hp [H1 H2]. split.
  - intros Hpq. apply H1. by etrans.
  - intros Hqp. destruct (prefix_weak_total _ _ _ Hp Hqp); tauto.
Qed.

Lemma outside_refl w : outside_untouched inst w w.
Proof. by split. Qed.

Lemma outside_trans w1 w2 w3 :
  outside_untouched inst w1 w2 → outside_untouched inst w2 w3 →
  outside_untouched inst w1 w3.
Proof.
  intros [Hs1 Hl1] [Hs2 Hl2]. split; [congruence|].
  intros q Hq. by rewrite Hl2, Hl1.
Qed.

Lemma outside_set_fs t w :
  (∀ q, diverge inst q → Fs.lookup q t = Fs.lookup q (fs w)) →
  outside_untouched inst w (set_fs t w).
Proof. intros H. split; [done|]. intros q Hq. by apply H. Qed.

Lemma outside_graft p x w t :
  inst `prefix_of` p → Fs.graft p x (fs w) = Some t →
  outside_untouched inst w (set_fs t w).
Proof.
  intros Hp Hg. apply outside_set_fs. intros q Hq.
  eapply lookup_graft_frame; [exact Hg|]. by apply diverge_below.
Qed.

Lemma outside_remove p w :
  inst `prefix_of` p → outside_untouched inst w (set_fs (Fs.remove p (fs w)) w).
Proof.
  intros Hp. apply outside_set_fs. intros q Hq.
  apply lookup_remove_frame. by apply diverge_below.
Qed.

Lemma confined_ret {A} (a : A) : confined inst (ret a).
Proof. intros w r w' [= <- <-]. apply outside_refl. Qed.

Lemma confined_raise {A} e : confined inst (@raise A e).
Proof. intros w r w' [= <- <-]. apply outside_refl. Qed.

Lemma confined_gets {A} (f : world → A) : confined inst (gets f).
Proof. intros w r w' [= <- <-]. apply outside_refl. Qed.

Lemma confined_bind {A B} (m : M A) (k : A → M B) :
  confined inst m → (∀ a, confined inst (k a)) → confined inst (bind m k).
Proof.
  intros Hm Hk w r w' [(e & H & ->)|(a & w0 & H & H')]%bind_inv.
  - by eapply Hm.
  - eapply outside_trans; [by eapply Hm | by eapply Hk].
Qed.

Lemma confined_rmtree p : inst `prefix_of` p → confined inst (Shutil.rmtree p).
Proof.
  intros Hp w r w' H. unfold Shutil.rmtree in H.
  destruct (Fs.lookup p (fs w)) as [[?|?]|]; try (injection H as <- <-; apply outside_refl).
  destruct p as [|c p].
  - injection H as <- <-. split; [done|]. intros q [Hq _]. destruct Hq.
    apply prefix_nil_inv in Hp as ->. apply prefix_nil.
  - injection H as <- <-. exact (outside_remove (c :: p) w Hp).
Qed.

Lemma confined_rmtree_ignore_errors p :
  inst `prefix_of` p → confined inst (Shutil.rmtree_ignore_errors p).
Proof.
  intros Hp w r w' H. unfold Shutil.rmtree_ignore_errors in H.
  destruct (Shutil.rmtree p w) as [r0 w0] eqn:E. injection H as <- <-.
  by eapply confined_rmtree.
Qed.

(** The calls that make one directory or one file. *)
Let grafts_leaf (p : PurePath) (w w' : world) : Prop :=
  w' = w ∨ ∃ x t, (x = Dir ∅ ∨ ∃ d, x = File d)
                  ∧ Fs.graft p x (fs w) = Some t ∧ w' = set_fs t w.

Lemma makedirs_effect p w r w' : Os.makedirs p w = (r, w') → grafts_leaf p w w'.
Proof.
  unfold Os.makedirs, grafts_leaf. intros H.
  repeat case_match; simplify_eq; eauto 10.
Qed.

Lemma mkdir_effect p w r w' : Os.mkdir p w = (r, w') → grafts_leaf p w w'.
Proof.
  unfold Os.mkdir, grafts_leaf. intros H.
  repeat case_match; simplify_eq; eauto 10.
Qed.

Lemma write_effect p d w r w' : Os.write p d w = (r, w') → grafts_leaf p w w'.
Proof.
  unfold Os.write, grafts_leaf. intros H.
  repeat case_match; simplify_eq; eauto 10.
Qed.

Lemma mkdir_parents_effect p w r w' :
  PathIO.mkdir_parents p w = (r, w') → grafts_leaf p w w'.
Proof.
  unfold PathIO.mkdir_parents, grafts_leaf. intros H.
  repeat case_match; simplify_eq; eauto 10.
Qed.

Lemma grafts_leaf_outside p w w' :
  inst `prefix_of` p → grafts_leaf p w w' → outside_untouched inst w w'.
Proof.
  intros Hp [->|(x & t & _ & Hg & ->)]; [apply outside_refl|].
  by eapply outside_graft.
Qed.

Lemma confined_write p d : inst `prefix_of` p → confined inst (Os.write p d).
Proof. intros Hp w r w' H. eapply grafts_leaf_outside; [done|]. by eapply write_effect. Qed.

Lemma confined_copytree src dst : inst `prefix_of` dst → confined inst (Shutil.copytree src dst).
Proof.
  intros Hp w r w' H. unfold Shutil.copytree in H.
  repeat case_match; simplify_eq; try apply outside_refl.
  by eapply outside_graft.
Qed.

Lemma confined_copy2 src dst : inst `prefix_of` dst → confined inst (Shutil.copy2 src dst).
Proof.
  intros Hp w r w' H. unfold Shutil.copy2 in H.
  destruct (Fs.lookup src (fs w)) as [[d|?]|];
    try (injection H as <- <-; apply outside_refl).
  destruct (Fs.is_dir dst (fs w)).
  - eapply confined_write; [|exact H]. by apply prefix_app_r.
  - by eapply confined_write.
Qed.

Lemma outside_rename src dst w t :
  inst `prefix_of` src → inst `prefix_of` dst →
  Os.rename src dst (fs w) = Some t → outside_untouched inst w (set_fs t w).
Proof.
  intros Hs Hd H. apply outside_set_fs. intros q Hq. unfold Os.rename in H.
  assert (Hg : ∀ n, Fs.graft dst n (Fs.remove src (fs w)) = Some t →
                    Fs.lookup q t = Fs.lookup q (fs w)).
  { intros n Hg. rewrite (lookup_graft_frame _ _ _ _ _ Hg) by by apply diverge_below.
    apply lookup_remove_frame. by apply diverge_below. }
  repeat case_match; simplify_eq; eauto.
Qed.

Lemma confined_move src dst :
  inst `prefix_of` src → inst `prefix_of` dst → confined inst (Shutil.move src dst).
Proof.
  intros Hs Hd w r w' H. unfold Shutil.move in H. cbv zeta in H.
  set (real_dst := if Fs.is_dir dst (fs w) then dst ++ [Pathlib.name src] else dst) in H.
  assert (Hr : inst `prefix_of` real_dst).
  { unfold real_dst. destruct (Fs.is_dir dst (fs w)); [by apply prefix_app_r|done]. }
  destruct (Fs.is_dir dst (fs w) && bool_decide (src = dst));
    [injection H as <- <-; apply outside_refl|].
  destruct (Fs.is_dir dst (fs w) && Fs.exists_ real_dst (fs w));
    [injection H as <- <-; apply outside_refl|].
  destruct (Os.rename src real_dst (fs w)) as [t|] eqn:Hren.
  { injection H as <- <-. exact (outside_rename _ _ _ _ Hs Hr Hren). }
  destruct (Fs.lookup src (fs w)) as [[d|es]|].
  - revert H. apply confined_bind; [by apply confined_copy2|]. intros _.
    intros w0 r0 w0' [= <- <-]. by apply outside_remove.
  - destruct (bool_decide (src `prefix_of` dst));
      [injection H as <- <-; apply outside_refl|].
    revert H. apply confined_bind; [by apply confined_copytree|].
    intros _. by apply confined_rmtree.
  - revert H. apply confined_bind; [by apply confined_copy2|]. intros _.
    intros w0 r0 w0' [= <- <-]. by apply outside_remove.
Qed.

(** The end of both branches of [install]: the old installation is
    removed and the new one put in its place. *)
Lemma confined_replace {A} (dest : PurePath) (put : M A) :
  inst `prefix_of` dest → confined inst put →
  confined inst (e <- PathIO.exists_ dest ;;
                 (if e then Shutil.rmtree dest else ret tt) ;;; put).
Proof.
  intros Hd Hput. apply confined_bind; [apply confined_gets|]. intros e.
  apply confined_bind; [|done].
  destruct e; [by apply confined_rmtree|apply confined_ret].
Qed.

(** *** Names *)

Lemma well_named_empty : well_named (Dir ∅).
Proof. intros [|c p] x H; [constructor|]. by rewrite lookup_empty_dir in H. Qed.

Lemma well_named_file d : well_named (File d).
Proof. intros [|c p] x H; [constructor|done]. Qed.

Lemma well_named_graft p x t t' :
  well_named t → well_named x → Forall valid_name p →
  Fs.graft p x t = Some t' → well_named t'.
Proof.
  revert t t'. induction p as [|c p IH]; intros t t' Ht Hx Hp Hg.
  - cbn in Hg. by simplify_eq.
  - destruct t as [?|es]; [done|]. rewrite graft_cons in Hg.
    destruct (Fs.graft p x (default (Dir ∅) (es !! c))) as [sub'|] eqn:Hg'; [|done].
    cbn in Hg. simplify_eq. inversion_clear Hp as [|?? Hc Hp'].
    assert (Hsub : well_named (default (Dir ∅) (es !! c))).
    { destruct (es !! c) as [sub|] eqn:Hes; [|apply well_named_empty].
      intros q y Hq. assert (Hcq : Forall valid_name (c :: q)).
      { apply (Ht _ y). cbn. by rewrite Hes. }
      by inversion Hcq. }
    pose proof (IH _ _ Hsub Hx Hp' Hg') as Hsub'.
    intros [|c' q] y Hq; [constructor|]. cbn in Hq.
    destruct (decide (c' = c)) as [->|Hne].
    + rewrite lookup_insert_eq in Hq. cbn in Hq. constructor; [done|]. by eapply Hsub'.
    + rewrite lookup_insert_ne in Hq by done. by apply (Ht _ y).
Qed.

Lemma grafts_leaf_named p w w' :
  Forall valid_name p → grafts_leaf p w w' →
  well_named (fs w) → well_named (fs w').
Proof.
  intros Hp [->|(x & t & Hx & Hg & ->)] Hw; [done|]. cbn [fs set_fs].
  eapply well_named_graft; [exact Hw| |exact Hp|exact Hg].
  destruct Hx as [->|[d ->]]; [apply well_named_empty|apply well_named_file].
Qed.

Lemma arcname_valid filename : Forall valid_name (Zipfile.arcname filename).
Proof.
  unfold Zipfile.arcname. apply Forall_forall.
  intros c [(H1 & H2 & _) Hc]%list_elem_of_filter. repeat split; try done.
  by eapply (proj1 (Forall_forall _ _) (split_components filename)).
Qed.

Lemma parent_valid p : Forall valid_name p → Forall valid_name (Fs.parent p).
Proof.
  unfold Fs.parent. induction 1 as [|c p Hc Hp IH]; [constructor|].
  destruct p; [constructor|]. cbn [removelast] in *. by constructor.
Qed.

Lemma parent_below x l : Fs.parent (inst ++ x :: l) = inst ++ Fs.parent (x :: l).
Proof. unfold Fs.parent. by apply removelast_app. Qed.

(** Extraction writes below the scratch directory, whatever the names of
    the members, and gives every entry it makes a file name. *)
Lemma extract_member_effect x member w r w' :
  Forall valid_name (inst ++ [x]) →
  Zipfile.extract_member (inst ++ [x]) member w = (r, w') →
  outside_untouched inst w w' ∧ (well_named (fs w) → well_named (fs w')).
Proof.
  intros Hv H. destruct member as [filename d]. unfold Zipfile.extract_member in H.
  set (tp := (inst ++ [x]) ++ Zipfile.arcname filename) in H.
  assert (Htp : inst `prefix_of` tp).
  { unfold tp. rewrite <- app_assoc. by apply prefix_app_r. }
  assert (Htv : Forall valid_name tp).
  { unfold tp. apply Forall_app. split; [done|apply arcname_valid]. }
  assert (Hup : inst `prefix_of` Fs.parent tp).
  { unfold tp. rewrite <- app_assoc. cbn [app]. rewrite parent_below.
    by apply prefix_app_r. }
  pose proof (parent_valid _ Htv) as Huv.
  assert (Hleaf : ∀ p w0 w0', inst `prefix_of` p → Forall valid_name p →
            grafts_leaf p w0 w0' →
            outside_untouched inst w0 w0' ∧ (well_named (fs w0) → well_named (fs w0'))).
  { intros p w0 w0' Hp Hpv Hl. split; [by eapply grafts_leaf_outside|].
    by eapply grafts_leaf_named. }
  assert (Hcomp : ∀ w0 w1 w2,
            outside_untouched inst w0 w1 ∧ (well_named (fs w0) → well_named (fs w1)) →
            outside_untouched inst w1 w2 ∧ (well_named (fs w1) → well_named (fs w2)) →
            outside_untouched inst w0 w2 ∧ (well_named (fs w0) → well_named (fs w2))).
  { intros w0 w1 w2 [Ho1 Hn1] [Ho2 Hn2]. split; [by eapply outside_trans|auto]. }
  erewrite bind_run in H by reflexivity.
  assert (Hfirst : ∀ r0 w0,
            (if negb (Fs.exists_ (Fs.parent tp) (fs w))
             then Os.makedirs (Fs.parent tp) else ret tt) w = (r0, w0) →
            outside_untouched inst w w0 ∧ (well_named (fs w) → well_named (fs w0))).
  { intros r0 w0 H0. destruct (negb _).
    - apply Hleaf with (Fs.parent tp); [done..|]. by eapply makedirs_effect.
    - injection H0 as <- <-. split; [apply outside_refl|done]. }
  apply bind_inv in H as [(e & H & ->)|([] & w0 & H & H')]; [by eapply Hfirst|].
  apply (Hcomp w w0 w'); [by eapply Hfirst|].
  destruct (Str.endswith "/" filename).
  - erewrite bind_run in H' by reflexivity.
    destruct (negb (Fs.is_dir tp (fs w0))).
    + apply Hleaf with tp; [done..|]. by eapply mkdir_effect.
    + injection H' as <- <-. split; [apply outside_refl|done].
  - apply Hleaf with tp; [done..|]. by eapply write_effect.
Qed.

Lemma extractall_effect x members w r w' :
  Forall valid_name (inst ++ [x]) →
  Zipfile.extractall members (inst ++ [x]) w = (r, w') →
  outside_untouched inst w w' ∧ (well_named (fs w) → well_named (fs w')).
Proof.
  intros Hv. revert w. induction members as [|m members IH]; intros w H.
  - injection H as <- <-. split; [apply outside_refl|done].
  - cbn [Zipfile.extractall] in H.
    apply bind_inv in H as [(e & H & ->)|([] & w0 & H & H')].
    + by eapply extract_member_effect.
    + destruct (extract_member_effect _ _ _ _ _ Hv H) as [Ho Hn].
      destruct (IH _ H') as [Ho' Hn']. split; [by eapply outside_trans|auto].
Qed.

End Confinement.

(** X9.  Installing from a directory given by an absolute path without
    [".."] changes nothing but the destination, whatever the outcome:
    every path that is neither in [install_dir / <name of the source>]
    nor above it leads to the same entry afterwards, the source and the
    other installed plugins among them, and [sys.path] is as before.
    (With [".."] as the last component of the source the destination
    would be the directory above the install directory.) *)
Theorem install_directory_confined
    (self : Marketplace) (plugin_source : string) (w : world)
    (r : outcome PluginMetadata) (w1 : world) :
  plain_source plugin_source →
  not_archive plugin_source →
  install self plugin_source w = (r, w1) →
  outside_untouched
    (Pathlib.joinpath (install_dir self) (Pathlib.name (Pathlib.Path plugin_source)))
    w w1.
Proof.
  intros _ Hna. revert w r w1.
  set (dest := Pathlib.joinpath _ _).
  change (confined dest (install self plugin_source)).
  unfold install. apply confined_bind.
  - unfold install_place. red in Hna. rewrite Hna. fold dest.
    apply confined_bind; [apply confined_gets|]. intros e.
    destruct (negb e); [apply confined_raise|].
    apply confined_bind; [apply confined_gets|]. intros isd.
    destruct isd; [|apply confined_raise].
    apply confined_replace; [done|].
    apply confined_bind; [|intros; apply confined_ret].
    by apply confined_copytree.
  - intros p w r w1 H. apply install_manifest_frame in H as ->. apply outside_refl.
Qed.

Lemma install_directory_confined_witness :
  outside_untouched (Pathlib.joinpath (install_dir Sample.mp0) "foo") Sample.w_init
    (install Sample.mp0 "/src/foo" Sample.w_init).2.
Proof.
  apply (install_directory_confined Sample.mp0 "/src/foo" Sample.w_init
           (install Sample.mp0 "/src/foo" Sample.w_init).1).
  - split; [reflexivity|]. vm_compute. not_in_list.
  - reflexivity.
  - by destruct (install _ _ _).
Defined.

Lemma stem_tmp_valid s : valid_name (Pathlib.stem (Pathlib.Path s) +:+ "_tmp").
Proof.
  set (st := Pathlib.stem _).
  assert (Hlen : ∀ x y, String.length (x +:+ y) = String.length x + String.length y).
  { intros x y. induction x; simpl; [done|]. by f_equal. }
  repeat split.
  - intros H. apply (f_equal String.length) in H. rewrite Hlen in H. simpl in H. lia.
  - intros H. apply (f_equal String.length) in H. rewrite Hlen in H. simpl in H. lia.
  - rewrite has_slash_app. unfold st. by rewrite stem_no_slash.
Qed.

Lemma ZipFile_frame p w r w' : Zipfile.ZipFile p w = (r, w') → w' = w.
Proof.
  unfold Zipfile.ZipFile, bind, PathIO.open_r, ret, raise. intros H.
  repeat case_match; by simplify_eq.
Qed.

Lemma iterdir_frame p w r w' : PathIO.iterdir p w = (r, w') → w' = w.
Proof. unfold PathIO.iterdir. intros H. repeat case_match; by simplify_eq. Qed.

(** X10.  Installing from an archive, in a file system whose entries have
    file names and with the install directory in place, changes nothing
    outside the install directory, whatever the archive holds and
    whatever the outcome: the members are extracted below the scratch
    directory also when their names are absolute or climb with [..], and
    what is moved is moved within the install directory. *)
Theorem install_archive_confined
    (self : Marketplace) (plugin_source : string) (w : world)
    (r : outcome PluginMetadata) (w1 : world) :
  is_archive plugin_source →
  well_named (fs w) →
  Fs.is_dir (install_dir self) (fs w) = true →
  install self plugin_source w = (r, w1) →
  outside_untouched (install_dir self) w w1.
Proof.
  intros Hzip Hwn Hinst H.
  set (inst := install_dir self) in *.
  set (x := Pathlib.stem (Pathlib.Path plugin_source) +:+ "_tmp").
  assert (Hv : Forall valid_name (inst ++ [x])).
  { apply Forall_app. split.
    - apply is_dir_lookup in Hinst as [es Hes]. by eapply Hwn.
    - repeat constructor; apply stem_tmp_valid. }
  assert (Hplace : ∀ r' w', install_place self plugin_source w = (r', w') →
                            outside_untouched inst w w').
  { clear H. intros r' w' H. unfold install_place in H. rewrite tmpdir_shape in H.
    fold inst in H. fold x in H. red in Hzip. rewrite Hzip in H.
    erewrite bind_run in H by reflexivity.
    destruct (negb _); [injection H as <- <-; apply outside_refl|].
    apply bind_inv in H as [(e & Hz & ->)|(z & w0 & Hz & H)].
    { apply ZipFile_frame in Hz as ->. apply outside_refl. }
    apply ZipFile_frame in Hz as ->.
    assert (Hmk : ∀ r0 wa, PathIO.mkdir_parents (inst ++ [x]) w = (r0, wa) →
              outside_untouched inst w wa ∧ well_named (fs wa)).
    { intros r0 wa H0%mkdir_parents_effect. split.
      - eapply grafts_leaf_outside; [|exact H0]. by apply prefix_app_r.
      - by eapply grafts_leaf_named. }
    apply bind_inv in H as [(e & H & ->)|([] & wa & Ha & H)]; [by eapply Hmk|].
    destruct (Hmk _ _ Ha) as [Hoa Hna].
    apply bind_inv in H as [(e & H & ->)|([] & wb & Hb & H)].
    { eapply outside_trans; [exact Hoa|]. by eapply extractall_effect. }
    destruct (extractall_effect _ _ _ _ _ _ Hv Hb) as [Hob Hnb].
    specialize (Hnb Hna).
    apply (outside_trans _ _ wb); [by eapply outside_trans|].
    apply bind_inv in H as [(e & H & ->)|(entries & wb' & Hit & H)].
    { apply iterdir_frame in H as ->. apply outside_refl. }
    apply iterdir_inv in Hit as (-> & es & Hes & ->).
    erewrite bind_run in H by reflexivity.
    set (cands := filter _ _) in H.
    set (er := match cands with [c] => c | _ => inst ++ [x] end) in H.
    assert (Her : inst `prefix_of` er ∧ valid_name (Pathlib.name er)).
    { assert (Htmp : inst `prefix_of` inst ++ [x]
                     ∧ valid_name (Pathlib.name (inst ++ [x]))).
      { split; [by apply prefix_app_r|]. rewrite name_snoc. apply stem_tmp_valid. }
      unfold er. destruct cands as [|c [|]] eqn:Hc; try done.
      assert (Hin : c ∈ cands) by (rewrite Hc; by left).
      apply list_elem_of_filter in Hin as [Hd [k [-> _]]%list_elem_of_fmap].
      split; [rewrite <- app_assoc; by apply prefix_app_r|].
      rewrite name_snoc. apply is_dir_lookup in Hd as [es_k Hk].
      apply Hnb in Hk. apply Forall_app in Hk as [_ Hk]. by inversion Hk. }
    destruct Her as [Her Hn]. rewrite (joinpath_valid _ _ Hn) in H.
    revert H. apply confined_replace; [by apply prefix_app_r|].
    apply confined_bind; [apply confined_move; [done|by apply prefix_app_r]|].
    intros _. apply confined_bind; [|intros; apply confined_ret].
    apply confined_rmtree_ignore_errors. by apply prefix_app_r. }
  unfold install in H. apply bind_inv in H as [(e & H & ->)|(p & w' & Hp & H)].
  - by eapply Hplace.
  - apply install_manifest_frame in H as ->. by eapply Hplace.
Qed.

Lemma well_named_insert c sub es :
  valid_name c → well_named sub → well_named (Dir es) →
  well_named (Dir (<[c := sub]> es)).
Proof.
  intros Hc Hsub Hes [|c' q] y Hq; [constructor|]. cbn in Hq.
  destruct (decide (c' = c)) as [->|Hne].
  - rewrite lookup_insert_eq in Hq. cbn in Hq. constructor; [done|]. by eapply Hsub.
  - rewrite lookup_insert_ne in Hq by done. by apply (Hes _ y).
Qed.

Ltac names_ok :=
  repeat first
    [ apply well_named_empty
    | apply well_named_file
    | apply well_named_insert;
      [split; [discriminate|split; [discriminate|reflexivity]]| |] ].

Lemma install_archive_confined_witness :
  outside_untouched (install_dir Sample.mp0) Sample.w_other
    (install Sample.mp0 "/dl/bundle.zip" Sample.w_other).2.
Proof.
  apply (install_archive_confined Sample.mp0 "/dl/bundle.zip" Sample.w_other
           (install Sample.mp0 "/dl/bundle.zip" Sample.w_other).1).
  - reflexivity.
  - unfold Sample.w_other, Sample.dir, Sample.zip_file. cbn [fs set_fs list_to_map foldr uncurry fst snd].
    names_ok.
  - vm_compute. reflexivity.
  - by destruct (install _ _ _).
Defined.

(** ** test: what it leaves in [sys.path] and what the command reports *)

Lemma filter_ne_id (e : string) (l : list string) :
  filter (λ p, p ≠ e) l = l ↔ e ∉ l.
Proof.
  split.
  - intros Heq Hin. pose proof (length_filter_lt (λ p, p ≠ e) l e Hin) as Hlt.
    rewrite Heq in Hlt. apply (Nat.lt_irrefl (length l)), Hlt. by intros H.
  - induction l as [|a l IH]; [done|].
    intros [Ha Hl]%not_elem_of_cons.
    rewrite filter_cons_True by done. by rewrite IH.
Qed.

(** X11.  When [test] runs a plugin whose code leaves [sys.path] alone,
    [sys.path] is afterwards the one before the call without any entry
    equal to the plugin directory: the entry that [test] prepended is
    gone, and so is every such entry that was there before.  [sys.path]
    is restored exactly when the plugin directory was not in it. *)
Theorem test_sys_path_after
    (self : Marketplace) (plugin_name : string) (w : world) (d : fdata) :
  let plugin_dir := Pathlib.joinpath (install_dir self) plugin_name in
  let entry := Pathlib.str plugin_dir in
  Fs.lookup (plugin_dir ++ ["plugin.py"]) (fs w) = Some (File d) →
  leaves_sys_path d →
  sys_path (test self plugin_name w).2 = filter (λ p, p ≠ entry) (sys_path w)
  ∧ (sys_path (test self plugin_name w).2 = sys_path w ↔ entry ∉ sys_path w).
Proof.
  intros plugin_dir entry Hl Hd.
  assert (Hsp : sys_path (test self plugin_name w).2
                = filter (λ p, p ≠ entry) (sys_path w)).
  { rewrite test_cases, joinpath_plugin_py. fold plugin_dir. fold entry. rewrite Hl.
    assert (∃ n, Fs.lookup plugin_dir (fs w) = Some n) as [n ->].
    { rewrite lookup_app in Hl. destruct (Fs.lookup plugin_dir (fs w)); [eauto|done]. }
    destruct (Hd (entry :: sys_path w)) as [H1 H2].
    destruct (module_of d (entry :: sys_path w)) as [sp res]. cbn [fst snd] in H1, H2.
    subst sp.
    assert (Hf : filter (λ p, p ≠ entry) (entry :: sys_path w)
                 = filter (λ p, p ≠ entry) (sys_path w)).
    { apply filter_cons_False. by intros H. }
    destruct res as [|[[|body]|]|]; cbn [snd sys_path set_sys_path]; try done.
    specialize (H2 (entry :: sys_path w)).
    destruct (body (entry :: sys_path w)) as [sp' [v| |]]; cbn [fst] in H2; subst sp';
      cbn [snd sys_path set_sys_path]; done. }
  split; [done|]. rewrite Hsp. apply filter_ne_id.
Qed.

Lemma test_sys_path_after_witness :
  sys_path (test Sample.mp "foo" Sample.w_inst).2
  = filter (λ p, p ≠ "/home/u/.mcp/plugins_installed/foo") (sys_path Sample.w_inst)
  ∧ (sys_path (test Sample.mp "foo" Sample.w_inst).2 = sys_path Sample.w_inst
     ↔ "/home/u/.mcp/plugins_installed/foo" ∉ sys_path Sample.w_inst).
Proof.
  apply (test_sys_path_after Sample.mp "foo" Sample.w_inst (Sample.plugin_py (JBool true))).
  - vm_compute. reflexivity.
  - intros sp. split; [reflexivity|]. cbn. reflexivity.
Defined.

(** [test] returns a value only from a [run_test] that was loaded and
    called and that returned. *)
Lemma test_returns_iff (self : Marketplace) (plugin_name : string) (w : world) (b : bool) :
  let plugin_dir := Pathlib.joinpath (install_dir self) plugin_name in
  (test self plugin_name w).1 = Ret b ↔
  ∃ d sp body sp' v,
    Fs.lookup (plugin_dir ++ ["plugin.py"]) (fs w) = Some (File d)
    ∧ module_of d (Pathlib.str plugin_dir :: sys_path w)
      = (sp, Loaded (Some (Function body)))
    ∧ body sp = (sp', Returned v)
    ∧ b = truthy v.
Proof.
  intros plugin_dir. rewrite test_cases, joinpath_plugin_py. fold plugin_dir. split.
  - destruct (Fs.lookup plugin_dir (fs w)) as [n|]; [|done].
    destruct (Fs.lookup (plugin_dir ++ ["plugin.py"]) (fs w)) as [[d|es]|]; [|done..].
    destruct (module_of d _) as [sp [|[[|body]|]|]] eqn:Hm; try done.
    destruct (body sp) as [sp' [v| |]] eqn:Hb; [|done..].
    intros [= <-]. by exists d, sp, body, sp', v.
  - intros (d & sp & body & sp' & v & Hl & Hm & Hb & ->).
    assert (∃ n, Fs.lookup plugin_dir (fs w) = Some n) as [n ->].
    { rewrite lookup_app in Hl. destruct (Fs.lookup plugin_dir (fs w)); [eauto|done]. }
    by rewrite Hl, Hm, Hb.
Qed.

Lemma append_inv_head (a b c : string) : a +:+ b = a +:+ c → b = c.
Proof. induction a as [|x a IH]; [done|]. intros [= H]. by apply IH. Qed.

(** [test] leaves with an exception that is no [Exception] only when the
    code of the plugin does, while it is imported or in [run_test]. *)
Lemma test_exits_iff (self : Marketplace) (plugin_name : string) (w : world) :
  let plugin_dir := Pathlib.joinpath (install_dir self) plugin_name in
  (test self plugin_name w).1 = Raise SystemExit ↔
  ∃ d sp,
    Fs.lookup (plugin_dir ++ ["plugin.py"]) (fs w) = Some (File d)
    ∧ (module_of d (Pathlib.str plugin_dir :: sys_path w) = (sp, ImportExits)
       ∨ ∃ body sp',
           module_of d (Pathlib.str plugin_dir :: sys_path w)
           = (sp, Loaded (Some (Function body)))
           ∧ body sp = (sp', Exits)).
Proof.
  intros plugin_dir. rewrite test_cases, joinpath_plugin_py. fold plugin_dir. split.
  - destruct (Fs.lookup plugin_dir (fs w)) as [n|]; [|done].
    destruct (Fs.lookup (plugin_dir ++ ["plugin.py"]) (fs w)) as [[d|es]|]; [|done..].
    destruct (module_of d _) as [sp [|[[|body]|]|]] eqn:Hm; try done.
    + destruct (body sp) as [sp' [v| |]] eqn:Hb; try done.
      intros _. exists d, sp. split; [done|]. right. by exists body, sp'.
    + intros _. exists d, sp. split; [done|]. by left.
  - intros (d & sp & Hl & Hm).
    assert (∃ n, Fs.lookup plugin_dir (fs w) = Some n) as [n ->].
    { rewrite lookup_app in Hl. destruct (Fs.lookup plugin_dir (fs w)); [eauto|done]. }
    rewrite Hl. destruct Hm as [->|(body & sp' & -> & ->)]; done.
Qed.

(** X12.  What the [test] command echoes.  When the code of the plugin
    leaves with an exception that is no [Exception], as [sys.exit()]
    does, while it is imported or in [run_test], the handler of the
    command ([except Exception]) lets it pass: the command echoes
    nothing and ends with that exception.  In every other case the
    command echoes exactly one line and raises nothing.  The line says
    that the test passed exactly when [plugin.py] was loaded, its
    [run_test] was called and returned a value that counts as true; it
    says that the test returned False exactly when the value counts as
    false; every other exception of [Marketplace.test] is reported in a
    line that starts with [Error testing plugin].  In both cases the
    world is left as [Marketplace.test] left it. *)
Theorem cli_test_reports
    (str_of : exn → string) (obj : Marketplace) (plugin_name : string) (w : world) :
  let plugin_dir := Pathlib.joinpath (install_dir obj) plugin_name in
  let ran (b : bool) :=
    ∃ d sp body sp' v,
      Fs.lookup (plugin_dir ++ ["plugin.py"]) (fs w) = Some (File d)
      ∧ module_of d (Pathlib.str plugin_dir :: sys_path w)
        = (sp, Loaded (Some (Function body)))
      ∧ body sp = (sp', Returned v)
      ∧ b = truthy v in
  let exits :=
    ∃ d sp,
      Fs.lookup (plugin_dir ++ ["plugin.py"]) (fs w) = Some (File d)
      ∧ (module_of d (Pathlib.str plugin_dir :: sys_path w) = (sp, ImportExits)
         ∨ ∃ body sp',
             module_of d (Pathlib.str plugin_dir :: sys_path w)
             = (sp, Loaded (Some (Function body)))
             ∧ body sp = (sp', Exits)) in
  (exits
   ∧ Cli.test str_of obj plugin_name w
     = (Raise SystemExit, (test obj plugin_name w).2))
  ∨ (¬ exits
     ∧ ∃ line,
         Cli.test str_of obj plugin_name w = (Ret [line], (test obj plugin_name w).2)
         ∧ (line = "Plugin '" +:+ plugin_name +:+ "' test passed" ↔ ran true)
         ∧ (line = "Plugin '" +:+ plugin_name +:+ "' test returned False" ↔ ran false)
         ∧ (∀ e, (test obj plugin_name w).1 = Raise e →
                 line = "Error testing plugin '" +:+ plugin_name +:+ "': "
                        +:+ str_of e)).
Proof.
  intros plugin_dir ran exits.
  assert (Hran : ∀ b, (test obj plugin_name w).1 = Ret b ↔ ran b).
  { intros b. apply test_returns_iff. }
  assert (Hexits : (test obj plugin_name w).1 = Raise SystemExit ↔ exits).
  { apply test_exits_iff. }
  unfold Cli.test, try_except, bind.
  destruct (test obj plugin_name w) as [[[|]|e] w'] eqn:Ht; cbn [fst snd] in *.
  - right. split; [by intros ?%Hexits|].
    eexists. split; [reflexivity|]. split; [|split; [|done]].
    + split; [intros _; by apply Hran|done].
    + split; [|intros Hr; by apply Hran in Hr].
      by intros ?%append_inv_head%append_inv_head.
  - right. split; [by intros ?%Hexits|].
    eexists. split; [reflexivity|]. split; [|split; [|done]].
    + split; [|intros Hr; by apply Hran in Hr].
      by intros ?%append_inv_head%append_inv_head.
    + split; [intros _; by apply Hran|done].
  - assert (e = SystemExit ∨ e ≠ SystemExit) as [->|He]
      by (destruct e; (by left) || (by right)).
    { left. split; [by apply Hexits|done]. }
    right. split; [intros ?%Hexits; congruence|].
    exists ("Error testing plugin '" +:+ plugin_name +:+ "': " +:+ str_of e).
    split; [by destruct e|]. split; [|split].
    + split; [done|intros Hr; by apply Hran in Hr].
    + split; [done|intros Hr; by apply Hran in Hr].
    + by intros e' [= <-].
Qed.

(** A plugin whose [run_test] calls [sys.exit()]: the command echoes
    nothing. *)
Example cli_test_plugin_exits :
  let exiting := Bytes JsonBad None
                   (λ sp, (sp, Loaded (Some (Function (λ sp', (sp', Exits)))))) in
  let w := set_fs (Sample.dir
                     [("home", Sample.dir [("u", Sample.dir [(".mcp", Sample.dir
                        [("plugins_installed", Sample.dir
                           [("quit", Sample.dir [("plugin.py", File exiting)])])])])])])
                  Sample.w0 in
  Cli.test More.str_of Sample.mp "quit" w = (Raise SystemExit, w).
Proof. vm_compute. reflexivity. Qed.

(** ** The constructor *)

(** Placing an entry where there was no directory keeps every other
    regular file. *)
Lemma graft_keeps_other_files p x t t' q d :
  Fs.graft p x t = Some t' → Fs.is_dir p t = false → q ≠ p →
  Fs.lookup q t = Some (File d) → Fs.lookup q t' = Some (File d).
Proof.
  revert t t' q. induction p as [|c p IH]; intros t t' q Hg Hp Hne Hq.
  - destruct t as [d0|es]; [|done]. by destruct q.
  - destruct t as [?|es]; [done|]. rewrite graft_cons in Hg.
    destruct (Fs.graft p x (default (Dir ∅) (es !! c))) as [sub'|] eqn:Hg'; [|done].
    cbn in Hg. simplify_eq. destruct q as [|c' q]; [done|].
    rewrite is_dir_cons in Hp. cbn in Hq |- *.
    destruct (decide (c' = c)) as [->|Hc].
    + rewrite lookup_insert_eq. cbn.
      destruct (es !! c) as [sub|] eqn:Hes; [|done]. cbn in *.
      eapply IH; [exact Hg'|done| |done]. congruence.
    + by rewrite lookup_insert_ne.
Qed.

Lemma graft_keeps_files p x t t' q d :
  Fs.graft p x t = Some t' → Fs.lookup p t = None →
  Fs.lookup q t = Some (File d) → Fs.lookup q t' = Some (File d).
Proof.
  intros Hg Hp Hq. eapply graft_keeps_other_files; [exact Hg| | |exact Hq].
  - unfold Fs.is_dir. by rewrite Hp.
  - intros ->. congruence.
Qed.

(** What the constructor does to the world: it makes the install
    directory when it is not there, and nothing else. *)
Lemma init_world c d w r w1 :
  Marketplace_init c d w = (r, w1) →
  let inst := match d with
              | None => Pathlib.joinpath (Pathlib.joinpath (home w) ".mcp")
                          "plugins_installed"
              | Some s => Pathlib.Path s
              end in
  w1 = w
  ∨ (Fs.lookup inst (fs w) = None
     ∧ ∃ t, Fs.graft inst (Dir ∅) (fs w) = Some t ∧ w1 = set_fs t w).
Proof.
  intros H inst. unfold Marketplace_init in H.
  erewrite bind_run in H by reflexivity. fold inst in H.
  apply bind_inv in H as [(e & H & ->)|([] & wa & Ha & H)].
  - unfold PathIO.mkdir_parents in H. repeat case_match; simplify_eq; eauto.
  - erewrite bind_run in H by reflexivity. apply load_catalogue_frame in H as [-> _].
    unfold PathIO.mkdir_parents in Ha. repeat case_match; simplify_eq; eauto.
Qed.

Lemma init_keeps_files c d w r w1 q x :
  Marketplace_init c d w = (r, w1) →
  Fs.lookup q (fs w) = Some (File x) → Fs.lookup q (fs w1) = Some (File x).
Proof.
  intros [->|(Hnone & t & Hg & ->)]%init_world Hq; [done|].
  cbn [fs set_fs]. by eapply graft_keeps_files.
Qed.

(** X13.  Constructing a [Marketplace] destroys nothing.  When the
    install directory path is a regular file, the constructor raises
    FileExistsError and changes nothing.  In every case each regular file
    keeps its content, each directory stays a directory and [sys.path]
    is untouched; when the constructor returns, the install directory is
    a directory, and constructing again with the same arguments returns
    the same object and changes nothing more. *)
Theorem init_preserves (c d : option string) (w : world) :
  let inst := match d with
              | None => Pathlib.joinpath (Pathlib.joinpath (home w) ".mcp")
                          "plugins_installed"
              | Some s => Pathlib.Path s
              end in
  (∀ x, Fs.lookup inst (fs w) = Some (File x) →
        Marketplace_init c d w = (Raise FileExistsError, w))
  ∧ ∀ r w1, Marketplace_init c d w = (r, w1) →
      sys_path w1 = sys_path w
      ∧ (∀ q x, Fs.lookup q (fs w) = Some (File x) → Fs.lookup q (fs w1) = Some (File x))
      ∧ (∀ q, Fs.is_dir q (fs w) = true → Fs.is_dir q (fs w1) = true)
      ∧ (∀ self, r = Ret self →
           install_dir self = inst
           ∧ Fs.is_dir inst (fs w1) = true
           ∧ Marketplace_init c d w1 = (Ret self, w1)).
Proof.
  intros inst. split.
  - intros x Hx. unfold Marketplace_init. erewrite bind_run by reflexivity.
    fold inst. apply bind_raise. unfold PathIO.mkdir_parents. by rewrite Hx.
  - intros r w1 H.
    split; [|split; [|split]].
    + by destruct (init_world _ _ _ _ _ H) as [->|(_ & t & _ & ->)].
    + intros q x. by eapply init_keeps_files.
    + intros q Hq. destruct (init_world _ _ _ _ _ H) as [->|(Hnone & t & Hg & ->)];
        [done|]. cbn [fs set_fs]. eapply is_dir_graft; [exact Hg| |done].
      unfold Fs.is_dir. by rewrite Hnone.
    + intros self ->. pose proof (init_install_dir _ _ _ _ _ H) as Hd.
      assert (Hhome : home w1 = home w ∧ package_dir w1 = package_dir w).
      { by destruct (init_world _ _ _ _ _ H) as [->|(_ & t & _ & ->)]. }
      destruct Hhome as [Hh _].
      unfold Marketplace_init in H. erewrite bind_run in H by reflexivity.
      fold inst in H. apply bind_ret_inv in H as ([] & wa & Ha & H).
      erewrite bind_run in H by reflexivity.
      pose proof (load_catalogue_frame _ _ _ _ H) as [-> Hi].
      specialize (Hi self eq_refl). cbn [install_dir] in Hi.
      rewrite Hi in Hd. split; [done|]. split; [done|].
      unfold Marketplace_init. erewrite bind_run by reflexivity.
      rewrite Hh. fold inst.
      erewrite bind_run; cycle 1.
      { unfold PathIO.mkdir_parents. apply is_dir_lookup in Hd as [es ->]. reflexivity. }
      erewrite bind_run by reflexivity.
      exact H.
Qed.

Lemma init_preserves_witness :
  sys_path Sample.w_init = sys_path Sample.w0
  ∧ (∀ q x, Fs.lookup q (fs Sample.w0) = Some (File x) →
            Fs.lookup q (fs Sample.w_init) = Some (File x))
  ∧ (∀ q, Fs.is_dir q (fs Sample.w0) = true → Fs.is_dir q (fs Sample.w_init) = true)
  ∧ Fs.is_dir (install_dir Sample.mp0) (fs Sample.w_init) = true
  ∧ Marketplace_init None None Sample.w_init = (Ret Sample.mp0, Sample.w_init).
Proof.
  destruct (init_preserves None None Sample.w0) as [_ H].
  destruct (H (Ret Sample.mp0) Sample.w_init) as (H1 & H2 & H3 & H4).
  - vm_compute. reflexivity.
  - destruct (H4 Sample.mp0 eq_refl) as (_ & H5 & H6). done.
Defined.

(** X14.  A catalogue file that holds a JSON object instead of a list is
    accepted by the constructor as it is; [list_available] returns the
    object, and [search] then raises AttributeError for every keyword,
    the empty one included, as soon as the object has a key: the loop
    runs over the keys, and a key has no [get]. *)
Theorem search_object_catalogue
    (c : string) (d : option string) (w : world) (obj : Marketplace) (w1 : world)
    (x : fdata) (fields : list (string * value)) (keyword : string) :
  Marketplace_init (Some c) d w = (Ret obj, w1) →
  Fs.lookup (Pathlib.Path c) (fs w) = Some (File x) →
  json_of x = JsonOk (JObj fields) →
  fields ≠ [] →
  list_available obj = JObj fields
  ∧ search obj keyword w1 = (Raise AttributeError, w1).
Proof.
  intros H Hx Hj Hne.
  pose proof (init_keeps_files _ _ _ _ _ _ _ H Hx) as Hx1.
  assert (Hcat : catalogue obj = JObj fields).
  { unfold Marketplace_init in H. erewrite bind_run in H by reflexivity.
    apply bind_ret_inv in H as ([] & wa & Ha & H).
    erewrite bind_run in H by reflexivity.
    pose proof (load_catalogue_frame _ _ _ _ H) as [-> _].
    rewrite load_catalogue_cases in H. cbn [catalogue_path] in H.
    rewrite Hx1, Hj in H. by injection H as <-. }
  split; [done|]. unfold search, list_available. rewrite Hcat.
  destruct fields as [|[k v] fields]; [done|].
  erewrite bind_run by reflexivity. cbn [fmap list_fmap fst search_matches].
  by apply bind_raise.
Qed.

Lemma search_object_catalogue_witness :
  list_available (set_catalogue More.object_catalogue Sample.mp) = More.object_catalogue
  ∧ search (set_catalogue More.object_catalogue Sample.mp) "echo"
      (Marketplace_init (Some "/dl/cat.json") None More.w_object).2
    = (Raise AttributeError, (Marketplace_init (Some "/dl/cat.json") None More.w_object).2).
Proof.
  apply (search_object_catalogue "/dl/cat.json" None More.w_object
           (set_catalogue More.object_catalogue Sample.mp)
           (Marketplace_init (Some "/dl/cat.json") None More.w_object).2
           (Bytes (JsonOk More.object_catalogue) None Sample.no_module)
           [("name", JStr "echo"); ("version", JStr "1.0")] "echo").
  - vm_compute. reflexivity.
  - vm_compute. reflexivity.
  - reflexivity.
  - discriminate.
Defined.

(** ** The name in the manifest and the name of the directory *)

(** What a successful install of a directory tells, the source being read
    from the root of the file system as the model reads every source:
    the plugin is an entry of the install directory, named as the
    source; it holds the tree of the source, and the entries beside it
    are as before. *)
Lemma install_directory_inv
    (self : Marketplace) (plugin_source : string) (w : world)
    (m : PluginMetadata) (w1 : world) :
  not_archive plugin_source →
  install self plugin_source w = (Ret m, w1) →
  ∃ n es,
    valid_name n
    ∧ path m = install_dir self ++ [n]
    ∧ Fs.lookup (Pathlib.Path plugin_source) (fs w) = Some (Dir es)
    ∧ Fs.lookup (install_dir self ++ [n]) (fs w1) = Some (Dir es)
    ∧ sys_path w1 = sys_path w
    ∧ ∀ n', n' ≠ n →
        Fs.lookup (install_dir self ++ [n']) (fs w1)
        = Fs.lookup (install_dir self ++ [n']) (fs w).
Proof.
  intros Hna H. unfold install in H.
  apply bind_ret_inv in H as (p & w' & Hplace & Hman).
  apply install_manifest_inv in Hman as (-> & d & fields & _ & _ & ->).
  cbn [path metadata_of].
  destruct (install_place_dir_inv self plugin_source Hna w p w' Hplace)
    as (es & t1 & -> & Hne & Hdiv & Hsrc & _ & Hg & ->).
  destruct (dest_of_directory self plugin_source) as [[Hnil Hd]|[Hn Hd]].
  { destruct Hdiv as [Hdiv _]. destruct Hdiv. rewrite Hnil. apply prefix_nil. }
  rewrite Hd in *. eexists _, es. split; [exact Hn|]. split; [done|].
  split; [done|]. split; [by eapply lookup_graft_eq|]. split; [done|].
  intros n' Hn'. cbn [fs set_fs].
  assert (Hsib : diverge (install_dir self ++ [Pathlib.name (Pathlib.Path plugin_source)])
                   (install_dir self ++ [n'])) by (apply diverge_siblings; congruence).
  rewrite (lookup_graft_frame _ _ _ _ _ Hg Hsib). by apply lookup_remove_frame.
Qed.

(** X15.  [install] reports the name that the manifest gives, while
    [uninstall] and [test] look for the directory, which is named as the
    source.  The source is a directory given by an absolute path without
    [".."], and the name of the manifest is one path component other
    than [".."].  When the two names differ and nothing is installed
    under the name of the manifest, the plugin that was just installed
    is not found under the name that [install] returned: [uninstall]
    returns [False] and [test] raises NotInstalled. *)
Theorem installed_name_is_not_manifest_name
    (self : Marketplace) (plugin_source : string) (w : world)
    (m : PluginMetadata) (w1 : world) (nm : string) :
  plain_source plugin_source →
  not_archive plugin_source →
  install self plugin_source w = (Ret m, w1) →
  name m = JStr nm →
  entry_name nm →
  nm ≠ Pathlib.name (path m) →
  Fs.lookup (install_dir self ++ [nm]) (fs w) = None →
  uninstall self nm w1 = (Ret false, w1)
  ∧ test self nm w1 = (Raise NotInstalled, w1).
Proof.
  intros _ Hna H _ [Hnm _] Hne Hfree.
  destruct (install_directory_inv _ _ _ _ _ Hna H)
    as (n & es & Hn & Hp & _ & _ & _ & Hframe).
  rewrite Hp, name_snoc in Hne. rewrite <- (Hframe _ Hne) in Hfree.
  split.
  - rewrite (uninstall_entry _ _ _ Hnm). unfold Fs.is_dir. by rewrite Hfree.
  - by rewrite test_cases, (joinpath_valid _ _ Hnm), Hfree.
Qed.

Lemma installed_name_is_not_manifest_name_witness :
  let w1 := (install Sample.mp "/src/bar" More.w_renamed).2 in
  uninstall Sample.mp "foo" w1 = (Ret false, w1)
  ∧ test Sample.mp "foo" w1 = (Raise NotInstalled, w1).
Proof.
  intros w1.
  apply (installed_name_is_not_manifest_name Sample.mp "/src/bar" More.w_renamed
           {| name := JStr "foo"; version := JStr "2.0"; description := JStr "d";
              path := install_dir Sample.mp ++ ["bar"] |} w1 "foo").
  - split; [reflexivity|]. vm_compute. not_in_list.
  - reflexivity.
  - vm_compute. reflexivity.
  - reflexivity.
  - split; [split; [discriminate|split; [discriminate|reflexivity]]|discriminate].
  - discriminate.
  - vm_compute. reflexivity.
Defined.

(** X16.  [test] on a plugin that was installed from a directory, given
    by an absolute path without [".."], runs the [plugin.py] of the
    source: the installed [plugin.py] is the one the source held, and
    [test], called with the name of the installed directory, returns a
    value exactly when that code loads, defines a callable [run_test]
    and the call returns; the value is then the result coerced to a
    boolean. *)
Theorem install_then_test
    (self : Marketplace) (plugin_source : string) (w : world)
    (m : PluginMetadata) (w1 : world) (d : fdata) :
  plain_source plugin_source →
  not_archive plugin_source →
  install self plugin_source w = (Ret m, w1) →
  Fs.lookup (Pathlib.Path plugin_source ++ ["plugin.py"]) (fs w) = Some (File d) →
  Fs.lookup (path m ++ ["plugin.py"]) (fs w1) = Some (File d)
  ∧ ∀ b, (test self (Pathlib.name (path m)) w1).1 = Ret b ↔
         ∃ sp body sp' v,
           module_of d (Pathlib.str (path m) :: sys_path w)
           = (sp, Loaded (Some (Function body)))
           ∧ body sp = (sp', Returned v)
           ∧ b = truthy v.
Proof.
  intros _ Hna H Hpy.
  destruct (install_directory_inv _ _ _ _ _ Hna H)
    as (n & es & Hn & Hp & Hsrc & Hdest & Hsp & _).
  assert (Hpy1 : Fs.lookup (path m ++ ["plugin.py"]) (fs w1) = Some (File d)).
  { rewrite lookup_app, Hsrc in Hpy. by rewrite Hp, lookup_app, Hdest. }
  split; [done|]. intros b. rewrite Hp, name_snoc. rewrite Hp in Hpy1.
  pose proof (test_returns_iff self n w1 b) as Hiff. cbv zeta in Hiff.
  rewrite (joinpath_valid _ _ Hn), Hsp in Hiff. rewrite Hiff. split.
  - intros (d' & sp & body & sp' & v & Hl & Hm & Hb & ->).
    rewrite Hpy1 in Hl. injection Hl as <-. by exists sp, body, sp', v.
  - intros (sp & body & sp' & v & Hm & Hb & ->). by exists d, sp, body, sp', v.
Qed.

Lemma install_then_test_witness :
  let r := install Sample.mp0 "/src/foo" Sample.w_init in
  Fs.lookup (install_dir Sample.mp0 ++ ["foo"; "plugin.py"]) (fs r.2)
  = Some (File (Sample.plugin_py (JBool true)))
  ∧ (test Sample.mp0 "foo" r.2).1 = Ret true.
Proof.
  intros r.
  destruct (install_then_test Sample.mp0 "/src/foo" Sample.w_init
              {| name := JStr "foo"; version := JStr "2.0"; description := JStr "d";
                 path := install_dir Sample.mp0 ++ ["foo"] |} r.2
              (Sample.plugin_py (JBool true))) as [H1 H2].
  - split; [reflexivity|]. vm_compute. not_in_list.
  - reflexivity.
  - vm_compute. reflexivity.
  - vm_compute. reflexivity.
  - split; [exact H1|]. apply H2. eexists _, _, _, _.
    split; [reflexivity|]. split; reflexivity.
Defined.

(** ** search over a catalogue that is not of the declared type *)

Lemma search_matches_cons_entry keyword p rest w :
  catalogue_entry p →
  search_matches (Str.lower keyword) (p :: rest) w
  = bind (search_matches (Str.lower keyword) rest)
         (λ matches, ret (if search_keeps keyword p then p :: matches else matches)) w.
Proof.
  intros (fields & -> & Hn & Hd).
  cbn [search_matches]. unfold bind at 1. unfold Json.get, ret at 1.
  unfold search_keeps. unfold field_text, text_or_absent in *.
  destruct (dict_lookup "name" fields) as [[| | |n| |]|]; try done;
    destruct (dict_lookup "description" fields) as [[| | |d| |]|]; try done;
    unfold bind, ret, default, py_lower; simpl;
    repeat match goal with
           | |- context [Str.contains ?a ?b] => destruct (Str.contains a b)
           end;
    simpl; by destruct (search_matches _ rest w) as [[?|?] ?].
Qed.

(** X17.  [search] evaluates the description of an entry only when the
    keyword is not in its name.  In a catalogue whose other entries are
    of the declared type, an entry with a name and with a description
    that is not a string (a JSON null or number) is found when the
    keyword occurs in its name, and the search is then the one over a
    well-typed catalogue; for every other keyword [search] raises
    AttributeError. *)
Theorem search_description_not_text
    (obj : Marketplace) (keyword : string) (w : world)
    (good rest : list value) (fields : list (string * value)) (nm : string) (v : value) :
  list_available obj = JArr (good ++ JObj fields :: rest) →
  Forall catalogue_entry good →
  Forall catalogue_entry rest →
  dict_lookup "name" fields = Some (JStr nm) →
  dict_lookup "description" fields = Some v →
  (∀ s, v ≠ JStr s) →
  search obj keyword w
  = if Str.contains (Str.lower keyword) (Str.lower nm)
    then (Ret (List.filter (search_keeps keyword) (good ++ JObj fields :: rest)), w)
    else (Raise AttributeError, w).
Proof.
  intros Hcat Hgood Hrest Hn Hd Hv. unfold search. rewrite Hcat.
  erewrite bind_run by reflexivity. clear Hcat.
  induction Hgood as [|g good Hg _ IH].
  - cbn [app search_matches List.filter]. unfold search_keeps at 1.
    cbn [field_text]. rewrite Hn.
    erewrite bind_run; [|unfold Json.get; by rewrite Hn].
    erewrite bind_run by reflexivity.
    destruct (Str.contains (Str.lower keyword) (Str.lower nm)) eqn:Hc.
    + erewrite bind_run by reflexivity.
      erewrite bind_run by (by apply search_matches_filter). done.
    + apply bind_raise. erewrite bind_run; [|unfold Json.get; by rewrite Hd].
      apply bind_raise. destruct v; try done. by destruct (Hv s).
  - change ((g :: good) ++ JObj fields :: rest) with (g :: (good ++ JObj fields :: rest)).
    rewrite (search_matches_cons_entry _ _ _ _ Hg). unfold bind at 1. rewrite IH.
    cbn [List.filter].
    destruct (Str.contains (Str.lower keyword) (Str.lower nm)); [|done].
    by destruct (search_keeps keyword g).
Qed.

Lemma search_description_not_text_witness :
  let odd := JObj [("name", JStr "Echo"); ("description", JNull)] in
  let obj := set_catalogue (JArr [Sample.foo_manifest; odd]) Sample.mp in
  search obj "echo" Sample.w0
  = (Ret (List.filter (search_keeps "echo") [Sample.foo_manifest; odd]), Sample.w0)
  ∧ search obj "foo" Sample.w0 = (Raise AttributeError, Sample.w0).
Proof.
  intros odd obj.
  assert (Hgood : Forall catalogue_entry [Sample.foo_manifest]).
  { repeat constructor; eexists; (split; [reflexivity|]); split; exact I. }
  split.
  - apply (search_description_not_text obj "echo" Sample.w0 [Sample.foo_manifest] []
             [("name", JStr "Echo"); ("description", JNull)] "Echo" JNull);
      [reflexivity|exact Hgood|constructor|reflexivity|reflexivity|discriminate].
  - apply (search_description_not_text obj "foo" Sample.w0 [Sample.foo_manifest] []
             [("name", JStr "Echo"); ("description", JNull)] "Echo" JNull);
      [reflexivity|exact Hgood|constructor|reflexivity|reflexivity|discriminate].
Defined.

(** ** install: an archive that wraps the plugin in one folder *)

Lemma below_is_dir p r t y :
  r ≠ [] → Fs.lookup (p ++ r) t = Some y → Fs.is_dir p t = true.
Proof.
  destruct r as [|c r]; [done|]. intros _. rewrite lookup_app. unfold Fs.is_dir.
  by destruct (Fs.lookup p t) as [[d|es]|].
Qed.

(** Extracting a member puts it at its place below the target. *)
Lemma extract_member_places tp f d w w' :
  Zipfile.extract_member tp (f, d) w = (Ret tt, w') →
  if Str.endswith "/" f then Fs.is_dir (tp ++ Zipfile.arcname f) (fs w') = true
  else Fs.lookup (tp ++ Zipfile.arcname f) (fs w') = Some (File d).
Proof.
  unfold Zipfile.extract_member. set (p := tp ++ Zipfile.arcname f). intros H.
  apply bind_ret_inv in H as (e & w0 & [= <- <-] & H).
  apply bind_ret_inv in H as ([] & w1 & _ & H).
  destruct (Str.endswith "/" f).
  - apply bind_ret_inv in H as (isd & w0 & [= <- <-] & H).
    destruct (Fs.is_dir p (fs w1)) eqn:Hd; cbn [negb] in H.
    + by injection H as <-.
    + unfold Os.mkdir in H. repeat case_match; simplify_eq. cbn [fs set_fs].
      apply is_dir_lookup. eexists. by eapply lookup_graft_eq.
  - unfold Os.write in H.
    repeat case_match; simplify_eq; cbn [fs set_fs]; by eapply lookup_graft_eq.
Qed.




Lemma under_folder_inv k member :
  under_folder k member = true →
  ∃ rest, Zipfile.arcname member.1 = k :: rest
          ∧ (rest ≠ [] ∨ Str.endswith "/" member.1 = true).
Proof.
  unfold under_folder. destruct (Zipfile.arcname member.1) as [|c rest]; [done|].
  intros [Hc H]%andb_true_iff. apply String.eqb_eq in Hc as ->.
  exists rest. split; [done|]. apply orb_true_iff in H as [H|H]; [left|by right].
  by apply negb_true_iff, bool_decide_eq_false in H.
Qed.

(** Extracting a member that lies in the folder [k] touches nothing
    outside [k] in the target, and leaves [k] a directory. *)
Lemma extract_member_under tp k member w w' :
  under_folder k member = true → Fs.is_dir tp (fs w) = true →
  Zipfile.extract_member tp member w = (Ret tt, w') →
  outside_untouched (tp ++ [k]) w w' ∧ Fs.is_dir (tp ++ [k]) (fs w') = true.
Proof.
  intros (rest & Harc & Hrest)%under_folder_inv Htp H.
  destruct member as [f d]. cbn [fst] in *. split.
  - unfold Zipfile.extract_member in H. rewrite Harc in H.
    set (p := tp ++ k :: rest) in H.
    assert (Hp : tp ++ [k] `prefix_of` p).
    { unfold p. exists rest. by rewrite <- app_assoc. }
    apply bind_ret_inv in H as (e & w0 & [= <- <-] & H).
    apply bind_ret_inv in H as ([] & w1 & Hup & H).
    apply (outside_trans _ _ w1).
    + destruct (Fs.exists_ (Fs.parent p) (fs w)) eqn:He; cbn [negb] in Hup.
      { injection Hup as <-. apply outside_refl. }
      eapply grafts_leaf_outside; [|by eapply makedirs_effect].
      unfold p. rewrite parent_below. destruct rest as [|c rest].
      * cbn in He. unfold p in He. rewrite parent_below in He. cbn in He.
        rewrite app_nil_r in He. by rewrite (is_dir_exists _ _ Htp) in He.
      * exists (Fs.parent (c :: rest)). unfold Fs.parent. cbn [removelast].
        by rewrite <- app_assoc.
    + destruct (Str.endswith "/" f).
      * apply bind_ret_inv in H as (isd & w0 & [= <- <-] & H).
        destruct (negb (Fs.is_dir p (fs w1))).
        -- eapply grafts_leaf_outside; [exact Hp|by eapply mkdir_effect].
        -- injection H as <-. apply outside_refl.
      * eapply grafts_leaf_outside; [exact Hp|by eapply write_effect].
  - pose proof (extract_member_places _ _ _ _ _ H) as Hpl. rewrite Harc in Hpl.
    replace (tp ++ k :: rest) with ((tp ++ [k]) ++ rest) in Hpl
      by by rewrite <- app_assoc.
    destruct (Str.endswith "/" f).
    + destruct rest as [|c rest]; [by rewrite app_nil_r in Hpl|].
      apply is_dir_lookup in Hpl as [es Hes]. eapply below_is_dir; [|exact Hes]. done.
    + destruct Hrest as [Hrest|?]; [|done]. eapply below_is_dir; [|exact Hpl]. done.
Qed.



(** The placement of an archive with a wrapping folder, with the world
    it leaves. *)
Lemma install_place_archive_world
    (self : Marketplace) (plugin_source : string) (w : world)
    (d : fdata) (z : list (string * fdata)) (wa wb : world) (k : string)
    (es_k : gmap string node) (t : node) :
  let src := Pathlib.Path plugin_source in
  let inst := install_dir self in
  let tmpdir := inst ++ [Pathlib.stem src +:+ "_tmp"] in
  is_archive plugin_source →
  Fs.lookup src (fs w) = Some (File d) → zip_of d = Some z →
  PathIO.mkdir_parents tmpdir w = (Ret tt, wa) →
  Zipfile.extractall z tmpdir wa = (Ret tt, wb) →
  subdirectories tmpdir (fs wb) = [tmpdir ++ [k]] →
  valid_name k → k ≠ Pathlib.stem src +:+ "_tmp" →
  (Fs.lookup (inst ++ [k]) (fs wb) = None ∨ Fs.is_dir (inst ++ [k]) (fs wb) = true) →
  Fs.lookup (tmpdir ++ [k]) (fs wb) = Some (Dir es_k) →
  Fs.graft (inst ++ [k]) (Dir es_k)
    (Fs.remove (tmpdir ++ [k]) (Fs.remove (inst ++ [k]) (fs wb))) = Some t →
  install_place self plugin_source w
  = (Ret (inst ++ [k]), set_fs (Fs.remove tmpdir t) wb).
Proof.
  intros src inst tmpdir Hzip Hsrc Hz Hmk Hext Hsub Hkv Hnx Hdest Hk Hg.
  set (x := Pathlib.stem src +:+ "_tmp") in *.
  destruct (tail_cleanup inst x k k wb es_k Hk Hnx Hdest t Hg) as (Hclean & _ & _).
  unfold subdirectories in Hsub.
  destruct (Fs.lookup tmpdir (fs wb)) as [[?|es_tmp]|] eqn:Htmp; [done| |done].
  unfold install_place. rewrite tmpdir_shape.
  fold src. fold x. fold inst. fold tmpdir.
  erewrite bind_run by reflexivity.
  assert (Fs.exists_ src (fs w) = true) as -> by (unfold Fs.exists_; by rewrite Hsrc).
  cbn [negb]. red in Hzip. fold src in Hzip. rewrite Hzip.
  erewrite bind_run; cycle 1.
  { unfold Zipfile.ZipFile, bind, PathIO.open_r. by rewrite Hsrc, Hz. }
  erewrite bind_run by exact Hmk.
  erewrite bind_run by exact Hext.
  erewrite bind_run; cycle 1.
  { unfold PathIO.iterdir. by rewrite Htmp. }
  erewrite bind_run by reflexivity.
  cbv beta. rewrite Hsub. rewrite name_snoc, (joinpath_valid _ _ Hkv).
  erewrite bind_run by reflexivity.
  erewrite bind_run; cycle 1.
  { apply rmtree_if_exists; [|done]. by destruct inst. }
  erewrite bind_run; cycle 1.
  { exact (tail_move inst x k k wb es_k Hk Hnx Hdest t Hg). }
  erewrite bind_run by exact Hclean.
  done.
Qed.



(** ** install: an archive with one folder beside its files *)

(** Making a directory or a file where [q] is not on the way leaves [q]
    absent. *)
Lemma graft_leaf_none p x t t' q :
  Fs.graft p x t = Some t' → (x = Dir ∅ ∨ ∃ d, x = File d) →
  Fs.lookup q t = None → ¬ q `prefix_of` p → Fs.lookup q t' = None.
Proof.
  revert t t' q. induction p as [|c p IH]; intros t t' q Hg Hx Hq Hpre.
  - cbn in Hg. simplify_eq. destruct q as [|c q]; [destruct Hpre; apply prefix_nil|].
    destruct Hx as [->|[d ->]]; [apply lookup_empty_dir|done].
  - destruct t as [?|es]; [done|]. rewrite graft_cons in Hg.
    destruct (Fs.graft p x (default (Dir ∅) (es !! c))) as [sub'|] eqn:Hg'; [|done].
    cbn in Hg. simplify_eq. destruct q as [|c' q]; [done|]. cbn in Hq |- *.
    destruct (decide (c' = c)) as [->|Hc]; [|by rewrite lookup_insert_ne].
    rewrite lookup_insert_eq. cbn.
    assert (Hpre' : ¬ q `prefix_of` p).
    { intros Hp. apply Hpre. by apply prefix_cons. }
    eapply IH; [exact Hg'|done| |done].
    destruct (es !! c) as [sub|]; [done|]. cbn.
    destruct q as [|c' q]; [destruct Hpre'; apply prefix_nil|apply lookup_empty_dir].
Qed.

Lemma parent_prefix p : Fs.parent p `prefix_of` p.
Proof.
  unfold Fs.parent. destruct p as [|c p] using rev_ind; [done|].
  rewrite removelast_last. by apply prefix_app_r.
Qed.

Lemma extract_member_none tp f d w w' q :
  Zipfile.extract_member tp (f, d) w = (Ret tt, w') →
  Fs.lookup q (fs w) = None → ¬ q `prefix_of` tp ++ Zipfile.arcname f →
  Fs.lookup q (fs w') = None.
Proof.
  unfold Zipfile.extract_member. set (p := tp ++ Zipfile.arcname f). intros H Hq Hpre.
  assert (Hpre' : ¬ q `prefix_of` Fs.parent p).
  { intros Hp. apply Hpre. etrans; [exact Hp|apply parent_prefix]. }
  assert (Hstep : ∀ p' w0 w0',
            (w0' = w0 ∨ ∃ x t, (x = Dir ∅ ∨ ∃ d, x = File d)
                               ∧ Fs.graft p' x (fs w0) = Some t ∧ w0' = set_fs t w0) →
            ¬ q `prefix_of` p' → Fs.lookup q (fs w0) = None → Fs.lookup q (fs w0') = None).
  { intros p' w0 w0' [->|(x & t & Hx & Hg & ->)] Hp' Hl; [done|].
    cbn [fs set_fs]. by eapply graft_leaf_none. }
  apply bind_ret_inv in H as (e & w0 & [= <- <-] & H).
  apply bind_ret_inv in H as ([] & w1 & Hup & H).
  assert (Hq1 : Fs.lookup q (fs w1) = None).
  { destruct (negb _).
    - eapply Hstep; [by eapply makedirs_effect|done..].
    - by injection Hup as <-. }
  clear Hup. destruct (Str.endswith "/" f).
  - apply bind_ret_inv in H as (isd & w0 & [= <- <-] & H).
    destruct (negb _).
    + eapply Hstep; [by eapply mkdir_effect|done..].
    + by injection H as <-.
  - eapply Hstep; [by eapply write_effect|done..].
Qed.

Lemma extractall_none tp members w w' q :
  Zipfile.extractall members tp w = (Ret tt, w') →
  Forall (λ m, ¬ q `prefix_of` tp ++ Zipfile.arcname m.1) members →
  Fs.lookup q (fs w) = None → Fs.lookup q (fs w') = None.
Proof.
  revert w. induction members as [|[f d] members IH]; intros w H Hall Hq.
  - by injection H as <-.
  - cbn [Zipfile.extractall] in H.
    apply bind_ret_inv in H as ([] & w1 & Hm & H).
    inversion_clear Hall as [|?? Hpre Hall'].
    eapply IH; [exact H|done|]. by eapply extract_member_none.
Qed.

(** Extracting a member touches nothing outside the entry of the target
    that its name starts with. *)
Lemma extract_member_first tp c rest f d w w' :
  Zipfile.arcname f = c :: rest → Fs.is_dir tp (fs w) = true →
  Zipfile.extract_member tp (f, d) w = (Ret tt, w') →
  outside_untouched (tp ++ [c]) w w'.
Proof.
  intros Harc Htp H.
  unfold Zipfile.extract_member in H. rewrite Harc in H.
  set (p := tp ++ c :: rest) in H.
  assert (Hp : tp ++ [c] `prefix_of` p).
  { unfold p. exists rest. by rewrite <- app_assoc. }
  apply bind_ret_inv in H as (e & w0 & [= <- <-] & H).
  apply bind_ret_inv in H as ([] & w1 & Hup & H).
  apply (outside_trans _ _ w1).
  - destruct (Fs.exists_ (Fs.parent p) (fs w)) eqn:He; cbn [negb] in Hup.
    { injection Hup as <-. apply outside_refl. }
    eapply grafts_leaf_outside; [|by eapply makedirs_effect].
    unfold p. rewrite parent_below. destruct rest as [|c' rest].
    + cbn in He. unfold p in He. rewrite parent_below in He. cbn in He.
      rewrite app_nil_r in He. by rewrite (is_dir_exists _ _ Htp) in He.
    + exists (Fs.parent (c' :: rest)). unfold Fs.parent. cbn [removelast].
      by rewrite <- app_assoc.
  - destruct (Str.endswith "/" f).
    + apply bind_ret_inv in H as (isd & w0 & [= <- <-] & H).
      destruct (negb (Fs.is_dir p (fs w1))).
      * eapply grafts_leaf_outside; [exact Hp|by eapply mkdir_effect].
      * injection H as <-. apply outside_refl.
    + eapply grafts_leaf_outside; [exact Hp|by eapply write_effect].
Qed.

Lemma outside_below p q w w' :
  p `prefix_of` q → outside_untouched q w w' → outside_untouched p w w'.
Proof.
  intros Hp [Hs Hl]. split; [done|]. intros r Hr. apply Hl. by eapply diverge_below.
Qed.

Lemma top_file_inv member :
  top_file member = true →
  ∃ c, Zipfile.arcname member.1 = [c] ∧ Str.endswith "/" member.1 = false.
Proof.
  unfold top_file. destruct (Zipfile.arcname member.1) as [|c [|]]; try done.
  intros H%negb_true_iff. eauto.
Qed.

(** Extracting a member that lies in the folder [k] or is a file at the
    top touches nothing outside the target and makes no directory in it
    but [k]. *)
Lemma extract_member_sorted tp k member w w' :
  under_folder k member || top_file member = true →
  Fs.is_dir tp (fs w) = true →
  Zipfile.extract_member tp member w = (Ret tt, w') →
  outside_untouched tp w w'
  ∧ (∀ c, c ≠ k → Fs.is_dir (tp ++ [c]) (fs w) = false →
          Fs.is_dir (tp ++ [c]) (fs w') = false)
  ∧ (under_folder k member = true → Fs.is_dir (tp ++ [k]) (fs w') = true).
Proof.
  intros Hm Htp H. destruct (under_folder k member) eqn:Hu.
  - destruct (extract_member_under _ _ _ _ _ Hu Htp H) as [Ho Hk].
    split; [|split; [|done]].
    + eapply outside_below; [|exact Ho]. by apply prefix_app_r.
    + intros c Hc Hd. unfold Fs.is_dir. rewrite (proj2 Ho); [exact Hd|].
      apply diverge_siblings. congruence.
  - cbn in Hm. apply top_file_inv in Hm as (c0 & Harc & Hf).
    destruct member as [f d]. cbn [fst] in *.
    pose proof (extract_member_first _ _ _ _ _ _ _ Harc Htp H) as Ho.
    split; [|split; [|done]].
    + eapply outside_below; [|exact Ho]. by apply prefix_app_r.
    + intros c Hc Hd. destruct (decide (c = c0)) as [->|Hne].
      * pose proof (extract_member_places _ _ _ _ _ H) as Hpl.
        rewrite Hf, Harc in Hpl. unfold Fs.is_dir. by rewrite Hpl.
      * unfold Fs.is_dir. rewrite (proj2 Ho); [exact Hd|].
        apply diverge_siblings. congruence.
Qed.

Lemma extractall_sorted tp k members w w' :
  forallb (λ m, under_folder k m || top_file m) members = true →
  Fs.is_dir tp (fs w) = true →
  Zipfile.extractall members tp w = (Ret tt, w') →
  outside_untouched tp w w'
  ∧ (∀ c, c ≠ k → Fs.is_dir (tp ++ [c]) (fs w) = false →
          Fs.is_dir (tp ++ [c]) (fs w') = false)
  ∧ (existsb (under_folder k) members = true → Fs.is_dir (tp ++ [k]) (fs w') = true).
Proof.
  revert w. induction members as [|m members IH]; intros w Hall Htp H.
  - injection H as <-. split; [apply outside_refl|]. by split.
  - cbn [Zipfile.extractall] in H. cbn [forallb] in Hall.
    apply andb_true_iff in Hall as [Hm Hall].
    apply bind_ret_inv in H as ([] & w1 & H1 & H).
    destruct (extract_member_sorted _ _ _ _ _ Hm Htp H1) as (Ho & Hd & Hk).
    pose proof (extract_member_is_dir _ _ _ _ _ H1 Htp) as Htp1.
    destruct (IH _ Hall Htp1 H) as (Ho' & Hd' & Hk').
    split; [by eapply outside_trans|]. split; [by auto|].
    cbn [existsb]. intros [Hu|He]%orb_true_iff; [|by auto].
    eapply extractall_is_dir; [exact H|by auto].
Qed.

Lemma filter_one {A} (P : A → Prop) `{!∀ x, Decision (P x)} (l : list A) (a : A) :
  NoDup l → a ∈ l → (∀ y, y ∈ l → P y ↔ y = a) → filter P l = [a].
Proof.
  induction l as [|y l IH]; intros Hnd Hin HP; [by apply elem_of_nil in Hin|].
  apply NoDup_cons in Hnd as [Hy Hnd].
  destruct (decide (P y)) as [Hp|Hp].
  - pose proof (proj1 (HP y ltac:(by left)) Hp) as ->.
    rewrite filter_cons_True by done. f_equal.
    clear IH Hin Hp. induction l as [|y l IH]; [done|].
    apply not_elem_of_cons in Hy as [Hya Hy]. apply NoDup_cons in Hnd as [_ Hnd].
    rewrite filter_cons_False.
    + apply IH; [done|done|]. intros y' Hy'. apply HP.
      apply elem_of_cons in Hy' as [->|Hy']; [by left|]. by right; right.
    + intros Hp. apply Hya. symmetry. apply HP; [by right; left|done].
  - rewrite filter_cons_False by done.
    apply IH; [done| |].
    + apply elem_of_cons in Hin as [->|Hin]; [|done].
      destruct Hp. apply HP; [by left|done].
    + intros y' Hy'. apply HP. by right.
Qed.

(** A directory in which [k] is the only directory. *)
Lemma subdirectories_only tp k t :
  Fs.is_dir tp t = true → Fs.is_dir (tp ++ [k]) t = true →
  (∀ c, c ≠ k → Fs.is_dir (tp ++ [c]) t = false) →
  subdirectories tp t = [tp ++ [k]].
Proof.
  intros [es Hes]%is_dir_lookup Hk Hother.
  unfold subdirectories. rewrite Hes. apply filter_one.
  - apply NoDup_fmap_2; [|apply NoDup_fst_map_to_list].
    intros a b Hab. by apply app_inj_tail in Hab as [_ ->].
  - apply list_elem_of_fmap. exists k. split; [done|].
    pose proof Hk as [ek Hek]%is_dir_lookup. rewrite lookup_app, Hes in Hek. cbn in Hek.
    destruct (es !! k) as [sub|] eqn:Hsub; [|done].
    unfold Fs.names. apply list_elem_of_fmap. exists (k, sub).
    split; [done|]. by apply elem_of_map_to_list.
  - intros y [c [-> _]]%list_elem_of_fmap. split.
    + intros Hd. destruct (decide (c = k)) as [->|Hc]; [done|].
      by rewrite (Hother c Hc) in Hd.
    + intros Heq. apply app_inj_tail in Heq as [_ ->]. done.
Qed.

(** X19.  An archive without a wrapping folder is taken for a wrapped
    one when it holds exactly one folder beside its files.  The members
    are files at the top of the archive and members in one folder [k];
    [k] is not the name of the scratch directory [<stem>_tmp], the
    install directory is there and holds nothing or a directory under
    the name [k], the scratch directory is not there, and the extraction
    succeeds.  Then [install] takes [k] for the plugin root and places
    it at [install_dir / k]; the files at the top of the archive are
    dropped with the scratch directory, of which nothing is left, and
    nothing else in the install directory or outside it changes.  When,
    moreover, the archive holds no [manifest.json] in [k], [install]
    raises InvalidPlugin, although a manifest may be at the top of the
    archive. *)
Theorem install_archive_with_one_folder
    (self : Marketplace) (plugin_source : string) (w : world)
    (d0 : fdata) (z : list (string * fdata)) (k : string) :
  let src := Pathlib.Path plugin_source in
  let inst := install_dir self in
  let x := Pathlib.stem src +:+ "_tmp" in
  is_archive plugin_source →
  Fs.lookup src (fs w) = Some (File d0) → zip_of d0 = Some z →
  Fs.is_dir inst (fs w) = true →
  Fs.lookup (inst ++ [x]) (fs w) = None →
  forallb (λ m, under_folder k m || top_file m) z = true →
  existsb (under_folder k) z = true →
  k ≠ x →
  (Fs.lookup (inst ++ [k]) (fs w) = None ∨ Fs.is_dir (inst ++ [k]) (fs w) = true) →
  (Zipfile.extractall z (inst ++ [x]) (PathIO.mkdir_parents (inst ++ [x]) w).2).1
  = Ret tt →
  ∃ w1,
    install_place self plugin_source w = (Ret (inst ++ [k]), w1)
    ∧ Fs.is_dir (inst ++ [k]) (fs w1) = true
    ∧ (∀ q, Fs.lookup (inst ++ [x] ++ q) (fs w1) = None)
    ∧ (∀ q, diverge (inst ++ [k]) q → diverge (inst ++ [x]) q →
            Fs.lookup q (fs w1) = Fs.lookup q (fs w))
    ∧ (∀ m c, m ∈ z → top_file m = true → Zipfile.arcname m.1 = [c] →
              c ≠ k → c ≠ x →
              Fs.lookup (inst ++ [c]) (fs w1) = Fs.lookup (inst ++ [c]) (fs w))
    ∧ (Forall (λ m, ¬ [k; "manifest.json"] `prefix_of` Zipfile.arcname m.1) z →
       install self plugin_source w = (Raise InvalidPlugin, w1)).
Proof.
  intros src inst x Hzip Hsrc Hz Hinst Hfresh Hall Hex1 Hkx Hdest Hext.
  set (tmpdir := inst ++ [x]) in *.
  pose proof Hinst as [es_i Hes_i]%is_dir_lookup.
  destruct (graft_in_dir inst x (Dir ∅) (fs w) es_i Hes_i) as [ta Hta].
  fold tmpdir in Hta.
  assert (Hmk : PathIO.mkdir_parents tmpdir w = (Ret tt, set_fs ta w)).
  { unfold PathIO.mkdir_parents. by rewrite Hfresh, Hta. }
  rewrite Hmk in Hext. cbn [snd] in Hext.
  set (wa := set_fs ta w) in *.
  destruct (Zipfile.extractall z tmpdir wa) as [r wb] eqn:Hex. cbn [fst] in Hext.
  subst r.
  assert (Hempty : ∀ q, q ≠ [] → Fs.lookup (tmpdir ++ q) (fs wa) = None).
  { intros [|c q] Hq; [done|]. unfold wa. cbn [fs set_fs]. rewrite lookup_app.
    rewrite (lookup_graft_eq _ _ _ _ Hta). cbn [mbind option_bind].
    apply lookup_empty_dir. }
  destruct (extractall_sorted _ _ _ _ _ Hall (mkdir_parents_is_dir _ _ _ Hmk) Hex)
    as ([_ Hout] & Hothers & Hk).
  specialize (Hk Hex1).
  assert (Hk_valid : valid_name k).
  { apply existsb_exists in Hex1 as (m & _ & (rest & Harc & _)%under_folder_inv).
    pose proof (arcname_valid m.1) as Hv. rewrite Harc in Hv. by inversion Hv. }
  assert (Hsub : subdirectories tmpdir (fs wb) = [tmpdir ++ [k]]).
  { apply subdirectories_only; [|done|].
    - eapply extractall_is_dir; [exact Hex|]. by eapply mkdir_parents_is_dir.
    - intros c Hc. apply Hothers; [done|]. unfold Fs.is_dir.
      by rewrite (Hempty [c]). }
  assert (Hframe_b : ∀ q, diverge tmpdir q →
            Fs.lookup q (fs wb) = Fs.lookup q (fs w)).
  { intros q Hq. rewrite (Hout _ Hq).
    unfold wa. cbn [fs set_fs]. by eapply lookup_graft_frame. }
  assert (Hdest' : Fs.lookup (inst ++ [k]) (fs wb) = None
                   ∨ Fs.is_dir (inst ++ [k]) (fs wb) = true).
  { unfold Fs.is_dir. rewrite Hframe_b; [exact Hdest|].
    apply diverge_siblings. congruence. }
  pose proof Hk as [es_k Hroot]%is_dir_lookup.
  destruct (tail_graft inst x k k wb es_k Hroot) as [t Hg].
  destruct (tail_cleanup inst x k k wb es_k Hroot Hkx Hdest' t Hg)
    as (_ & Hplaced & Hgone).
  fold tmpdir in Hplaced, Hgone.
  pose proof (install_place_archive_world self plugin_source w d0 z wa wb k es_k t
                Hzip Hsrc Hz Hmk Hex Hsub Hk_valid Hkx Hdest' Hroot Hg) as Hrun.
  fold src inst x tmpdir in Hrun.
  set (w1 := set_fs (Fs.remove tmpdir t) wb) in *.
  assert (Hframe : ∀ q, diverge (inst ++ [k]) q → diverge tmpdir q →
            Fs.lookup q (fs w1) = Fs.lookup q (fs w)).
  { intros q Hqk Hqx. unfold w1. cbn [fs set_fs].
    rewrite (lookup_remove_frame _ _ _ Hqx).
    rewrite (lookup_graft_frame _ _ _ _ _ Hg Hqk).
    rewrite lookup_remove_frame
      by (apply (diverge_below tmpdir); [by apply prefix_app_r|done]).
    rewrite (lookup_remove_frame _ _ _ Hqk). by apply Hframe_b. }
  exists w1. split; [done|]. split; [|split; [|split; [|split]]].
  - unfold w1. cbn [fs set_fs]. apply is_dir_lookup. eauto.
  - intros q. rewrite app_assoc. apply Hgone.
  - exact Hframe.
  - intros m c _ _ _ Hck Hcx.
    apply Hframe; apply diverge_siblings; congruence.
  - intros Hnoman. unfold install. erewrite bind_run by exact Hrun.
    rewrite install_manifest_cases.
    assert (Hnone : Fs.lookup (tmpdir ++ [k; "manifest.json"]) (fs wb) = None).
    { eapply extractall_none; [exact Hex| |by apply Hempty].
      eapply Forall_impl; [exact Hnoman|]. intros m Hm Hpre. apply Hm.
      by eapply prefix_app_inv. }
    replace (tmpdir ++ [k; "manifest.json"])
      with ((tmpdir ++ [k]) ++ ["manifest.json"]) in Hnone by by rewrite <- app_assoc.
    rewrite lookup_app, Hroot in Hnone.
    unfold w1. cbn [fs set_fs]. by rewrite lookup_app, Hplaced, Hnone.
Qed.

Lemma install_archive_with_one_folder_witness :
  ∃ w1,
    install Sample.mp "/dl/tool.zip" More.w_assets = (Raise InvalidPlugin, w1)
    ∧ Fs.is_dir (install_dir Sample.mp ++ ["assets"]) (fs w1) = true
    ∧ Fs.lookup (install_dir Sample.mp ++ ["tool_tmp"]) (fs w1) = None.
Proof.
  destruct (install_archive_with_one_folder Sample.mp "/dl/tool.zip" More.w_assets
              (Bytes NotUtf8 (Some More.assets_members) Sample.no_module)
              More.assets_members "assets")
    as (w1 & _ & Hdir & Hgone & _ & _ & Hinstall).
  - reflexivity.
  - vm_compute. reflexivity.
  - reflexivity.
  - vm_compute. reflexivity.
  - vm_compute. reflexivity.
  - vm_compute. reflexivity.
  - vm_compute. reflexivity.
  - vm_compute. discriminate.
  - left. vm_compute. reflexivity.
  - vm_compute. reflexivity.
  - exists w1. split; [|split; [done|]].
    + apply Hinstall. unfold More.assets_members.
      repeat constructor; cbn [fst]; vm_compute; intros [q Hq]; discriminate.
    + specialize (Hgone []). by rewrite app_nil_r in Hgone.
Defined.
